(** * taxi_bots: ride dispatch, fare boost, lifecycle and rating

    A shallow embedding of the Django models and services of the
    repository ([api/models.py], [api/services.py], [api/tasks.py]) and the
    properties of the dispatch core proved about them.

    Conventions of the embedding.
    - A database table with an integer or UUID primary key is a
      [gmap nat row]; [Model.save()] is an insert at the primary key
      (Django issues an UPDATE and falls back to INSERT).  Tables that
      are only appended to ([ride_statuses], [ratings]) are lists, oldest
      row first.
    - A [DecimalField] with two decimal places is a [Z] counting
      hundredths.  Nullable columns are [option]s.
    - Python exceptions are the [Raise] results of the monad [M]; a raised
      exception does not undo the writes that happened before it (the bots
      run in autocommit mode, nothing in the source opens a transaction).
    - The Telegram Bot API and the Celery broker are logs in the [World]:
      what was sent, deleted and scheduled. *)

From Stdlib Require Import ZArith QArith Bool Ascii Sorted Lia.
From stdpp Require Import gmap strings list fin_maps pretty sorting.

Local Open Scope string_scope.
Local Open Scope list_scope.
Local Open Scope Z_scope.

(** ** Python helpers *)

(** [needle in hay] on Python strings. *)
Fixpoint str_in (needle hay : string) : bool :=
  String.prefix needle hay ||
  match hay with
  | EmptyString => false
  | String _ rest => str_in needle rest
  end.

(** [a or b] where [a] is an optional [Decimal] and [b] a [Decimal]: [None]
    and zero are falsy. *)
Definition decimal_or (a : option Z) (b : Z) : Z :=
  match a with
  | Some v => if v =? 0 then b else v
  | None => b
  end.

(** Truthiness of a string that may be [None] (an omitted keyword argument). *)
Definition str_truthy (s : option string) : bool :=
  match s with
  | Some EmptyString => false
  | Some _ => true
  | None => false
  end.

(** ** Rows of the tables (api/models.py) *)

Module User.
(** Of [User] only the key the bots look users up by is needed. *)
Record t := mk { telegram_id : option string }.
End User.

Module Passenger.
Record t := mk { user : nat; total_rides : Z }.
Definition set_total_rides (n : Z) (p : t) : t :=
  {| user := user p; total_rides := n |}.
End Passenger.

Module Driver.
Record t := mk {
  user : nat;
  is_verified : bool;
  is_online : bool;
  total_rides : Z;
  average_rating : Q
}.
Definition set_total_rides (n : Z) (d : t) : t :=
  {| user := user d; is_verified := is_verified d; is_online := is_online d;
     total_rides := n; average_rating := average_rating d |}.
End Driver.

Module RideStatus.
(** A row of the status history. *)
Record t := mk { ride : nat; status : string; notes : string; created_at : Z }.
End RideStatus.

Module Rating.
Record t := mk {
  ride : nat;
  rated_by : nat;
  rated_user : nat;
  stars : Z;
  comment : string
}.
End Rating.

(** Celery tasks as they are scheduled ([task.delay(...)],
    [task.apply_async(...)]). *)
Inductive Task :=
  | notify_passenger_driver_assigned_task (ride_id : nat)
  | notify_passenger_ride_cancelled_task (ride_id : nat)
  | notify_drivers_about_boosted_ride_task (ride_id : nat)
  | auto_reject_ride_task (ride_id : nat) (driver_telegram_id : option string)
      (message_id : option nat).

(** The texts the driver bot sends; the first two carry the accept and
    reject buttons of the ride, and [cost] is [int(ride.display_cost)]. *)
Inductive Text :=
  | new_ride_request (ride_id : nat) (cost : Z)
  | boosted_ride_request (ride_id : nat) (cost : Z) (boosts : Z)
  | ride_timeout.

(** Calls the driver bot answered: a message sent (with the id Telegram
    gave it) and a message deleted. *)
Inductive BotCall :=
  | send_message (chat_id : string) (text : Text) (message_id : nat)
  | delete_message (chat_id : string) (message_id : nat).

Module Ride.
Record t := mk {
  passenger : nat;
  driver : option nat;
  estimated_cost : Z;
  final_cost : option Z;
  fare_boosts : Z;
  current_cost : option Z;
  status : string;
  created_at : Z;
  accepted_at : option Z;
  started_at : option Z;
  completed_at : option Z;
  cancelled_at : option Z;
  cancellation_reason : string
}.

Definition set_driver (d : option nat) (r : t) : t :=
  mk (passenger r) d (estimated_cost r) (final_cost r) (fare_boosts r)
     (current_cost r) (status r) (created_at r) (accepted_at r)
     (started_at r) (completed_at r) (cancelled_at r) (cancellation_reason r).
Definition set_status (s : string) (r : t) : t :=
  mk (passenger r) (driver r) (estimated_cost r) (final_cost r) (fare_boosts r)
     (current_cost r) s (created_at r) (accepted_at r)
     (started_at r) (completed_at r) (cancelled_at r) (cancellation_reason r).
Definition set_accepted_at (x : option Z) (r : t) : t :=
  mk (passenger r) (driver r) (estimated_cost r) (final_cost r) (fare_boosts r)
     (current_cost r) (status r) (created_at r) x
     (started_at r) (completed_at r) (cancelled_at r) (cancellation_reason r).
Definition set_started_at (x : option Z) (r : t) : t :=
  mk (passenger r) (driver r) (estimated_cost r) (final_cost r) (fare_boosts r)
     (current_cost r) (status r) (created_at r) (accepted_at r)
     x (completed_at r) (cancelled_at r) (cancellation_reason r).
Definition set_completed_at (x : option Z) (r : t) : t :=
  mk (passenger r) (driver r) (estimated_cost r) (final_cost r) (fare_boosts r)
     (current_cost r) (status r) (created_at r) (accepted_at r)
     (started_at r) x (cancelled_at r) (cancellation_reason r).
Definition set_cancelled (x : option Z) (reason : string) (r : t) : t :=
  mk (passenger r) (driver r) (estimated_cost r) (final_cost r) (fare_boosts r)
     (current_cost r) (status r) (created_at r) (accepted_at r)
     (started_at r) (completed_at r) x reason.
Definition set_boost (boosts : Z) (cost : option Z) (r : t) : t :=
  mk (passenger r) (driver r) (estimated_cost r) (final_cost r) boosts
     cost (status r) (created_at r) (accepted_at r)
     (started_at r) (completed_at r) (cancelled_at r) (cancellation_reason r).

(** [Ride.display_cost]: [self.current_cost or self.estimated_cost]. *)
Definition display_cost (r : t) : Z :=
  decimal_or (current_cost r) (estimated_cost r).
End Ride.

(** ** The world: database, clock, broker and bot *)

Record World := mkWorld {
  users : gmap nat User.t;
  passengers : gmap nat Passenger.t;
  drivers : gmap nat Driver.t;
  rides : gmap nat Ride.t;
  ride_statuses : list RideStatus.t;
  ratings : list Rating.t;
  app_settings : gmap string Z;
  now : Z;
  celery : list (Z * Task);
  bot : list BotCall
}.

Definition set_rides (x : gmap nat Ride.t) (w : World) : World :=
  mkWorld (users w) (passengers w) (drivers w) x (ride_statuses w) (ratings w)
          (app_settings w) (now w) (celery w) (bot w).
Definition set_passengers (x : gmap nat Passenger.t) (w : World) : World :=
  mkWorld (users w) x (drivers w) (rides w) (ride_statuses w) (ratings w)
          (app_settings w) (now w) (celery w) (bot w).
Definition set_drivers (x : gmap nat Driver.t) (w : World) : World :=
  mkWorld (users w) (passengers w) x (rides w) (ride_statuses w) (ratings w)
          (app_settings w) (now w) (celery w) (bot w).
Definition set_ride_statuses (x : list RideStatus.t) (w : World) : World :=
  mkWorld (users w) (passengers w) (drivers w) (rides w) x (ratings w)
          (app_settings w) (now w) (celery w) (bot w).
Definition set_app_settings (x : gmap string Z) (w : World) : World :=
  mkWorld (users w) (passengers w) (drivers w) (rides w) (ride_statuses w)
          (ratings w) x (now w) (celery w) (bot w).
Definition set_celery (x : list (Z * Task)) (w : World) : World :=
  mkWorld (users w) (passengers w) (drivers w) (rides w) (ride_statuses w)
          (ratings w) (app_settings w) (now w) x (bot w).
Definition set_bot (x : list BotCall) (w : World) : World :=
  mkWorld (users w) (passengers w) (drivers w) (rides w) (ride_statuses w)
          (ratings w) (app_settings w) (now w) (celery w) x.

(** ** Exceptions and the monad of the services *)

Inductive exn :=
  | User_DoesNotExist
  | Passenger_DoesNotExist
  | Driver_DoesNotExist
  | Ride_DoesNotExist
  | MultipleObjectsReturned
  | AttributeError
  | TypeError
  | TelegramError.

Inductive result (A : Type) :=
  | Ok (a : A)
  | Raise (e : exn).
Arguments Ok {A} a.
Arguments Raise {A} e.

Definition M (A : Type) : Type := World -> result A * World.

Definition ret {A} (a : A) : M A := fun w => (Ok a, w).
Definition raise {A} (e : exn) : M A := fun w => (Raise e, w).
Definition bind {A B} (m : M A) (k : A -> M B) : M B :=
  fun w => match m w with
           | (Ok a, w') => k a w'
           | (Raise e, w') => (Raise e, w')
           end.
Definition get_world : M World := fun w => (Ok w, w).
Definition modify (f : World -> World) : M unit := fun w => (Ok tt, f w).
(** [try: m except e: h e]. *)
Definition try_except {A} (m : M A) (h : exn -> M A) : M A :=
  fun w => match m w with
           | (Ok a, w') => (Ok a, w')
           | (Raise e, w') => h e w'
           end.

Notation "'let*' x ':=' m 'in' k" := (bind m (fun x => k))
  (at level 10, x name, m at level 100, k at level 200).
Notation "'let*' ' p ':=' m 'in' k" :=
  (bind m (fun x => match x with p => k end))
  (at level 10, p pattern, m at level 100, k at level 200).
Notation "'run' m 'then' k" := (bind m (fun _ => k))
  (at level 10, m at level 100, k at level 200).

(** ** The ORM calls the services make *)

(** [Model.objects.filter(...)] on a table: the rows that satisfy [P]. *)
Definition objects_filter {A} (P : nat -> A -> bool) (table : gmap nat A)
  : list (nat * A) :=
  List.filter (fun kv => P kv.1 kv.2) (map_to_list table).

(** [Model.objects.get(...)]: the one row that satisfies [P]. *)
Definition objects_get {A} (not_found : exn) (P : nat -> A -> bool)
    (table : gmap nat A) : result (nat * A) :=
  match objects_filter P table with
  | [] => Raise not_found
  | [kv] => Ok kv
  | _ => Raise MultipleObjectsReturned
  end.

(** [User.objects.get(telegram_id=telegram_id)]. *)
Definition User_objects_get (telegram_id : string) : M (nat * User.t) :=
  fun w =>
    (objects_get User_DoesNotExist
       (fun _ u => bool_decide (User.telegram_id u = Some telegram_id))
       (users w), w).

(** [user.passenger_profile], the reverse side of the one-to-one field. *)
Definition passenger_profile (user : nat) : M (nat * Passenger.t) :=
  fun w =>
    (objects_get Passenger_DoesNotExist
       (fun _ p => bool_decide (Passenger.user p = user)) (passengers w), w).

(** [user.driver_profile]. *)
Definition driver_profile (user : nat) : M (nat * Driver.t) :=
  fun w =>
    (objects_get Driver_DoesNotExist
       (fun _ d => bool_decide (Driver.user d = user)) (drivers w), w).

(** [hasattr(user, 'passenger_profile')]: the related-object lookup failing
    is an [AttributeError], which [hasattr] turns into [False]. *)
Definition hasattr_passenger_profile (user : nat) : M bool :=
  try_except (run passenger_profile user then ret true)
    (fun e => match e with
              | Passenger_DoesNotExist => ret false
              | _ => raise e
              end).

Definition hasattr_driver_profile (user : nat) : M bool :=
  try_except (run driver_profile user then ret true)
    (fun e => match e with
              | Driver_DoesNotExist => ret false
              | _ => raise e
              end).

(** [ride.passenger], following the foreign key. *)
Definition ride_passenger (r : Ride.t) : M (nat * Passenger.t) :=
  fun w => match passengers w !! Ride.passenger r with
           | Some p => (Ok (Ride.passenger r, p), w)
           | None => (Raise Passenger_DoesNotExist, w)
           end.

(** [ride.driver]: [None] or the driver row. *)
Definition ride_driver (r : Ride.t) : M (option (nat * Driver.t)) :=
  fun w => match Ride.driver r with
           | None => (Ok None, w)
           | Some d => match drivers w !! d with
                       | Some row => (Ok (Some (d, row)), w)
                       | None => (Raise Driver_DoesNotExist, w)
                       end
           end.

(** [Ride.objects.get(id=ride_id)]. *)
Definition Ride_objects_get (ride_id : nat) : M (nat * Ride.t) :=
  fun w => match rides w !! ride_id with
           | Some r => (Ok (ride_id, r), w)
           | None => (Raise Ride_DoesNotExist, w)
           end.

(** [Ride.objects.get(id=ride_id, status=status)]. *)
Definition Ride_objects_get_status (ride_id : nat) (status : string)
  : M (nat * Ride.t) :=
  fun w => match rides w !! ride_id with
           | Some r => if String.eqb (Ride.status r) status
                       then (Ok (ride_id, r), w)
                       else (Raise Ride_DoesNotExist, w)
           | None => (Raise Ride_DoesNotExist, w)
           end.

(** [timezone.now()]. *)
Definition timezone_now : M Z := fun w => (Ok (now w), w).

(** [task.apply_async(args, countdown=countdown)]: the task joins the queue
    with the time it is due. *)
Definition apply_async (t : Task) (countdown : Z) : M unit :=
  modify (fun w => set_celery (celery w ++ [(now w + countdown, t)]) w).

(** [task.delay(...)]. *)
Definition delay (t : Task) : M unit := apply_async t 0.

(** ** api/models.py *)

(** [ride.save()] for a ride that was loaded from the table: the row is
    written whole, and the [post_save] receiver
    [notify_passenger_on_driver_assignment] schedules the passenger's
    notification when the saved ride is assigned and has a driver.  (The
    other receiver, [notify_drivers_on_ride_creation], only acts on
    [created], which is false for a loaded row.) *)
Definition Ride_save (self : nat * Ride.t) : M unit :=
  run modify (fun w => set_rides (<[self.1 := self.2]> (rides w)) w) then
  if String.eqb (Ride.status self.2) "assigned"
     && bool_decide (is_Some (Ride.driver self.2))
  then delay (notify_passenger_driver_assigned_task self.1)
  else ret tt.

(** [RideStatus.objects.create(ride=self, status=..., notes=...)];
    [created_at] is [auto_now_add]. *)
Definition RideStatus_objects_create (ride : nat) (status notes : string)
  : M unit :=
  modify (fun w =>
    set_ride_statuses
      (ride_statuses w ++ [RideStatus.mk ride status notes (now w)]) w).

(** The first-time-only timestamps of [Ride.update_status]: the
    [if]/[elif] chain on the new status. *)
Definition stamp (new_status notes : string) (now : Z) (r : Ride.t) : Ride.t :=
  if String.eqb new_status "assigned" && negb (bool_decide (is_Some (Ride.accepted_at r)))
  then Ride.set_accepted_at (Some now) r
  else if String.eqb new_status "in_progress" && negb (bool_decide (is_Some (Ride.started_at r)))
  then Ride.set_started_at (Some now) r
  else if String.eqb new_status "completed" && negb (bool_decide (is_Some (Ride.completed_at r)))
  then Ride.set_completed_at (Some now) r
  else if str_in "cancelled" new_status && negb (bool_decide (is_Some (Ride.cancelled_at r)))
  then Ride.set_cancelled (Some now) notes r
  else r.

(** [Ride.update_status(self, new_status, notes='')].  The result is the
    instance as the method leaves it. *)
Definition update_status (self : nat * Ride.t) (new_status notes : string)
  : M (nat * Ride.t) :=
  let r := Ride.set_status new_status self.2 in
  let* now := timezone_now in
  let self' := (self.1, stamp new_status notes now r) in
  run Ride_save self' then
  run RideStatus_objects_create self'.1 new_status notes then
  ret self'.

(** A number as [AppSettings] hands it out: the [Decimal] of a stored row,
    or the Python [float] literal that [objects.create(value=100.00)] leaves
    on the fresh instance (both in hundredths). *)
Inductive number :=
  | decimal (v : Z)
  | float (v : Z).

(** [Decimal + number]: Python refuses to add a [float] to a [Decimal]. *)
Definition decimal_add (a : Z) (b : number) : M Z :=
  match b with
  | decimal v => ret (a + v)
  | float _ => raise TypeError
  end.

Module AppSettings.
(** [cls.objects.get(key=key)], else [cls.objects.create(key=key,
    value=default)] and the value of the fresh instance. *)
Definition get_or_create (key : string) (default : Z) : M number :=
  fun w => match app_settings w !! key with
           | Some v => (Ok (decimal v), w)
           | None => (Ok (float default),
                      set_app_settings (<[key := default]> (app_settings w)) w)
           end.

Definition get_default_ride_cost : M number :=
  get_or_create "default_ride_cost" 40000.

Definition get_fare_boost_amount : M number :=
  get_or_create "fare_boost_amount" 10000.

(** [int(setting.value)] truncates towards zero. *)
Definition get_max_fare_boosts : M Z :=
  let* v := get_or_create "max_fare_boosts" 300 in
  match v with
  | decimal v | float v => ret (Z.quot v 100)
  end.
End AppSettings.

(** [str(d)] of a [Decimal] with two places, and of an [int]. *)
Definition str_int (n : Z) : string := pretty n.
Definition str_decimal (v : Z) : string :=
  let a := Z.abs v in
  (if v <? 0 then "-" else "") +:+ pretty (a / 100) +:+ "."
  +:+ pretty (a / 10 mod 10) +:+ pretty (a mod 10).
Definition str_number (x : number) : string :=
  match x with
  | decimal v => str_decimal v
  | float v => pretty (v / 100) +:+ "." +:+ pretty (v / 10 mod 10)
  end.

(** [Ride.boost_fare(self)]: the flag, the message and the instance as the
    method leaves it. *)
Definition boost_fare (self : nat * Ride.t) : M (bool * string * (nat * Ride.t)) :=
  let* max_boosts := AppSettings.get_max_fare_boosts in
  let* boost_amount := AppSettings.get_fare_boost_amount in
  if Ride.fare_boosts self.2 >=? max_boosts
  then ret (false,
            "Maximum " +:+ str_int max_boosts +:+ " fare boosts already applied",
            self)
  else if negb (String.eqb (Ride.status self.2) "requested")
  then ret (false, "Can only boost fare for pending rides", self)
  else
    let current_cost :=
      decimal_or (Ride.current_cost self.2) (Ride.estimated_cost self.2) in
    let* new_cost := decimal_add current_cost boost_amount in
    let self' :=
      (self.1, Ride.set_boost (Ride.fare_boosts self.2 + 1) (Some new_cost) self.2) in
    run Ride_save self' then
    ret (true,
         "Fare boosted by " +:+ str_number boost_amount +:+ " tenge. New cost: "
           +:+ str_decimal new_cost +:+ " tenge",
         self').

(** ** api/services.py *)

(** What a service returns next to its success flag: a message, a model
    instance, or [None]. *)
Inductive Payload :=
  | p_str (s : string)
  | p_ride (ride : nat * Ride.t)
  | p_rating (rating : Rating.t)
  | p_none.

(** [driver.save()] and [passenger.save()]. *)
Definition Driver_save (self : nat * Driver.t) : M unit :=
  modify (fun w => set_drivers (<[self.1 := self.2]> (drivers w)) w).
Definition Passenger_save (self : nat * Passenger.t) : M unit :=
  modify (fun w => set_passengers (<[self.1 := self.2]> (passengers w)) w).

(** [hasattr(user, 'passenger_profile') and ride.passenger.user == user]. *)
Definition is_ride_passenger (user : nat) (ride : Ride.t) : M bool :=
  let* has := hasattr_passenger_profile user in
  if has then
    let* p := ride_passenger ride in
    ret (bool_decide (Passenger.user p.2 = user))
  else ret false.

(** [hasattr(user, 'driver_profile') and ride.driver and
    ride.driver.user == user]. *)
Definition is_ride_driver (user : nat) (ride : Ride.t) : M bool :=
  let* has := hasattr_driver_profile user in
  if has then
    let* d := ride_driver ride in
    match d with
    | Some d => ret (bool_decide (Driver.user d.2 = user))
    | None => ret false
    end
  else ret false.

(** The statuses of a ride a driver is busy with. *)
Definition active_statuses : list string :=
  ["assigned"; "driver_enroute"; "driver_arrived"; "in_progress"].

Definition status_in (statuses : list string) (s : string) : bool :=
  existsb (String.eqb s) statuses.

(** [Ride.objects.filter(driver=driver, status__in=[...])]. *)
Definition active_rides (driver : nat) (w : World) : list (nat * Ride.t) :=
  objects_filter
    (fun _ r => bool_decide (Ride.driver r = Some driver)
                && status_in active_statuses (Ride.status r))
    (rides w).

Definition active_ride_message : string :=
  "У вас есть активная поездка. Завершите её перед принятием новой.".

(** [DriverService.accept_ride(telegram_id, ride_id)]. *)
Definition accept_ride (telegram_id : string) (ride_id : nat)
  : M (bool * Payload) :=
  try_except
    (let* user := User_objects_get telegram_id in
     let* driver := driver_profile user.1 in
     let* w := get_world in
     if negb (bool_decide (active_rides driver.1 w = []))
     then ret (false, p_str active_ride_message)
     else
       let* ride := Ride_objects_get_status ride_id "requested" in
       let ride := (ride.1, Ride.set_driver (Some driver.1) ride.2) in
       let* ride := update_status ride "assigned" "Driver assigned" in
       ret (true, p_ride ride))
    (fun e => match e with
              | Ride_DoesNotExist => ret (false, p_str "Ride not available")
              | _ => ret (false, p_str "Error accepting ride")
              end).

(** The counters bumped by [update_ride_status] on completion. *)
Definition count_completed (ride : Ride.t) : M unit :=
  let* d := ride_driver ride in
  run match d with
      | Some d =>
          Driver_save (d.1, Driver.set_total_rides (Driver.total_rides d.2 + 1) d.2)
      | None => ret tt
      end then
  let* p := ride_passenger ride in
  Passenger_save (p.1, Passenger.set_total_rides (Passenger.total_rides p.2 + 1) p.2).

(** [RideService.update_ride_status(ride_id, new_status, notes='',
    telegram_id=None)]. *)
Definition update_ride_status (ride_id : nat) (new_status notes : string)
    (telegram_id : option string) : M (bool * Payload) :=
  try_except
    (let* ride := Ride_objects_get ride_id in
     let* allowed :=
       if str_truthy telegram_id then
         let* user := User_objects_get (default "" telegram_id) in
         let* p := is_ride_passenger user.1 ride.2 in
         if p then ret true else is_ride_driver user.1 ride.2
       else ret true in
     if negb allowed then ret (false, p_str "Permission denied")
     else
       let* ride := update_status ride new_status notes in
       run (if String.eqb new_status "completed"
            then count_completed ride.2 else ret tt) then
       ret (true, p_ride ride))
    (fun _ => ret (false, p_none)).

(** [RideService.cancel_ride(ride_id, telegram_id, reason='')]. *)
Definition cancel_ride (ride_id : nat) (telegram_id reason : string)
  : M (bool * Payload) :=
  try_except
    (let* user := User_objects_get telegram_id in
     let* ride := Ride_objects_get ride_id in
     let* p := is_ride_passenger user.1 ride.2 in
     if p then
       let* ride := update_status ride "cancelled_by_passenger" reason in
       ret (true, p_ride ride)
     else
       let* d := is_ride_driver user.1 ride.2 in
       if d then
         let* ride := update_status ride "cancelled_by_driver" reason in
         ret (true, p_ride ride)
       else ret (false, p_str "Permission denied"))
    (fun _ => ret (false, p_none)).

(** [Ride.objects.get(id=ride_id, passenger=passenger, status='requested')]. *)
Definition Ride_objects_get_owned (ride_id passenger : nat) : M (nat * Ride.t) :=
  fun w => match rides w !! ride_id with
           | Some r => if bool_decide (Ride.passenger r = passenger)
                          && String.eqb (Ride.status r) "requested"
                       then (Ok (ride_id, r), w)
                       else (Raise Ride_DoesNotExist, w)
           | None => (Raise Ride_DoesNotExist, w)
           end.

(** [PassengerService.boost_ride_fare(telegram_id, ride_id)]: the flag, the
    message and the new display cost. *)
Definition boost_ride_fare (telegram_id : string) (ride_id : nat)
  : M (bool * string * option Z) :=
  try_except
    (let* user := User_objects_get telegram_id in
     let* passenger := passenger_profile user.1 in
     let* ride := Ride_objects_get_owned ride_id passenger.1 in
     let* '(success, message, ride) := boost_fare ride in
     if (success : bool) then
       run delay (notify_drivers_about_boosted_ride_task ride.1) then
       ret (true, message, Some (Ride.display_cost ride.2))
     else ret (false, message, None))
    (fun e => match e with
              | Ride_DoesNotExist =>
                  ret (false, "Ride not found or cannot be boosted", None)
              | _ => ret (false, "Error boosting fare", None)
              end).

(** [RideService.increase_ride_cost(ride_id, telegram_id)], the boost the
    passenger bot calls. *)
Definition increase_ride_cost (ride_id : nat) (telegram_id : string)
  : M (bool * Payload) :=
  try_except
    (let* user := User_objects_get telegram_id in
     let* ride := Ride_objects_get ride_id in
     let* has := hasattr_passenger_profile user.1 in
     let* denied :=
       if negb has then ret true
       else let* p := ride_passenger ride.2 in
            ret (negb (bool_decide (Passenger.user p.2 = user.1))) in
     if (denied : bool) then ret (false, p_str "Permission denied")
     else if negb (String.eqb (Ride.status ride.2) "requested")
     then ret (false, p_str "Ride already assigned or in progress")
     else
       let* '(success, message, ride) := boost_fare ride in
       if negb success then ret (false, p_str message)
       else
         run delay (notify_drivers_about_boosted_ride_task ride.1) then
         ret (true, p_ride ride))
    (fun _ => ret (false, p_none)).









(** ** api/tasks.py *)

Section Tasks.

(** The [distance_km] that [get_nearby_rides_for_new_ride] computes for a
    driver and a ride, in hundredths of a kilometre: [0] for a driver
    without coordinates or when the computation fails, else the rounded
    geodesic distance to the pickup point. *)
Variable distance_km : nat -> nat -> Z.

(** Whether [os.getenv('TG_BOT_TOKEN_DRIVER')] is set. *)
Variable TG_BOT_TOKEN_DRIVER : bool.

(** Whether Telegram accepts a message for a chat, and the deletion of a
    message of a chat. *)
Variable send_ok : string -> bool.
Variable delete_ok : string -> nat -> bool.

(** [available_drivers.sort(key=lambda x: x['distance_km'])]: a stable
    sort, ascending. *)
Fixpoint insert_by_distance {A} (x : A * Z) (l : list (A * Z)) : list (A * Z) :=
  match l with
  | [] => [x]
  | y :: l' => if x.2 <=? y.2 then x :: l else y :: insert_by_distance x l'
  end.

Definition sort_by_distance {A} (l : list (A * Z)) : list (A * Z) :=
  foldr insert_by_distance [] l.

(** [PassengerService.get_nearby_rides_for_new_ride(ride)]: every online
    and verified driver with the distance, closest first. *)
Definition get_nearby_rides_for_new_ride (ride : nat * Ride.t)
  : M (list ((nat * Driver.t) * Z)) :=
  let* w := get_world in
  let available_drivers :=
    map (fun d : nat * Driver.t => (d, distance_km d.1 ride.1))
        (objects_filter
           (fun _ d => Driver.is_online d && Driver.is_verified d)
           (drivers w)) in
  ret (sort_by_distance available_drivers).

(** [driver.user.telegram_id]. *)
Definition driver_user_telegram_id (driver : Driver.t) : M (option string) :=
  fun w => match users w !! Driver.user driver with
           | Some u => (Ok (User.telegram_id u), w)
           | None => (Raise User_DoesNotExist, w)
           end.

(** [bot.send_message(chat_id=..., text=...)] and the id of the message. *)
Definition bot_send_message (chat_id : option string) (text : Text) : M nat :=
  fun w =>
    match chat_id with
    | Some c =>
        if send_ok c then
          let message_id := S (length (bot w)) in
          (Ok message_id, set_bot (bot w ++ [send_message c text message_id]) w)
        else (Raise TelegramError, w)
    | None => (Raise TelegramError, w)
    end.

(** [bot.delete_message(chat_id=..., message_id=...)]. *)
Definition bot_delete_message (chat_id : option string) (message_id : nat)
  : M unit :=
  fun w =>
    match chat_id with
    | Some c =>
        if delete_ok c message_id
        then (Ok tt, set_bot (bot w ++ [delete_message c message_id]) w)
        else (Raise TelegramError, w)
    | None => (Raise TelegramError, w)
    end.

(** [send_driver_notification(driver_telegram_id, ride, distance_km)]: the
    offer with its buttons, and the expiry task due in 60 seconds. *)
Definition send_driver_notification (driver_telegram_id : option string)
    (ride : nat * Ride.t) (distance : Z) : M bool :=
  try_except
    (if negb TG_BOT_TOKEN_DRIVER then ret false
     else
       let* message_id :=
         bot_send_message driver_telegram_id
           (new_ride_request ride.1 (Z.quot (Ride.display_cost ride.2) 100)) in
       run apply_async
             (auto_reject_ride_task ride.1 driver_telegram_id (Some message_id))
             60 then
       ret true)
    (fun _ => ret false).

(** [send_boosted_ride_notification(driver_telegram_id, ride, distance_km)]. *)
Definition send_boosted_ride_notification (driver_telegram_id : option string)
    (ride : nat * Ride.t) (distance : Z) : M bool :=
  try_except
    (if negb TG_BOT_TOKEN_DRIVER then ret false
     else
       let* message_id :=
         bot_send_message driver_telegram_id
           (boosted_ride_request ride.1
              (Z.quot (Ride.display_cost ride.2) 100) (Ride.fare_boosts ride.2)) in
       run apply_async
             (auto_reject_ride_task ride.1 driver_telegram_id (Some message_id))
             60 then
       ret true)
    (fun _ => ret false).

(** The loop of the two broadcasts: one notification per candidate, and
    the number that went out. *)
Fixpoint notify_each (send : option string -> nat * Ride.t -> Z -> M bool)
    (ride : nat * Ride.t) (candidates : list ((nat * Driver.t) * Z)) : M Z :=
  match candidates with
  | [] => ret 0
  | driver_data :: rest =>
      let* telegram_id := driver_user_telegram_id driver_data.1.2 in
      let* success := send telegram_id ride driver_data.2 in
      let* notifications_sent := notify_each send ride rest in
      ret (if (success : bool) then 1 + notifications_sent else notifications_sent)
  end.

(** [notify_drivers_about_new_ride(ride_id)]. *)
Definition notify_drivers_about_new_ride (ride_id : nat) : M bool :=
  try_except
    (let* ride := Ride_objects_get_status ride_id "requested" in
     let* nearby_drivers := get_nearby_rides_for_new_ride ride in
     if bool_decide (nearby_drivers = []) then ret false
     else
       let* notifications_sent :=
         notify_each send_driver_notification ride nearby_drivers in
       ret (0 <? notifications_sent))
    (fun _ => ret false).

(** [notify_drivers_about_boosted_ride(ride_id)]. *)
Definition notify_drivers_about_boosted_ride (ride_id : nat) : M bool :=
  try_except
    (let* ride := Ride_objects_get_status ride_id "requested" in
     let* available_drivers := get_nearby_rides_for_new_ride ride in
     if bool_decide (available_drivers = []) then ret false
     else
       let* notifications_sent :=
         notify_each send_boosted_ride_notification ride available_drivers in
       ret (0 <? notifications_sent))
    (fun _ => ret false).

(** [cancel_ride_no_drivers(ride_id)]. *)
Definition cancel_ride_no_drivers (ride_id : nat) : M bool :=
  try_except
    (let* ride := Ride_objects_get_status ride_id "requested" in
     let* ride := update_status ride "cancelled_by_system" "No drivers available" in
     run delay (notify_passenger_ride_cancelled_task ride_id) then
     ret true)
    (fun _ => ret false).

(** [str(x)] of a telegram id that may be [None]. *)
Definition str_opt (x : option string) : string := default "None" x.

(** The loop of [reassign_ride_to_next_driver] that picks [next_driver]:
    the first candidate whose telegram id is not the excluded one. *)
Fixpoint find_next_driver (exclude_driver_telegram_id : option string)
    (available_drivers : list ((nat * Driver.t) * Z))
  : M (option ((nat * Driver.t) * Z)) :=
  match available_drivers with
  | [] => ret None
  | driver_data :: rest =>
      let* skip :=
        if str_truthy exclude_driver_telegram_id then
          let* telegram_id := driver_user_telegram_id driver_data.1.2 in
          ret (String.eqb (str_opt telegram_id) (str_opt exclude_driver_telegram_id))
        else ret false in
      if (skip : bool) then find_next_driver exclude_driver_telegram_id rest
      else ret (Some driver_data)
  end.

(** [reassign_ride_to_next_driver(ride_id, exclude_driver_telegram_id)]. *)
Definition reassign_ride_to_next_driver (ride_id : nat)
    (exclude_driver_telegram_id : option string) : M bool :=
  try_except
    (let* ride := Ride_objects_get_status ride_id "requested" in
     let* available_drivers := get_nearby_rides_for_new_ride ride in
     if bool_decide (available_drivers = []) then
       run cancel_ride_no_drivers ride_id then ret false
     else
       let* next_driver :=
         find_next_driver exclude_driver_telegram_id available_drivers in
       match next_driver with
       | None => run cancel_ride_no_drivers ride_id then ret false
       | Some next_driver =>
           let* telegram_id := driver_user_telegram_id next_driver.1.2 in
           let* success :=
             send_driver_notification telegram_id ride next_driver.2 in
           run (if (success : bool) then ret true
                else cancel_ride_no_drivers ride_id) then
           ret success
       end)
    (fun _ => ret false).

(** [auto_reject_ride(ride_id, driver_telegram_id, message_id=None)], the
    expiry of one offer. *)
Definition auto_reject_ride (ride_id : nat) (driver_telegram_id : option string)
    (message_id : option nat) : M bool :=
  try_except
    (let* ride := Ride_objects_get_status ride_id "requested" in
     run match message_id with
         | Some (S m) =>
             if TG_BOT_TOKEN_DRIVER then
               try_except (bot_delete_message driver_telegram_id (S m))
                          (fun _ => ret tt)
             else ret tt
         | _ => ret tt
         end then
     run (if TG_BOT_TOKEN_DRIVER then
            run bot_send_message driver_telegram_id ride_timeout then ret tt
          else ret tt) then
     run try_except
           (run reassign_ride_to_next_driver ride_id driver_telegram_id then ret tt)
           (fun _ => ret tt) then
     ret true)
    (fun e => match e with
              | Ride_DoesNotExist => ret true
              | _ => ret false
              end).

End Tasks.

(** ** Several calls in a row, and calls that overlap *)

(** The clock moves between calls. *)
Definition set_now (t : Z) (w : World) : World :=
  mkWorld (users w) (passengers w) (drivers w) (rides w) (ride_statuses w)
          (ratings w) (app_settings w) t (celery w) (bot w).

(** A sequence of [ride.update_status(new_status, notes)] calls on one
    instance, each at its own time. *)
Fixpoint update_status_seq (self : nat * Ride.t)
    (calls : list (Z * string * string)) : M (nat * Ride.t) :=
  match calls with
  | [] => ret self
  | (t, new_status, notes) :: rest =>
      run modify (set_now t) then
      let* self := update_status self new_status notes in
      update_status_seq self rest
  end.

(** The history rows a sequence of calls writes for ride [ride]. *)
Definition history_of (ride : nat) (calls : list (Z * string * string))
  : list RideStatus.t :=
  map (fun c : Z * string * string => RideStatus.mk ride c.1.2 c.2 c.1.1) calls.


(** Accept attempts of several drivers for one ride, one after the other. *)
Fixpoint accept_ride_seq (telegram_ids : list string) (ride_id : nat)
  : M (list (bool * Payload)) :=
  match telegram_ids with
  | [] => ret []
  | telegram_id :: rest =>
      let* r := accept_ride telegram_id ride_id in
      let* rs := accept_ride_seq rest ride_id in
      ret (r :: rs)
  end.

(** [accept_ride] talks to the database twice: it first reads (the user,
    the driver, the driver's active rides, the requested ride) and later
    writes (the row with the driver bound, the history entry).  Nothing
    ties the two together, so another call can run in between. *)
Definition accept_ride_reads (telegram_id : string) (ride_id : nat)
  : M (bool * Payload + nat * Ride.t) :=
  try_except
    (let* user := User_objects_get telegram_id in
     let* driver := driver_profile user.1 in
     let* w := get_world in
     if negb (bool_decide (active_rides driver.1 w = []))
     then ret (inl (false, p_str active_ride_message))
     else
       let* ride := Ride_objects_get_status ride_id "requested" in
       ret (inr (ride.1, Ride.set_driver (Some driver.1) ride.2)))
    (fun e => match e with
              | Ride_DoesNotExist => ret (inl (false, p_str "Ride not available"))
              | _ => ret (inl (false, p_str "Error accepting ride"))
              end).

Definition accept_ride_writes (ride : nat * Ride.t) : M (bool * Payload) :=
  let* ride := update_status ride "assigned" "Driver assigned" in
  ret (true, p_ride ride).

(** A call of [accept_ride] in flight. *)
Inductive accept_call :=
  | call_started (telegram_id : string) (ride_id : nat)
  | call_loaded (ride : nat * Ride.t)
  | call_returned (r : bool * Payload).

(** One database round of a call. *)
Definition call_step (c : accept_call) (w : World) : accept_call * World :=
  match c with
  | call_started telegram_id ride_id =>
      match accept_ride_reads telegram_id ride_id w with
      | (Ok (inl r), w') => (call_returned r, w')
      | (Ok (inr ride), w') => (call_loaded ride, w')
      | (Raise _, w') => (call_returned (false, p_str "Error accepting ride"), w')
      end
  | call_loaded ride =>
      match accept_ride_writes ride w with
      | (Ok r, w') => (call_returned r, w')
      | (Raise _, w') => (call_returned (false, p_str "Error accepting ride"), w')
      end
  | call_returned _ => (c, w)
  end.

(** A schedule names, step by step, the call that moves next. *)
Fixpoint run_schedule (schedule : list nat) (calls : list accept_call)
    (w : World) : list accept_call * World :=
  match schedule with
  | [] => (calls, w)
  | i :: rest =>
      match calls !! i with
      | Some c =>
          let '(c', w') := call_step c w in
          run_schedule rest (<[i := c']> calls) w'
      | None => run_schedule rest calls w
      end
  end.

Definition succeeded (c : accept_call) : bool :=
  match c with
  | call_returned (true, _) => true
  | _ => false
  end.

(** ** Example data *)

Definition example_ride (driver : option nat) (status : string) : Ride.t :=
  Ride.mk 1 driver 40000 None 0 (Some 40000) status 0 None None None None "".

Definition example_driver (user : nat) : Driver.t :=
  Driver.mk user true true 0 0%Q.

(** A passenger (user 1, telegram id 100), three online verified drivers
    (users 2, 3 and 4, telegram ids 201, 202 and 203) and one requested
    ride of the passenger. *)
Definition example_world : World :=
  mkWorld
    (list_to_map [(1%nat, User.mk (Some "100")); (2%nat, User.mk (Some "201"));
                  (3%nat, User.mk (Some "202")); (4%nat, User.mk (Some "203"));
                  (5%nat, User.mk (Some "300"))])
    (list_to_map [(1%nat, Passenger.mk 1 0); (2%nat, Passenger.mk 5 0)])
    (list_to_map [(1%nat, example_driver 2); (2%nat, example_driver 3);
                  (3%nat, example_driver 4)])
    (list_to_map [(1%nat, example_ride None "requested")])
    [] []
    (list_to_map [("max_fare_boosts", 300); ("fare_boost_amount", 10000);
                  ("default_ride_cost", 40000)])
    1000 [] [].

(** The same world with the ride in another state. *)
Definition example_world_with (r : Ride.t) : World :=
  set_rides (<[1%nat := r]> (rides example_world)) example_world.

(** ** Vocabulary of the statements *)

(** The world right after [ride.save()]. *)
Definition saved_world (self : nat * Ride.t) (w : World) : World :=
  let w1 := set_rides (<[self.1 := self.2]> (rides w)) w in
  if String.eqb (Ride.status self.2) "assigned"
     && bool_decide (is_Some (Ride.driver self.2))
  then set_celery
         (celery w1 ++ [(now w1 + 0, notify_passenger_driver_assigned_task self.1)]) w1
  else w1.

(** A value that is written at most once: once set, it stays. *)
Definition first_time_only {A} (old new : option A) : Prop :=
  match old with
  | Some x => new = Some x
  | None => True
  end.

(** The same for the cancellation, whose reason is written with its time. *)
Definition cancellation_kept (old new : Ride.t) : Prop :=
  match Ride.cancelled_at old with
  | Some x => Ride.cancelled_at new = Some x /\
              Ride.cancellation_reason new = Ride.cancellation_reason old
  | None => True
  end.

(** [telegram_id] is the telegram id of exactly one user, [user]. *)
Definition is_user (w : World) (telegram_id : string) (user : nat) : Prop :=
  exists row,
    objects_get User_DoesNotExist
      (fun _ u => bool_decide (User.telegram_id u = Some telegram_id))
      (users w) = Ok (user, row).

(** No user has the telegram id. *)
Definition no_user (w : World) (telegram_id : string) : Prop :=
  objects_filter
    (fun _ u => bool_decide (User.telegram_id u = Some telegram_id))
    (users w) = [].

(** [user] is the user of the passenger bound to the ride. *)
Definition bound_passenger (w : World) (r : Ride.t) (user : nat) : Prop :=
  exists p, passengers w !! Ride.passenger r = Some p /\ Passenger.user p = user.

(** [user] is the user of the driver bound to the ride. *)
Definition bound_driver (w : World) (r : Ride.t) (user : nat) : Prop :=
  exists d row,
    Ride.driver r = Some d /\ drivers w !! d = Some row /\ Driver.user row = user.

(** The constraints the database keeps for a user and a ride: the
    one-to-one fields give the user at most one passenger and at most one
    driver profile, and the foreign keys of the ride point at rows. *)
Definition constraints_hold (w : World) (r : Ride.t) (user : nat) : Prop :=
  (length (objects_filter (fun _ p => bool_decide (Passenger.user p = user))
             (passengers w)) <= 1)%nat /\
  (length (objects_filter (fun _ d => bool_decide (Driver.user d = user))
             (drivers w)) <= 1)%nat /\
  is_Some (passengers w !! Ride.passenger r) /\
  match Ride.driver r with
  | Some d => is_Some (drivers w !! d)
  | None => True
  end.

(** The world a call leaves behind. *)
Definition after {A} (m : M A) (w : World) : World := (m w).2.

(** The example ride accepted by driver 1 (telegram id 201) and driven to
    completion. *)
Definition example_completed_world : World :=
  after (update_ride_status 1 "completed" "" (Some "201"))
    (after (update_ride_status 1 "in_progress" "" (Some "201"))
       (after (update_ride_status 1 "driver_arrived" "" (Some "201"))
          (after (accept_ride "201" 1) example_world))).

Definition terminal_statuses : list string :=
  ["completed"; "cancelled_by_passenger"; "cancelled_by_driver";
   "cancelled_by_system"].

(** The maximum number of boosts as [get_max_fare_boosts] reads it: the
    stored setting, or the default 3 that it creates. *)
Definition max_fare_boosts_of (w : World) : Z :=
  match app_settings w !! "max_fare_boosts" with
  | Some v => Z.quot v 100
  | None => 3
  end.

Definition maximum_message (max_boosts : Z) : string :=
  "Maximum " +:+ str_int max_boosts +:+ " fare boosts already applied".

(** The instance after a successful boost by [amount]. *)
Definition boosted (amount : Z) (self : nat * Ride.t) : nat * Ride.t :=
  (self.1,
   Ride.set_boost (Ride.fare_boosts self.2 + 1)
     (Some (Ride.display_cost self.2 + amount)) self.2).

Definition boosted_message (amount new_cost : Z) : string :=
  "Fare boosted by " +:+ str_decimal amount +:+ " tenge. New cost: "
    +:+ str_decimal new_cost +:+ " tenge".


(** [telegram_id] is the telegram id of the one user whose one driver
    profile is [driver]. *)
Definition is_driver (w : World) (telegram_id : string) (driver : nat) : Prop :=
  exists u urow drow,
    objects_get User_DoesNotExist
      (fun _ x => bool_decide (User.telegram_id x = Some telegram_id))
      (users w) = Ok (u, urow) /\
    objects_get Driver_DoesNotExist
      (fun _ x => bool_decide (Driver.user x = u)) (drivers w) = Ok (driver, drow).

(** The driver is bound to a ride that is assigned, en route, arrived or in
    progress. *)
Definition holds_active_ride (w : World) (driver : nat) : Prop :=
  exists k r,
    rides w !! k = Some r /\ Ride.driver r = Some driver /\
    status_in active_statuses (Ride.status r) = true.

(** No driver is bound to two active rides. *)
Definition single_active_ride (w : World) : Prop :=
  forall d k1 k2 r1 r2,
    rides w !! k1 = Some r1 -> rides w !! k2 = Some r2 ->
    Ride.driver r1 = Some d -> Ride.driver r2 = Some d ->
    status_in active_statuses (Ride.status r1) = true ->
    status_in active_statuses (Ride.status r2) = true ->
    k1 = k2.

(** The ride as a successful [accept_ride] by [driver] leaves it. *)
Definition accepted_by (driver : nat) (now : Z) (r : Ride.t) : Ride.t :=
  stamp "assigned" "Driver assigned" now
    (Ride.set_status "assigned" (Ride.set_driver (Some driver) r)).

(** The world after that [accept_ride]. *)
Definition accepted_world (ride_id driver : nat) (r : Ride.t) (w : World) : World :=
  let self' := (ride_id, accepted_by driver (now w) r) in
  set_ride_statuses
    (ride_statuses w ++ [RideStatus.mk ride_id "assigned" "Driver assigned" (now w)])
    (saved_world self' w).


(** The example with a second requested ride, and driver 1 (telegram id
    201) busy with the first one. *)
Definition example_two_rides_world : World :=
  set_rides (<[2%nat := example_ride None "requested"]> (rides example_world))
    example_world.

Definition example_busy_world : World :=
  after (accept_ride "201" 1) example_two_rides_world.

(** *** Offers *)

(** The candidates of a ride: the online and verified drivers, closest
    first, as [get_nearby_rides_for_new_ride] lists them. *)
Definition candidates (distance_km : nat -> nat -> Z) (ride_id : nat) (w : World)
  : list ((nat * Driver.t) * Z) :=
  sort_by_distance
    (map (fun d : nat * Driver.t => (d, distance_km d.1 ride_id))
       (objects_filter (fun _ d => Driver.is_online d && Driver.is_verified d)
          (drivers w))).

(** The candidate's user has this telegram id ([str] of it). *)
Definition has_telegram_id (w : World) (c : (nat * Driver.t) * Z) (s : string)
  : Prop :=
  exists u, users w !! Driver.user c.1.2 = Some u /\ str_opt (User.telegram_id u) = s.

(** The candidate's user has the telegram id [tg], and Telegram delivers to
    it. *)
Definition reachable (send_ok : string -> bool) (w : World)
    (c : (nat * Driver.t) * Z) (tg : string) : Prop :=
  (exists u, users w !! Driver.user c.1.2 = Some u /\ User.telegram_id u = Some tg) /\
  send_ok tg = true.

(** The chat and the text of a message sent; nothing for a deletion. *)
Definition offer_of (call : BotCall) : option (string * Text) :=
  match call with
  | send_message chat_id text _ => Some (chat_id, text)
  | delete_message _ _ => None
  end.

(** The expiry task that belongs to a message sent for a ride. *)
Definition timer_of (ride_id : nat) (due : Z) (call : BotCall) : option (Z * Task) :=
  match call with
  | send_message chat_id _ message_id =>
      Some (due, auto_reject_ride_task ride_id (Some chat_id) (Some message_id))
  | delete_message _ _ => None
  end.

(** The world differs from another in the bot's log and the task queue
    only. *)
Definition same_database (w w' : World) : Prop :=
  users w' = users w /\ passengers w' = passengers w /\ drivers w' = drivers w /\
  rides w' = rides w /\ ride_statuses w' = ride_statuses w /\
  ratings w' = ratings w /\ app_settings w' = app_settings w /\ now w' = now w.

(** The drivers who hold a live offer for a ride: those with an expiry task
    for it in the queue. *)
Definition live_offers (ride_id : nat) (w : World) : list (option string) :=
  omap (fun t : Z * Task =>
          match t.2 with
          | auto_reject_ride_task r chat_id _ =>
              if bool_decide (r = ride_id) then Some chat_id else None
          | _ => None
          end) (celery w).

(** The example's environment: driver [d] is [d] kilometres away, the bot
    token is set, Telegram delivers and deletes. *)
Definition example_distance (driver ride : nat) : Z := 100 * Z.of_nat driver.
Definition always (_ : string) : bool := true.
Definition always2 (_ : string) (_ : nat) : bool := true.

(** The example after the first broadcast of its ride. *)
Definition example_offered_world : World :=
  after (notify_drivers_about_new_ride example_distance true always 1) example_world.

(** The example after an offer to driver 1 alone (the others came online
    later). *)
Definition example_one_offer_world : World :=
  after (send_driver_notification true always (Some "201")
           (1%nat, example_ride None "requested") 100) example_world.

(** Candidate [d] of the example ride. *)
Definition example_candidate (d : nat) : (nat * Driver.t) * Z :=
  ((d, example_driver (S d)), example_distance d 1).

(** The example with driver 1 as the only driver, after his offer. *)
Definition example_lonely_world : World :=
  set_drivers {[1%nat := example_driver 2]} example_one_offer_world.

(** The example after the first broadcast and a boost by the passenger. *)
Definition example_boosted_world : World :=
  after (increase_ride_cost 1 "100") example_offered_world.

(** ** More of the services, the tasks and the handlers *)

(** The setters of a driver's flag and of nothing else. *)
Definition Driver_set_is_online (b : bool) (d : Driver.t) : Driver.t :=
  Driver.mk (Driver.user d) (Driver.is_verified d) b (Driver.total_rides d)
            (Driver.average_rating d).

(** [DriverService.set_driver_online_status(telegram_id, is_online)].  Only
    [User.DoesNotExist] and [Driver.DoesNotExist] are caught. *)
Definition set_driver_online_status (telegram_id : string) (is_online : bool)
  : M (bool * string) :=
  try_except
    (let* user := User_objects_get telegram_id in
     let* driver := driver_profile user.1 in
     if negb (Driver.is_verified driver.2)
     then ret (false, "Driver not verified")
     else
       run Driver_save (driver.1, Driver_set_is_online is_online driver.2) then
       ret (true, "Status updated"))
    (fun e => match e with
              | User_DoesNotExist | Driver_DoesNotExist =>
                  ret (false, "Driver not found")
              | _ => raise e
              end).

(** [DriverService.update_driver_status(telegram_id, is_online)], the
    "simplified version" the menu calls: the saved driver, or [None]. *)
Definition update_driver_status (telegram_id : string) (is_online : bool)
  : M (option (nat * Driver.t)) :=
  try_except
    (let* user := User_objects_get telegram_id in
     let* driver := driver_profile user.1 in
     let driver := (driver.1, Driver_set_is_online is_online driver.2) in
     run Driver_save driver then
     ret (Some driver))
    (fun e => match e with
              | User_DoesNotExist | Driver_DoesNotExist => ret None
              | _ => raise e
              end).

(** [queryset.order_by('-created_at')]: newest first; rows of the same
    time keep the order of the table. *)
Fixpoint insert_by_created_at (x : nat * Ride.t) (l : list (nat * Ride.t))
  : list (nat * Ride.t) :=
  match l with
  | [] => [x]
  | y :: l' =>
      if Ride.created_at y.2 <=? Ride.created_at x.2 then x :: l
      else y :: insert_by_created_at x l'
  end.

Definition order_by_created_at_desc (l : list (nat * Ride.t))
  : list (nat * Ride.t) :=
  foldr insert_by_created_at [] l.

(** [rides[:limit]]. *)
Definition slice_to (limit : nat) {A} (l : list A) : list A := take limit l.

(** [PassengerService.get_passenger_rides(telegram_id, status=None,
    limit=10)].  [status] and [limit] are used only when truthy: an empty
    status and a limit of 0 count as none given. *)
Definition get_passenger_rides (telegram_id : string) (status : option string)
    (limit : option nat) : M (list (nat * Ride.t)) :=
  try_except
    (let* user := User_objects_get telegram_id in
     let* passenger := passenger_profile user.1 in
     let* w := get_world in
     let rides :=
       objects_filter (fun _ r => bool_decide (Ride.passenger r = passenger.1))
         (rides w) in
     let rides :=
       if str_truthy status
       then List.filter (fun kv : nat * Ride.t =>
                           String.eqb (Ride.status kv.2) (default "" status)) rides
       else rides in
     let rides := order_by_created_at_desc rides in
     let rides :=
       match limit with
       | Some (S n) => slice_to (S n) rides
       | _ => rides
       end in
     ret rides)
    (fun e => match e with
              | User_DoesNotExist | Passenger_DoesNotExist => ret []
              | _ => raise e
              end).

(** [DriverService.get_driver_rides(telegram_id, limit=10)]: here the slice
    is taken whatever the limit ([None] for the whole list). *)
Definition get_driver_rides (telegram_id : string) (limit : option nat)
  : M (list (nat * Ride.t)) :=
  try_except
    (let* user := User_objects_get telegram_id in
     let* driver := driver_profile user.1 in
     let* w := get_world in
     let rides :=
       order_by_created_at_desc
         (objects_filter (fun _ r => bool_decide (Ride.driver r = Some driver.1))
            (rides w)) in
     ret (match limit with
          | Some n => slice_to n rides
          | None => rides
          end))
    (fun e => match e with
              | User_DoesNotExist | Driver_DoesNotExist => ret []
              | _ => raise e
              end).

(** The loop of [check_ride_timeouts]: each stale ride, as it was read, is
    cancelled for the system and its passenger's notification scheduled. *)
Fixpoint cancel_stale (stale_rides : list (nat * Ride.t)) : M Z :=
  match stale_rides with
  | [] => ret 0
  | ride :: rest =>
      run update_status ride "cancelled_by_system" "No drivers available" then
      run delay (notify_passenger_ride_cancelled_task ride.1) then
      let* cancelled_count := cancel_stale rest in
      ret (1 + cancelled_count)
  end.

(** [check_ride_timeouts()], the periodic sweep: the rides requested more
    than ten minutes (600 seconds of the clock) ago. *)
Definition check_ride_timeouts : M Z :=
  try_except
    (let* w := get_world in
     let timeout_threshold := now w - 600 in
     let stale_rides :=
       order_by_created_at_desc
         (objects_filter
            (fun _ r => String.eqb (Ride.status r) "requested"
                        && (Ride.created_at r <? timeout_threshold))
            (rides w)) in
     cancel_stale stale_rides)
    (fun _ => ret 0).

(** [str.isdigit] on a character, a code point below 256: the ten digits
    and the superscripts two, three and one of Latin-1. *)
Definition isdigit (c : ascii) : bool :=
  let n := nat_of_ascii c in
  (48 <=? n)%nat && (n <=? 57)%nat
  || bool_decide (n = 178%nat) || bool_decide (n = 179%nat)
  || bool_decide (n = 185%nat).

Fixpoint filter_string (f : ascii -> bool) (s : string) : string :=
  match s with
  | EmptyString => EmptyString
  | String c rest =>
      if f c then String c (filter_string f rest) else filter_string f rest
  end.

(** [s.startswith(c)] for a one-character [c], and [s[1:]]. *)
Definition startswith_char (c : ascii) (s : string) : bool :=
  match s with
  | String x _ => bool_decide (x = c)
  | EmptyString => false
  end.

Definition string_tail (s : string) : string :=
  match s with
  | String _ rest => rest
  | EmptyString => EmptyString
  end.

(** The cleaning of a phone number in [UserService.get_user_by_phone],
    [UserService.verify_phone_number] and the passenger's contact handler:
    keep the digits, turn a leading 8 into 7, put [+] in front. *)
Definition clean_phone (phone_number : string) : string :=
  let cleaned_phone := filter_string isdigit phone_number in
  let cleaned_phone :=
    if negb (startswith_char "7" cleaned_phone) && startswith_char "8" cleaned_phone
    then String "7" (string_tail cleaned_phone)
    else cleaned_phone in
  if negb (startswith_char "+" cleaned_phone)
  then String "+" cleaned_phone
  else cleaned_phone.

(** [s.split(sep, maxsplit)] for a one-character separator; [None] for no
    limit.  [piece] is the part of the current piece read so far. *)
Fixpoint split_from (sep : ascii) (maxsplit : option nat) (piece s : string)
  : list string :=
  match maxsplit with
  | Some O => [piece +:+ s]
  | _ =>
      match s with
      | EmptyString => [piece]
      | String c rest =>
          if bool_decide (c = sep)
          then piece :: split_from sep (pred <$> maxsplit) EmptyString rest
          else split_from sep maxsplit (piece +:+ String c EmptyString) rest
      end
  end.

Definition split (sep : ascii) (maxsplit : option nat) (s : string) : list string :=
  split_from sep maxsplit EmptyString s.

(** The callback data of the buttons of an offer
    ([f"accept_ride_{ride.id}"], [f"reject_ride_{ride.id}"]) and of the
    cancel button of an active ride. *)
Definition callback_data (action ride_id : string) : string :=
  action +:+ "_ride_" +:+ ride_id.

(** The parsing in [handle_ride_response]:
    [query.data.split('_', 2)[0], query.data.split('_', 2)[2]], an
    [IndexError] being [None]. *)
Definition parse_callback (data : string) : option (string * string) :=
  match split "_" (Some 2%nat) data with
  | action :: _ :: ride_id :: _ => Some (action, ride_id)
  | _ => None
  end.

(** The ride of the cancel button: [query.data.split('_')[2]]. *)
Definition parse_cancel_ride (data : string) : option string :=
  split "_" None data !! 2%nat.

(** The string holds no underscore. *)
Fixpoint no_underscore (s : string) : bool :=
  match s with
  | EmptyString => true
  | String c rest => negb (bool_decide (c = "_"%char)) && no_underscore rest
  end.

(** *** Vocabulary of the further statements *)

(** The ride is requested and was created before the threshold of the
    sweep. *)
Definition stale (w : World) (r : Ride.t) : bool :=
  String.eqb (Ride.status r) "requested" && (Ride.created_at r <? now w - 600).

(** The ride as the sweep leaves it. *)
Definition swept (t : Z) (r : Ride.t) : Ride.t :=
  stamp "cancelled_by_system" "No drivers available" t
    (Ride.set_status "cancelled_by_system" r).

(** Newest first. *)
Definition newest_first (l : list (nat * Ride.t)) : Prop :=
  Sorted (fun x y : nat * Ride.t => Ride.created_at y.2 <= Ride.created_at x.2) l.

(** Closest first. *)
Definition closest_first {A} (l : list (A * Z)) : Prop :=
  Sorted (fun x y : A * Z => x.2 <= y.2) l.

(** The driver's row says online and verified. *)
Definition online_verified (d : Driver.t) : bool :=
  Driver.is_online d && Driver.is_verified d.

(** The chats a broadcast can reach: the telegram id of the candidate's
    user when there is one and Telegram delivers to it. *)
Definition deliverable (send_ok : string -> bool) (w : World)
    (c : (nat * Driver.t) * Z) : option string :=
  match users w !! Driver.user c.1.2 with
  | Some u => match User.telegram_id u with
              | Some tg => if send_ok tg then Some tg else None
              | None => None
              end
  | None => None
  end.

(** The example with an old requested ride (created at 100) next to the
    recent one, and a ride of driver 1 that is in progress. *)
Definition example_sweep_world : World :=
  set_rides
    (<[2%nat := Ride.mk 1 None 40000 None 0 (Some 40000) "requested" 100
                  None None None None ""]>
       (<[3%nat := Ride.mk 1 (Some 1%nat) 40000 None 0 (Some 40000) "in_progress" 50
                     (Some 60) (Some 70) None None ""]>
          (<[1%nat := Ride.mk 1 None 40000 None 0 (Some 40000) "requested" 900
                        None None None None ""]> (rides example_world))))
    example_world.

(** The example on a fresh installation: no setting stored yet. *)
Definition example_fresh_world : World := set_app_settings ∅ example_world.

(** [telegram_id] is the telegram id of the one user whose one passenger
    profile is [passenger]. *)
Definition is_passenger (w : World) (telegram_id : string) (passenger : nat)
  : Prop :=
  exists u urow prow,
    objects_get User_DoesNotExist
      (fun _ x => bool_decide (User.telegram_id x = Some telegram_id))
      (users w) = Ok (u, urow) /\
    objects_get Passenger_DoesNotExist
      (fun _ x => bool_decide (Passenger.user x = u)) (passengers w)
      = Ok (passenger, prow).

(** The ride has the status a listing asks for, if it asks for one. *)
Definition wanted (status : option string) (r : Ride.t) : bool :=
  if str_truthy status then String.eqb (Ride.status r) (default "" status)
  else true.

(** Telegram delivers to every chat but 202 (a driver who blocked the bot),
    and to no chat at all. *)
Definition example_blocked (chat : string) : bool := negb (String.eqb chat "202").
Definition never (_ : string) : bool := false.

(** Every character of the string is a digit. *)
Fixpoint all_digits (s : string) : bool :=
  match s with
  | EmptyString => true
  | String c rest => isdigit c && all_digits rest
  end.

(** The part of a string before its first underscore, and whether there is
    one. *)
Fixpoint before_underscore (s : string) : string :=
  match s with
  | EmptyString => EmptyString
  | String c rest =>
      if bool_decide (c = "_"%char) then EmptyString
      else String c (before_underscore rest)
  end.

(** * Properties *)

(** ** The monad and the ORM *)

Lemma bind_ok {A B} (m : M A) (k : A -> M B) w a w' :
  m w = (Ok a, w') -> bind m k w = k a w'.
Proof. intros H. unfold bind. by rewrite H. Qed.

Lemma bind_raise {A B} (m : M A) (k : A -> M B) w e w' :
  m w = (Raise e, w') -> bind m k w = (Raise e, w').
Proof. intros H. unfold bind. by rewrite H. Qed.

Lemma try_except_ok {A} (m : M A) h w a w' :
  m w = (Ok a, w') -> try_except m h w = (Ok a, w').
Proof. intros H. unfold try_except. by rewrite H. Qed.

Lemma try_except_raise {A} (m : M A) h w e w' :
  m w = (Raise e, w') -> try_except m h w = h e w'.
Proof. intros H. unfold try_except. by rewrite H. Qed.

(** A query finds nothing exactly when no row of the table satisfies it. *)
Lemma objects_filter_nil {A} (P : nat -> A -> bool) (table : gmap nat A) :
  objects_filter P table = [] <->
  forall k v, table !! k = Some v -> P k v = false.
Proof.
  unfold objects_filter. split.
  - intros Hnil k v Hkv.
    destruct (P k v) eqn:HP; [|done].
    assert (Hin : In (k, v) (List.filter (fun kv => P kv.1 kv.2) (map_to_list table))).
    { apply filter_In. split; [|done].
      apply list_elem_of_In. by apply elem_of_map_to_list. }
    rewrite Hnil in Hin. destruct Hin.
  - intros Hall.
    destruct (List.filter _ _) as [|[k v] l] eqn:Hf; [done|].
    assert (Hin : In (k, v) (List.filter (fun kv => P kv.1 kv.2) (map_to_list table))).
    { rewrite Hf. by left. }
    apply filter_In in Hin as [Hin HP]. simpl in HP.
    apply list_elem_of_In, elem_of_map_to_list in Hin.
    rewrite (Hall _ _ Hin) in HP. discriminate.
Qed.

(** What [objects.get] returns is a row of the table that satisfies the
    query. *)
Lemma objects_get_ok {A} e (P : nat -> A -> bool) (table : gmap nat A) k v :
  objects_get e P table = Ok (k, v) -> table !! k = Some v /\ P k v = true.
Proof.
  unfold objects_get. intros H.
  destruct (objects_filter P table) as [|kv [|]] eqn:Hf; try discriminate.
  injection H as ->.
  assert (Hin : In (k, v) (objects_filter P table)) by (rewrite Hf; by left).
  unfold objects_filter in Hin. apply filter_In in Hin as [Hin HP].
  split; [|done]. by apply elem_of_map_to_list, list_elem_of_In.
Qed.

(** ** [Ride.update_status] *)

Lemma stamp_status s n t r : Ride.status (stamp s n t r) = Ride.status r.
Proof.
  unfold stamp.
  repeat match goal with |- context [if ?b then _ else _] => destruct b end;
    reflexivity.
Qed.

Lemma stamp_driver s n t r : Ride.driver (stamp s n t r) = Ride.driver r.
Proof.
  unfold stamp.
  repeat match goal with |- context [if ?b then _ else _] => destruct b end;
    reflexivity.
Qed.

Lemma stamp_costs s n t r :
  Ride.passenger (stamp s n t r) = Ride.passenger r /\
  Ride.estimated_cost (stamp s n t r) = Ride.estimated_cost r /\
  Ride.current_cost (stamp s n t r) = Ride.current_cost r /\
  Ride.fare_boosts (stamp s n t r) = Ride.fare_boosts r.
Proof.
  unfold stamp.
  repeat match goal with |- context [if ?b then _ else _] => destruct b end;
    auto.
Qed.

(** The case analysis behind the four timestamp lemmas: the new status is
    one of the three literals, or none of them. *)
Ltac stamp_cases s :=
  unfold stamp;
  destruct (String.eqb_spec s "assigned") as [->|?];
  [|destruct (String.eqb_spec s "in_progress") as [->|?];
    [|destruct (String.eqb_spec s "completed") as [->|?]]];
  simpl;
  repeat match goal with
         | |- context [str_in "cancelled" ?x] =>
             destruct (str_in "cancelled" x); simpl
         end;
  try reflexivity.

Lemma stamp_accepted_at s n t r :
  Ride.accepted_at (stamp s n t r) =
  match Ride.accepted_at r with
  | Some x => Some x
  | None => if String.eqb s "assigned" then Some t else None
  end.
Proof.
  destruct r as [p d ec fc fb cc st cr [acc|] [sta|] [com|] [can|] reason];
    simpl; stamp_cases s.
Qed.

Lemma stamp_started_at s n t r :
  Ride.started_at (stamp s n t r) =
  match Ride.started_at r with
  | Some x => Some x
  | None => if String.eqb s "in_progress" then Some t else None
  end.
Proof.
  destruct r as [p d ec fc fb cc st cr [acc|] [sta|] [com|] [can|] reason];
    simpl; stamp_cases s.
Qed.

Lemma stamp_completed_at s n t r :
  Ride.completed_at (stamp s n t r) =
  match Ride.completed_at r with
  | Some x => Some x
  | None => if String.eqb s "completed" then Some t else None
  end.
Proof.
  destruct r as [p d ec fc fb cc st cr [acc|] [sta|] [com|] [can|] reason];
    simpl; stamp_cases s.
Qed.

Lemma stamp_cancelled s n t r :
  (Ride.cancelled_at (stamp s n t r), Ride.cancellation_reason (stamp s n t r)) =
  match Ride.cancelled_at r with
  | Some x => (Some x, Ride.cancellation_reason r)
  | None => if str_in "cancelled" s then (Some t, n)
            else (None, Ride.cancellation_reason r)
  end.
Proof.
  destruct r as [p d ec fc fb cc st cr [acc|] [sta|] [com|] [can|] reason];
    simpl; stamp_cases s.
Qed.

Lemma Ride_save_eq self w : Ride_save self w = (Ok tt, saved_world self w).
Proof.
  unfold Ride_save, saved_world, bind, modify, delay, apply_async, ret. simpl.
  by destruct (_ && _).
Qed.

Lemma update_status_eq self s n w :
  update_status self s n w =
  let self' := (self.1, stamp s n (now w) (Ride.set_status s self.2)) in
  (Ok self',
   set_ride_statuses
     (ride_statuses (saved_world self' w) ++ [RideStatus.mk self.1 s n (now w)])
     (saved_world self' w)).
Proof.
  unfold update_status. simpl.
  unfold bind at 1. unfold timezone_now.
  rewrite (bind_ok _ _ _ _ _ (Ride_save_eq _ _)).
  unfold bind, RideStatus_objects_create, modify, ret. simpl.
  do 3 f_equal. unfold saved_world. simpl. by destruct (_ && _).
Qed.

Lemma saved_world_rides self w :
  rides (saved_world self w) = <[self.1 := self.2]> (rides w).
Proof. unfold saved_world. simpl. by destruct (_ && _). Qed.

Lemma saved_world_ride_statuses self w :
  ride_statuses (saved_world self w) = ride_statuses w.
Proof. unfold saved_world. simpl. by destruct (_ && _). Qed.

Lemma saved_world_tables self w :
  users (saved_world self w) = users w /\
  passengers (saved_world self w) = passengers w /\
  drivers (saved_world self w) = drivers w /\
  ratings (saved_world self w) = ratings w /\
  app_settings (saved_world self w) = app_settings w /\
  now (saved_world self w) = now w /\
  bot (saved_world self w) = bot w.
Proof. unfold saved_world. simpl. by destruct (_ && _). Qed.

Lemma first_time_only_trans {A} (a b c : option A) :
  first_time_only a b -> first_time_only b c -> first_time_only a c.
Proof. destruct a; simpl; [intros ->; done | done]. Qed.

Lemma cancellation_kept_trans a b c :
  cancellation_kept a b -> cancellation_kept b c -> cancellation_kept a c.
Proof.
  unfold cancellation_kept. destruct (Ride.cancelled_at a); [|done].
  intros [-> Hr] [Hc Hr']. split; congruence.
Qed.

(** One call keeps what earlier calls stamped. *)
Lemma stamp_keeps s n t r :
  first_time_only (Ride.accepted_at r) (Ride.accepted_at (stamp s n t (Ride.set_status s r))) /\
  first_time_only (Ride.started_at r) (Ride.started_at (stamp s n t (Ride.set_status s r))) /\
  first_time_only (Ride.completed_at r) (Ride.completed_at (stamp s n t (Ride.set_status s r))) /\
  cancellation_kept r (stamp s n t (Ride.set_status s r)).
Proof.
  unfold first_time_only, cancellation_kept.
  rewrite stamp_accepted_at, stamp_started_at, stamp_completed_at.
  pose proof (stamp_cancelled s n t (Ride.set_status s r)) as Hc.
  simpl in *.
  destruct (Ride.accepted_at r), (Ride.started_at r), (Ride.completed_at r),
    (Ride.cancelled_at r); repeat split; auto; congruence.
Qed.

Lemma last_cons_default {A} (a x : A) (l : list A) :
  default a (last (x :: l)) = default x (last l).
Proof.
  revert a x. induction l as [|y l IH]; intros a x; [done|].
  change (last (x :: y :: l)) with (last (y :: l)).
  by rewrite (IH a y), (IH x y).
Qed.

(** A sequence of calls returns, writes one history row per call after the
    rows that were there, and keeps every timestamp that was set. *)
Lemma update_status_seq_spec calls : forall self w,
  exists self' w',
    update_status_seq self calls w = (Ok self', w') /\
    self'.1 = self.1 /\
    ride_statuses w' = ride_statuses w ++ history_of self.1 calls /\
    first_time_only (Ride.accepted_at self.2) (Ride.accepted_at self'.2) /\
    first_time_only (Ride.started_at self.2) (Ride.started_at self'.2) /\
    first_time_only (Ride.completed_at self.2) (Ride.completed_at self'.2) /\
    cancellation_kept self.2 self'.2 /\
    Ride.status self'.2 =
      default (Ride.status self.2)
              (last (map (fun c : Z * string * string => c.1.2) calls)).
Proof.
  induction calls as [|[[t s] n] calls IH]; intros self w.
  - exists self, w. simpl. rewrite app_nil_r.
    repeat split; auto; unfold first_time_only, cancellation_kept;
      repeat case_match; auto.
  - simpl. unfold bind at 1. unfold modify at 1.
    rewrite (bind_ok _ _ _ _ _ (update_status_eq _ _ _ _)). simpl.
    match goal with |- context [update_status_seq ?a calls ?b] =>
      destruct (IH a b) as (self' & w' & Hrun & Hid & Hh & Ha & Hs & Hc & Hk & Hst)
    end.
    exists self', w'. simpl in *.
    destruct (stamp_keeps s n t self.2) as (Ha0 & Hs0 & Hc0 & Hk0).
    split; [done|]. split; [done|].
    split.
    { rewrite Hh, saved_world_ride_statuses. simpl. by rewrite <- app_assoc. }
    split; [eapply first_time_only_trans; eauto|].
    split; [eapply first_time_only_trans; eauto|].
    split; [eapply first_time_only_trans; eauto|].
    split; [eapply cancellation_kept_trans; eauto|].
    rewrite Hst, stamp_status. simpl. symmetry. apply last_cons_default.
Qed.

(** C7.  [Ride.update_status] always returns; it sets the new status and
    saves the ride; it stamps [accepted_at] on entering [assigned],
    [started_at] on entering [in_progress], [completed_at] on entering
    [completed], and [cancelled_at] together with [cancellation_reason]
    (the notes) on entering a status that contains [cancelled] -- the three
    [cancelled_*] statuses do -- each only when the timestamp is not set
    yet, and leaves a timestamp that is set as it is; it appends exactly one
    history row (ride, status, notes, now) after the rows that are there.
    Hence, for every sequence of calls, the history grows by the rows of
    the calls, in order, its length by the number of calls, the earlier rows
    stay as they were, and no timestamp that was set is overwritten. *)
Theorem update_status_stamps_once_and_appends_history
    (self : nat * Ride.t) (w : World) :
  (forall new_status notes,
     exists self' w',
       update_status self new_status notes w = (Ok self', w') /\
       self'.1 = self.1 /\
       Ride.status self'.2 = new_status /\
       rides w' !! self.1 = Some self'.2 /\
       Ride.accepted_at self'.2 =
         match Ride.accepted_at self.2 with
         | Some x => Some x
         | None => if String.eqb new_status "assigned" then Some (now w) else None
         end /\
       Ride.started_at self'.2 =
         match Ride.started_at self.2 with
         | Some x => Some x
         | None => if String.eqb new_status "in_progress" then Some (now w) else None
         end /\
       Ride.completed_at self'.2 =
         match Ride.completed_at self.2 with
         | Some x => Some x
         | None => if String.eqb new_status "completed" then Some (now w) else None
         end /\
       (Ride.cancelled_at self'.2, Ride.cancellation_reason self'.2) =
         match Ride.cancelled_at self.2 with
         | Some x => (Some x, Ride.cancellation_reason self.2)
         | None => if str_in "cancelled" new_status then (Some (now w), notes)
                   else (None, Ride.cancellation_reason self.2)
         end /\
       ride_statuses w' =
         ride_statuses w ++ [RideStatus.mk self.1 new_status notes (now w)]) /\
  (str_in "cancelled" "cancelled_by_passenger" = true /\
   str_in "cancelled" "cancelled_by_driver" = true /\
   str_in "cancelled" "cancelled_by_system" = true /\
   Forall (fun s => str_in "cancelled" s = false)
     ["requested"; "assigned"; "driver_enroute"; "driver_arrived";
      "in_progress"; "completed"]) /\
  (forall calls,
     exists self' w',
       update_status_seq self calls w = (Ok self', w') /\
       ride_statuses w' = ride_statuses w ++ history_of self.1 calls /\
       length (ride_statuses w') = (length (ride_statuses w) + length calls)%nat /\
       first_time_only (Ride.accepted_at self.2) (Ride.accepted_at self'.2) /\
       first_time_only (Ride.started_at self.2) (Ride.started_at self'.2) /\
       first_time_only (Ride.completed_at self.2) (Ride.completed_at self'.2) /\
       cancellation_kept self.2 self'.2).
Proof.
  split; [|split].
  - intros s n. eexists _, _. split; [apply update_status_eq|]. simpl.
    rewrite stamp_status, stamp_accepted_at, stamp_started_at,
      stamp_completed_at, stamp_cancelled, saved_world_rides,
      saved_world_ride_statuses. simpl.
    rewrite lookup_insert_eq. repeat split; reflexivity.
  - repeat split. repeat constructor.
  - intros calls.
    destruct (update_status_seq_spec calls self w)
      as (self' & w' & Hrun & _ & Hh & Ha & Hs & Hc & Hk & _).
    exists self', w'. repeat split; auto.
    rewrite Hh, length_app. unfold history_of. by rewrite length_map.
Qed.

(** ** Who may act on a ride *)

Lemma hasattr_passenger_profile_spec u w :
  exists res,
    hasattr_passenger_profile u w = (res, w) /\
    ((length (objects_filter (fun _ p => bool_decide (Passenger.user p = u))
                (passengers w)) <= 1)%nat ->
     exists b, res = Ok b).
Proof.
  unfold hasattr_passenger_profile, try_except, bind, passenger_profile,
    objects_get, ret, raise.
  destruct (objects_filter _ _) as [|kv [|kv' l]]; simpl; eexists; split;
    try reflexivity; intros; eauto; simpl in *; lia.
Qed.

Lemma hasattr_driver_profile_spec u w :
  exists res,
    hasattr_driver_profile u w = (res, w) /\
    ((length (objects_filter (fun _ d => bool_decide (Driver.user d = u))
                (drivers w)) <= 1)%nat ->
     exists b, res = Ok b).
Proof.
  unfold hasattr_driver_profile, try_except, bind, driver_profile,
    objects_get, ret, raise.
  destruct (objects_filter _ _) as [|kv [|kv' l]]; simpl; eexists; split;
    try reflexivity; intros; eauto; simpl in *; lia.
Qed.

(** The passenger test reads only; it answers [True] exactly for the user
    of the bound passenger, and it does answer when the constraints hold. *)
Lemma is_ride_passenger_spec u r w :
  exists res,
    is_ride_passenger u r w = (res, w) /\
    (res = Ok true -> bound_passenger w r u) /\
    (constraints_hold w r u -> ~ bound_passenger w r u -> res = Ok false).
Proof.
  unfold is_ride_passenger.
  destruct (hasattr_passenger_profile_spec u w) as (res & Hh & Hwf).
  destruct res as [[|]|e].
  - rewrite (bind_ok _ _ _ _ _ Hh).
    unfold bind, ride_passenger, ret.
    destruct (passengers w !! Ride.passenger r) as [p|] eqn:Hp; simpl.
    + eexists; split; [reflexivity|]. split.
      * intros [= Hb]. apply bool_decide_eq_true in Hb. by exists p.
      * intros _ Hnb. f_equal. apply bool_decide_eq_false.
        intros Hu. apply Hnb. by exists p.
    + eexists; split; [reflexivity|]. split; [discriminate|].
      intros (_ & _ & [? ?] & _); simplify_eq.
  - rewrite (bind_ok _ _ _ _ _ Hh). unfold ret.
    eexists; split; [reflexivity|]. split; [discriminate|done].
  - rewrite (bind_raise _ _ _ _ _ Hh).
    eexists; split; [reflexivity|]. split; [discriminate|].
    intros (H1 & _) _. destruct (Hwf H1) as [b Hb]. discriminate.
Qed.

Lemma is_ride_driver_spec u r w :
  exists res,
    is_ride_driver u r w = (res, w) /\
    (res = Ok true -> bound_driver w r u) /\
    (constraints_hold w r u -> ~ bound_driver w r u -> res = Ok false).
Proof.
  unfold is_ride_driver.
  destruct (hasattr_driver_profile_spec u w) as (res & Hh & Hwf).
  destruct res as [[|]|e].
  - rewrite (bind_ok _ _ _ _ _ Hh).
    unfold bind, ride_driver, ret.
    destruct (Ride.driver r) as [d|] eqn:Hd; simpl.
    + destruct (drivers w !! d) as [row|] eqn:Hrow; simpl.
      * eexists; split; [reflexivity|]. split.
        -- intros [= Hb]. apply bool_decide_eq_true in Hb. by exists d, row.
        -- intros _ Hnb. f_equal. apply bool_decide_eq_false.
           intros Hu. apply Hnb. by exists d, row.
      * eexists; split; [reflexivity|]. split; [discriminate|].
        intros (_ & _ & _ & Hfk). rewrite Hd in Hfk.
        destruct Hfk; simplify_eq.
    + eexists; split; [reflexivity|]. split; [discriminate|done].
  - rewrite (bind_ok _ _ _ _ _ Hh). unfold ret.
    eexists; split; [reflexivity|]. split; [discriminate|done].
  - rewrite (bind_raise _ _ _ _ _ Hh).
    eexists; split; [reflexivity|]. split; [discriminate|].
    intros (_ & H1 & _) _. destruct (Hwf H1) as [b Hb]. discriminate.
Qed.

Lemma User_objects_get_is_user w telegram_id u :
  is_user w telegram_id u ->
  exists row, User_objects_get telegram_id w = (Ok (u, row), w).
Proof. intros [row H]. exists row. unfold User_objects_get. by rewrite H. Qed.

Lemma User_objects_get_no_user w telegram_id :
  no_user w telegram_id ->
  User_objects_get telegram_id w = (Raise User_DoesNotExist, w).
Proof.
  unfold no_user, User_objects_get, objects_get. by intros ->.
Qed.

Lemma Ride_objects_get_eq w ride_id r :
  rides w !! ride_id = Some r -> Ride_objects_get ride_id w = (Ok (ride_id, r), w).
Proof. intros H. unfold Ride_objects_get. by rewrite H. Qed.

(** The permission test of [update_ride_status] for a user who is bound to
    the ride on neither side. *)
Lemma permission_test_stranger u r w :
  ~ bound_passenger w r u -> ~ bound_driver w r u ->
  exists res,
    (let* p := is_ride_passenger u r in
     if (p : bool) then ret true else is_ride_driver u r) w = (res, w) /\
    res <> Ok true /\
    (constraints_hold w r u -> res = Ok false).
Proof.
  intros Hnp Hnd.
  destruct (is_ride_passenger_spec u r w) as (rp & Hp & Hp1 & Hp2).
  destruct (is_ride_driver_spec u r w) as (rd & Hd & Hd1 & Hd2).
  destruct rp as [[|]|e].
  - exfalso. by apply Hnp, Hp1.
  - rewrite (bind_ok _ _ _ _ _ Hp). exists rd. split; [done|]. split.
    + intros ->. by apply Hnd, Hd1.
    + intros Hc. by apply Hd2.
  - rewrite (bind_raise _ _ _ _ _ Hp). eexists; split; [done|].
    split; [discriminate|]. intros Hc. by apply Hp2.
Qed.

Lemma str_truthy_some s : s <> "" -> str_truthy (Some s) = true.
Proof. by destruct s. Qed.

Lemma update_ride_status_stranger w ride_id r telegram_id u s n :
  rides w !! ride_id = Some r ->
  telegram_id <> "" ->
  is_user w telegram_id u ->
  ~ bound_passenger w r u -> ~ bound_driver w r u ->
  exists payload,
    update_ride_status ride_id s n (Some telegram_id) w = (Ok (false, payload), w) /\
    (constraints_hold w r u -> payload = p_str "Permission denied").
Proof.
  intros Hr Ht Hu Hnp Hnd.
  destruct (User_objects_get_is_user _ _ _ Hu) as [row Hget].
  destruct (permission_test_stranger u r w Hnp Hnd) as (res & Hperm & Hne & Hc).
  unfold update_ride_status.
  rewrite (str_truthy_some _ Ht). simpl default.
  assert (Hinner :
    (let* user := User_objects_get telegram_id in
     let* p := is_ride_passenger user.1 (ride_id, r).2 in
     if (p : bool) then ret true else is_ride_driver user.1 (ride_id, r).2) w
    = (res, w)).
  { by rewrite (bind_ok _ _ _ _ _ Hget). }
  destruct res as [[|]|e]; [done| |].
  - eexists. split; [|done].
    erewrite try_except_ok; [reflexivity|].
    rewrite (bind_ok _ _ _ _ _ (Ride_objects_get_eq _ _ _ Hr)).
    by rewrite (bind_ok _ _ _ _ _ Hinner).
  - eexists. split; [|intros Hcs; specialize (Hc Hcs); discriminate].
    erewrite try_except_raise; [reflexivity|].
    rewrite (bind_ok _ _ _ _ _ (Ride_objects_get_eq _ _ _ Hr)).
    by rewrite (bind_raise _ _ _ _ _ Hinner).
Qed.

Lemma cancel_ride_stranger w ride_id r telegram_id u reason :
  rides w !! ride_id = Some r ->
  is_user w telegram_id u ->
  ~ bound_passenger w r u -> ~ bound_driver w r u ->
  exists payload,
    cancel_ride ride_id telegram_id reason w = (Ok (false, payload), w) /\
    (constraints_hold w r u -> payload = p_str "Permission denied").
Proof.
  intros Hr Hu Hnp Hnd.
  destruct (User_objects_get_is_user _ _ _ Hu) as [row Hget].
  destruct (is_ride_passenger_spec u r w) as (rp & Hp & Hp1 & Hp2).
  destruct (is_ride_driver_spec u r w) as (rd & Hd & Hd1 & Hd2).
  unfold cancel_ride.
  destruct rp as [[|]|e]; [exfalso; by apply Hnp, Hp1| |].
  - destruct rd as [[|]|e]; [exfalso; by apply Hnd, Hd1| |].
    + eexists. split; [|done].
      erewrite try_except_ok; [reflexivity|].
      rewrite (bind_ok _ _ _ _ _ Hget).
      rewrite (bind_ok _ _ _ _ _ (Ride_objects_get_eq _ _ _ Hr)).
      rewrite (bind_ok _ _ _ _ _ Hp). simpl.
      by rewrite (bind_ok _ _ _ _ _ Hd).
    + eexists. split; [|intros Hcs; specialize (Hd2 Hcs Hnd); discriminate].
      erewrite try_except_raise; [reflexivity|].
      rewrite (bind_ok _ _ _ _ _ Hget).
      rewrite (bind_ok _ _ _ _ _ (Ride_objects_get_eq _ _ _ Hr)).
      rewrite (bind_ok _ _ _ _ _ Hp). simpl.
      by rewrite (bind_raise _ _ _ _ _ Hd).
  - eexists. split; [|intros Hcs; specialize (Hp2 Hcs Hnp); discriminate].
    erewrite try_except_raise; [reflexivity|].
    rewrite (bind_ok _ _ _ _ _ Hget).
    rewrite (bind_ok _ _ _ _ _ (Ride_objects_get_eq _ _ _ Hr)).
    by rewrite (bind_raise _ _ _ _ _ Hp).
Qed.

(** The counters of a completed ride touch neither the rides nor the
    history. *)
Lemma count_completed_frame r w :
  exists res w',
    count_completed r w = (res, w') /\
    rides w' = rides w /\ ride_statuses w' = ride_statuses w.
Proof.
  unfold count_completed, bind, ride_driver, ride_passenger, Driver_save,
    Passenger_save, modify, ret.
  destruct (Ride.driver r) as [d|]; simpl.
  - destruct (drivers w !! d); simpl; [|by eexists _, _].
    destruct (passengers w !! Ride.passenger r); simpl; by eexists _, _.
  - destruct (passengers w !! Ride.passenger r); simpl; by eexists _, _.
Qed.

(** Without a telegram id [update_ride_status] asks nobody: the transition
    is carried out. *)
Lemma update_ride_status_unchecked w ride_id r telegram_id s n :
  rides w !! ride_id = Some r ->
  str_truthy telegram_id = false ->
  exists res w',
    update_ride_status ride_id s n telegram_id w = (Ok res, w') /\
    Ride.status <$> rides w' !! ride_id = Some s /\
    ride_statuses w' = ride_statuses w ++ [RideStatus.mk ride_id s n (now w)].
Proof.
  intros Hr Ht. unfold update_ride_status. rewrite Ht.
  pose proof (update_status_eq (ride_id, r) s n w) as Hus. cbv zeta in Hus.
  cbn [fst snd] in Hus.
  set (self' := (ride_id, stamp s n (now w) (Ride.set_status s r))) in *.
  set (w1 := set_ride_statuses
               (ride_statuses (saved_world self' w) ++ [RideStatus.mk ride_id s n (now w)])
               (saved_world self' w)) in *.
  assert (Hw1 : Ride.status <$> rides w1 !! ride_id = Some s).
  { subst w1 self'. simpl. rewrite saved_world_rides. simpl.
    rewrite lookup_insert_eq. simpl. by rewrite stamp_status. }
  assert (Hh1 : ride_statuses w1 =
                ride_statuses w ++ [RideStatus.mk ride_id s n (now w)]).
  { subst w1. simpl. by rewrite saved_world_ride_statuses. }
  destruct (count_completed_frame self'.2 w1) as (res & w2 & Hcc & Hr2 & Hh2).
  assert (Htail : exists res w',
    (let* ride := update_status (ride_id, r) s n in
     run (if String.eqb s "completed" then count_completed ride.2 else ret tt) then
     ret (true, p_ride ride)) w = (res, w') /\
    rides w' = rides w1 /\ ride_statuses w' = ride_statuses w1).
  { rewrite (bind_ok _ _ _ _ _ Hus).
    destruct (String.eqb s "completed").
    - destruct res as [[]|e].
      + rewrite (bind_ok _ _ _ _ _ Hcc). by eexists _, _.
      + rewrite (bind_raise _ _ _ _ _ Hcc). by eexists _, _.
    - by eexists _, _. }
  destruct Htail as (res' & w' & Hrun & Hr' & Hh').
  assert (Hbody :
    (let* ride := Ride_objects_get ride_id in
     let* allowed := ret true in
     if negb allowed then ret (false, p_str "Permission denied")
     else
       let* ride := update_status ride s n in
       run (if String.eqb s "completed" then count_completed ride.2 else ret tt) then
       ret (true, p_ride ride)) w = (res', w')).
  { by rewrite (bind_ok _ _ _ _ _ (Ride_objects_get_eq _ _ _ Hr)). }
  destruct res' as [x|e].
  - exists x, w'. rewrite (try_except_ok _ _ _ _ _ Hbody).
    by rewrite Hr', Hh'.
  - exists (false, p_none), w'. rewrite (try_except_raise _ _ _ _ _ Hbody).
    by rewrite Hr', Hh'.
Qed.

Lemma update_ride_status_unknown w ride_id r telegram_id s n :
  rides w !! ride_id = Some r ->
  telegram_id <> "" ->
  no_user w telegram_id ->
  update_ride_status ride_id s n (Some telegram_id) w = (Ok (false, p_none), w).
Proof.
  intros Hr Ht Hu. unfold update_ride_status.
  rewrite (str_truthy_some _ Ht). simpl default.
  erewrite try_except_raise; [reflexivity|].
  rewrite (bind_ok _ _ _ _ _ (Ride_objects_get_eq _ _ _ Hr)).
  erewrite bind_raise; [reflexivity|].
  by rewrite (bind_raise _ _ _ _ _ (User_objects_get_no_user _ _ Hu)).
Qed.

Lemma cancel_ride_unknown w ride_id telegram_id reason :
  no_user w telegram_id ->
  cancel_ride ride_id telegram_id reason w = (Ok (false, p_none), w).
Proof.
  intros Hu. unfold cancel_ride.
  erewrite try_except_raise; [reflexivity|].
  by rewrite (bind_raise _ _ _ _ _ (User_objects_get_no_user _ _ Hu)).
Qed.

(** C9 (as amended).  On a ride [r], for a non-empty telegram id:
    - of a user who is neither the user of the ride's passenger nor the user
      of the ride's driver, [update_ride_status] (any new status, any notes)
      and [cancel_ride] fail and leave the whole world -- the ride, its
      timestamps, the history -- as it was; the reason is
      ["Permission denied"] when the database constraints hold;
    - of no user, both fail with [None] and change nothing.
    With the telegram id omitted ([None]) or empty, [update_ride_status]
    makes no test: the new status is written and the history row appended. *)
Theorem only_the_parties_pass_the_permission_test
    (w : World) (ride_id : nat) (r : Ride.t) :
  rides w !! ride_id = Some r ->
  (forall telegram_id u,
     telegram_id <> "" -> is_user w telegram_id u ->
     ~ bound_passenger w r u -> ~ bound_driver w r u ->
     (forall s n, exists payload,
        update_ride_status ride_id s n (Some telegram_id) w
          = (Ok (false, payload), w) /\
        (constraints_hold w r u -> payload = p_str "Permission denied")) /\
     (forall reason, exists payload,
        cancel_ride ride_id telegram_id reason w = (Ok (false, payload), w) /\
        (constraints_hold w r u -> payload = p_str "Permission denied"))) /\
  (forall telegram_id,
     telegram_id <> "" -> no_user w telegram_id ->
     (forall s n,
        update_ride_status ride_id s n (Some telegram_id) w
          = (Ok (false, p_none), w)) /\
     (forall reason,
        cancel_ride ride_id telegram_id reason w = (Ok (false, p_none), w))) /\
  (forall telegram_id s n,
     str_truthy telegram_id = false ->
     exists res w',
       update_ride_status ride_id s n telegram_id w = (Ok res, w') /\
       Ride.status <$> rides w' !! ride_id = Some s /\
       ride_statuses w' =
         ride_statuses w ++ [RideStatus.mk ride_id s n (now w)]).
Proof.
  intros Hr. split; [|split].
  - intros tid u Ht Hu Hnp Hnd. split.
    + intros s n. by eapply update_ride_status_stranger.
    + intros reason. by eapply cancel_ride_stranger.
  - intros tid Ht Hu. split.
    + intros s n. by eapply update_ride_status_unknown.
    + intros reason. by apply cancel_ride_unknown.
  - intros tid s n Ht. by eapply update_ride_status_unchecked.
Qed.

(** A user of the example who has nothing to do with the ride (the driver
    with telegram id 202), and a telegram id of nobody. *)
Lemma only_the_parties_pass_the_permission_test_witness :
  rides example_world !! 1%nat = Some (example_ride None "requested") /\
  (is_user example_world "202" 3 /\
   ~ bound_passenger example_world (example_ride None "requested") 3 /\
   ~ bound_driver example_world (example_ride None "requested") 3 /\
   constraints_hold example_world (example_ride None "requested") 3) /\
  no_user example_world "999" /\
  update_ride_status 1 "completed" "" (Some "202") example_world
    = (Ok (false, p_str "Permission denied"), example_world) /\
  cancel_ride 1 "202" "" example_world
    = (Ok (false, p_str "Permission denied"), example_world) /\
  update_ride_status 1 "completed" "" (Some "999") example_world
    = (Ok (false, p_none), example_world) /\
  (exists res w',
     update_ride_status 1 "driver_arrived" "" None example_world = (Ok res, w') /\
     Ride.status <$> rides w' !! 1%nat = Some "driver_arrived").
Proof.
  assert (Hr : rides example_world !! 1%nat = Some (example_ride None "requested"))
    by reflexivity.
  assert (Hu : is_user example_world "202" 3) by (eexists; vm_compute; reflexivity).
  assert (Hnp : ~ bound_passenger example_world (example_ride None "requested") 3).
  { intros (p & Hp & Hpu). vm_compute in Hp. injection Hp as <-. discriminate. }
  assert (Hnd : ~ bound_driver example_world (example_ride None "requested") 3).
  { intros (d & row & Hd & _). discriminate. }
  assert (Hc : constraints_hold example_world (example_ride None "requested") 3).
  { repeat split; try (vm_compute; lia). eexists. reflexivity. }
  assert (Hno : no_user example_world "999") by (vm_compute; reflexivity).
  destruct (only_the_parties_pass_the_permission_test example_world 1 _ Hr)
    as (Hstranger & Hunknown & Hnone).
  destruct (Hstranger "202" 3%nat ltac:(discriminate) Hu Hnp Hnd) as (Hs1 & Hs2).
  destruct (Hs1 "completed" "") as (p1 & Hp1 & Hm1).
  destruct (Hs2 "") as (p2 & Hp2 & Hm2).
  rewrite (Hm1 Hc) in Hp1. rewrite (Hm2 Hc) in Hp2.
  destruct (Hunknown "999" ltac:(discriminate) Hno) as (Hu1 & _).
  destruct (Hnone None "driver_arrived" "" eq_refl) as (res & w' & Hn1 & Hn2 & _).
  repeat split; auto. by exists res, w'.
Defined.

(** C9, the claim as it stands fails: [update_ride_status] called without a
    telegram id -- an argument the operation accepts, and nobody's
    identity -- is not refused; the ride is cancelled and a history row
    written. *)
Lemma transition_without_identity_is_carried_out :
  Ride.status <$> rides example_world !! 1%nat = Some "requested" /\
  exists ride w',
    update_ride_status 1 "cancelled_by_system" "" None example_world
      = (Ok (true, p_ride ride), w') /\
    Ride.status <$> rides w' !! 1%nat = Some "cancelled_by_system" /\
    Ride.cancelled_at <$> rides w' !! 1%nat = Some (Some 1000) /\
    length (ride_statuses w') = 1%nat.
Proof.
  split; [reflexivity|]. eexists _, _. vm_compute. repeat split.
Qed.

(** ** Terminal statuses *)

(** C8 (as amended).  A ride in a terminal status -- [completed] or one of
    the three [cancelled_*] -- is not protected by the transition function:
    a further call returns, writes the new status and appends its history
    row, and so does every sequence of further calls (the status ends as
    the last one asked for).  What no later call changes are the timestamps
    that are set: [accepted_at], [started_at], [completed_at], and
    [cancelled_at] with [cancellation_reason]. *)
Theorem terminal_ride_keeps_only_its_timestamps
    (self : nat * Ride.t) (w : World) (calls : list (Z * string * string)) :
  status_in terminal_statuses (Ride.status self.2) = true ->
  exists self' w',
    update_status_seq self calls w = (Ok self', w') /\
    Ride.status self'.2 =
      default (Ride.status self.2)
              (last (map (fun c : Z * string * string => c.1.2) calls)) /\
    ride_statuses w' = ride_statuses w ++ history_of self.1 calls /\
    first_time_only (Ride.accepted_at self.2) (Ride.accepted_at self'.2) /\
    first_time_only (Ride.started_at self.2) (Ride.started_at self'.2) /\
    first_time_only (Ride.completed_at self.2) (Ride.completed_at self'.2) /\
    cancellation_kept self.2 self'.2.
Proof.
  intros _.
  destruct (update_status_seq_spec calls self w)
    as (self' & w' & Hrun & _ & Hh & Ha & Hs & Hc & Hk & Hst).
  exists self', w'. repeat split; auto.
Qed.

(** The completed example ride, sent back to [in_progress] and then
    cancelled: its [completed_at] stays, its status does not. *)
Lemma terminal_ride_keeps_only_its_timestamps_witness :
  status_in terminal_statuses "completed" = true /\
  exists r self' w',
    rides example_completed_world !! 1%nat = Some r /\
    Ride.status r = "completed" /\
    update_status_seq (1%nat, r)
      [(2000, "in_progress", ""); (3000, "cancelled_by_driver", "late")]
      example_completed_world = (Ok self', w') /\
    Ride.status self'.2 = "cancelled_by_driver" /\
    Ride.completed_at self'.2 = Ride.completed_at r /\
    Ride.completed_at r = Some 1000.
Proof.
  split; [reflexivity|].
  destruct (rides example_completed_world !! 1%nat) as [r|] eqn:Hr;
    [|vm_compute in Hr; discriminate].
  assert (Hst : Ride.status r = "completed").
  { vm_compute in Hr. injection Hr as <-. reflexivity. }
  assert (Hca : Ride.completed_at r = Some 1000).
  { vm_compute in Hr. injection Hr as <-. reflexivity. }
  destruct (terminal_ride_keeps_only_its_timestamps (1%nat, r) example_completed_world
              [(2000, "in_progress", ""); (3000, "cancelled_by_driver", "late")])
    as (self' & w' & Hrun & Hs & _ & _ & _ & Hc & _).
  { simpl. rewrite Hst. reflexivity. }
  exists r, self', w'. simpl in Hc. rewrite Hca in Hc. simpl in Hc.
  repeat split; auto. congruence.
Defined.

(** C8, the claim as it stands fails: the completed example ride is moved
    back to [in_progress] by its driver, and the call succeeds. *)
Lemma completed_ride_is_transitioned_again :
  Ride.status <$> rides example_completed_world !! 1%nat = Some "completed" /\
  exists ride w',
    update_ride_status 1 "in_progress" "" (Some "201") example_completed_world
      = (Ok (true, p_ride ride), w') /\
    Ride.status <$> rides w' !! 1%nat = Some "in_progress".
Proof.
  split; [reflexivity|]. eexists _, _. vm_compute. repeat split.
Qed.

(** ** Fare boosts *)

Lemma get_max_fare_boosts_spec w :
  exists s1,
    AppSettings.get_max_fare_boosts w
      = (Ok (max_fare_boosts_of w), set_app_settings s1 w) /\
    max_fare_boosts_of (set_app_settings s1 w) = max_fare_boosts_of w /\
    s1 !! "fare_boost_amount" = app_settings w !! "fare_boost_amount".
Proof.
  unfold AppSettings.get_max_fare_boosts, AppSettings.get_or_create, bind,
    max_fare_boosts_of, ret.
  destruct (app_settings w !! "max_fare_boosts") as [v|] eqn:Hv; simpl.
  - exists (app_settings w). destruct w; simpl in *. by rewrite Hv.
  - eexists. split; [reflexivity|]. simpl.
    rewrite lookup_insert_eq. split; [reflexivity|].
    by rewrite lookup_insert_ne.
Qed.

Lemma get_fare_boost_amount_configured w a :
  app_settings w !! "fare_boost_amount" = Some a ->
  AppSettings.get_fare_boost_amount w = (Ok (decimal a), w).
Proof.
  intros H. unfold AppSettings.get_fare_boost_amount, AppSettings.get_or_create.
  by rewrite H.
Qed.


(** With the boost amount never configured, [get_fare_boost_amount] hands
    out the [float] it has just stored, and the sum with the [Decimal] cost
    is a [TypeError]: the first boost of a fresh installation fails. *)
Lemma boost_fare_amount_not_configured self w :
  app_settings w !! "fare_boost_amount" = None ->
  Ride.fare_boosts self.2 < max_fare_boosts_of w ->
  Ride.status self.2 = "requested" ->
  exists w', boost_fare self w = (Raise TypeError, w') /\
             rides w' = rides w /\
             app_settings w' !! "fare_boost_amount" = Some 10000.
Proof.
  intros Ha Hlt Hst.
  destruct (get_max_fare_boosts_spec w) as (s1 & Hmax & Hkeep & Hamount).
  unfold boost_fare. rewrite (bind_ok _ _ _ _ _ Hmax).
  unfold AppSettings.get_fare_boost_amount, AppSettings.get_or_create.
  unfold bind at 1. simpl app_settings. rewrite Hamount, Ha.
  destruct (Z.geb_spec (Ride.fare_boosts self.2) (max_fare_boosts_of w)); [lia|].
  rewrite Hst. simpl. unfold bind, decimal_add, raise. simpl.
  eexists. split; [reflexivity|]. simpl. by rewrite lookup_insert_eq.
Qed.





(** C6.  [PassengerService.boost_ride_fare] gives one and the same reason to
    a passenger who boosts somebody else's ride (not-owner) and to the owner
    who boosts a ride that is already assigned (wrong-state); only the
    limit has a reason of its own.  [RideService.increase_ride_cost], the
    boost the passenger bot calls, tells the three apart. *)
Theorem boost_ride_fare_merges_not_owner_and_wrong_state :
  let assigned := example_world_with (example_ride (Some 1%nat) "assigned") in
  let at_limit :=
    example_world_with (Ride.set_boost 3 (Some 70000) (example_ride None "requested")) in
  (boost_ride_fare "300" 1 example_world).1
    = Ok (false, "Ride not found or cannot be boosted", None) /\
  (boost_ride_fare "100" 1 assigned).1
    = Ok (false, "Ride not found or cannot be boosted", None) /\
  (boost_ride_fare "100" 1 at_limit).1
    = Ok (false, "Maximum 3 fare boosts already applied", None) /\
  (increase_ride_cost 1 "300" example_world).1
    = Ok (false, p_str "Permission denied") /\
  (increase_ride_cost 1 "100" assigned).1
    = Ok (false, p_str "Ride already assigned or in progress") /\
  (increase_ride_cost 1 "100" at_limit).1
    = Ok (false, p_str "Maximum 3 fare boosts already applied").
Proof. vm_compute. repeat split. Qed.


(** ** Ratings *)















Lemma Ride_objects_get_status_eq w ride_id r st :
  rides w !! ride_id = Some r -> Ride.status r = st ->
  Ride_objects_get_status ride_id st w = (Ok (ride_id, r), w).
Proof.
  intros Hr Hst. unfold Ride_objects_get_status. rewrite Hr, Hst.
  by rewrite String.eqb_refl.
Qed.




(** ** Accepting a ride *)

Lemma is_driver_run w telegram_id d :
  is_driver w telegram_id d ->
  exists user driver,
    User_objects_get telegram_id w = (Ok user, w) /\
    driver_profile user.1 w = (Ok driver, w) /\ driver.1 = d.
Proof.
  intros (u & urow & drow & Hu & Hd).
  exists (u, urow), (d, drow).
  unfold User_objects_get, driver_profile. simpl. by rewrite Hu, Hd.
Qed.

Lemma active_rides_nil w d :
  active_rides d w = [] <-> ~ holds_active_ride w d.
Proof.
  unfold active_rides. rewrite objects_filter_nil. split.
  - intros Hall (k & r & Hr & Hd & Hst).
    specialize (Hall _ _ Hr). rewrite Hst, bool_decide_eq_true_2 in Hall by done.
    discriminate.
  - intros Hno k r Hr.
    destruct (bool_decide _ && _) eqn:Hb; [|done].
    apply andb_true_iff in Hb as [Hd Hst]. apply bool_decide_eq_true in Hd.
    exfalso. apply Hno. by exists k, r.
Qed.

(** A driver who holds an active ride is refused before the ride is looked
    at. *)
Lemma accept_ride_busy w telegram_id ride_id d :
  is_driver w telegram_id d -> holds_active_ride w d ->
  accept_ride telegram_id ride_id w = (Ok (false, p_str active_ride_message), w).
Proof.
  intros Hd Hbusy.
  destruct (is_driver_run _ _ _ Hd) as (user & driver & Hu & Hp & <-).
  unfold accept_ride. erewrite try_except_ok; [reflexivity|].
  rewrite (bind_ok _ _ _ _ _ Hu), (bind_ok _ _ _ _ _ Hp).
  unfold bind, get_world. simpl.
  rewrite bool_decide_eq_false_2; [done|].
  intros Hnil. by apply active_rides_nil in Hnil.
Qed.

(** A free driver gets a requested ride. *)
Lemma accept_ride_wins w telegram_id ride_id d r :
  is_driver w telegram_id d -> ~ holds_active_ride w d ->
  rides w !! ride_id = Some r -> Ride.status r = "requested" ->
  accept_ride telegram_id ride_id w
    = (Ok (true, p_ride (ride_id, accepted_by d (now w) r)),
       accepted_world ride_id d r w).
Proof.
  intros Hd Hfree Hr Hst.
  destruct (is_driver_run _ _ _ Hd) as (user & driver & Hu & Hp & <-).
  unfold accept_ride. erewrite try_except_ok; [reflexivity|].
  rewrite (bind_ok _ _ _ _ _ Hu), (bind_ok _ _ _ _ _ Hp).
  unfold bind at 1. unfold get_world at 1.
  rewrite bool_decide_eq_true_2 by (by apply active_rides_nil). cbn [negb].
  rewrite (bind_ok _ _ _ _ _ (Ride_objects_get_status_eq _ _ _ _ Hr Hst)).
  rewrite (bind_ok _ _ _ _ _ (update_status_eq _ _ _ _)).
  unfold accepted_world, accepted_by. simpl.
  by rewrite saved_world_ride_statuses.
Qed.

(** A free driver is told that a ride that is not requested (any more) is
    not available. *)
Lemma accept_ride_too_late w telegram_id ride_id d :
  is_driver w telegram_id d -> ~ holds_active_ride w d ->
  (forall r, rides w !! ride_id = Some r -> Ride.status r <> "requested") ->
  accept_ride telegram_id ride_id w = (Ok (false, p_str "Ride not available"), w).
Proof.
  intros Hd Hfree Hr.
  destruct (is_driver_run _ _ _ Hd) as (user & driver & Hu & Hp & <-).
  assert (Hget : Ride_objects_get_status ride_id "requested" w
                 = (Raise Ride_DoesNotExist, w)).
  { unfold Ride_objects_get_status.
    destruct (rides w !! ride_id) as [r|] eqn:Hl; [|done].
    specialize (Hr r eq_refl).
    destruct (String.eqb_spec (Ride.status r) "requested"); done. }
  unfold accept_ride.
  match goal with |- try_except ?body ?h w = _ =>
    assert (Hbody : body w = (Raise Ride_DoesNotExist, w))
  end.
  { rewrite (bind_ok _ _ _ _ _ Hu), (bind_ok _ _ _ _ _ Hp).
    unfold bind at 1. unfold get_world at 1.
    rewrite bool_decide_eq_true_2 by (by apply active_rides_nil). cbn [negb].
    by rewrite (bind_raise _ _ _ _ _ Hget). }
  by rewrite (try_except_raise _ _ _ _ _ Hbody).
Qed.

(** What [accept_ride] can do to the world: nothing, or bind a free driver
    to a requested ride. *)
Lemma accept_ride_world telegram_id ride_id w :
  after (accept_ride telegram_id ride_id) w = w \/
  exists d r,
    ~ holds_active_ride w d /\
    rides w !! ride_id = Some r /\ Ride.status r = "requested" /\
    after (accept_ride telegram_id ride_id) w = accepted_world ride_id d r w.
Proof.
  unfold after.
  pose proof (update_status_eq) as Hus.
  cbv beta iota delta [accept_ride try_except bind User_objects_get
    driver_profile get_world Ride_objects_get_status ret].
  destruct (objects_get _ _ (users w)) as [user|e]; [|left; by destruct e].
  destruct (objects_get _ _ (drivers w)) as [driver|e]; [|left; by destruct e].
  case_bool_decide as Hact; cbn [negb]; [|by left].
  destruct (rides w !! ride_id) as [r|] eqn:Hr; [|by left].
  destruct (String.eqb_spec (Ride.status r) "requested") as [Hst|]; [|by left].
  cbn [fst snd]. rewrite Hus. cbv zeta. cbn [fst snd].
  right. exists driver.1, r. split; [by apply active_rides_nil|].
  split; [done|]. split; [done|].
  unfold accepted_world, accepted_by.
  by rewrite saved_world_ride_statuses.
Qed.

Lemma accepted_world_rides ride_id d r w :
  rides (accepted_world ride_id d r w)
    = <[ride_id := accepted_by d (now w) r]> (rides w).
Proof. unfold accepted_world. simpl. by rewrite saved_world_rides. Qed.

Lemma accepted_by_driver d t r : Ride.driver (accepted_by d t r) = Some d.
Proof. unfold accepted_by. by rewrite stamp_driver. Qed.

Lemma accepted_by_status d t r : Ride.status (accepted_by d t r) = "assigned".
Proof. unfold accepted_by. by rewrite stamp_status. Qed.

(** Binding a free driver to a requested ride keeps every driver on at most
    one active ride. *)
Lemma accepted_world_single_active ride_id d r w :
  ~ holds_active_ride w d ->
  single_active_ride w ->
  single_active_ride (accepted_world ride_id d r w).
Proof.
  intros Hfree Hone d0 k1 k2 r1 r2.
  rewrite accepted_world_rides.
  destruct (decide (k1 = ride_id)) as [->|Hk1];
    destruct (decide (k2 = ride_id)) as [->|Hk2]; [done| | |].
  - rewrite lookup_insert_eq, lookup_insert_ne by done.
    intros [= <-] Hr2 Hd1 Hd2 _ Hs2. rewrite accepted_by_driver in Hd1.
    injection Hd1 as <-. exfalso. apply Hfree. by exists k2, r2.
  - rewrite lookup_insert_eq, lookup_insert_ne by done.
    intros Hr1 [= <-] Hd1 Hd2 Hs1 _. rewrite accepted_by_driver in Hd2.
    injection Hd2 as <-. exfalso. apply Hfree. by exists k1, r1.
  - rewrite !lookup_insert_ne by done. apply Hone.
Qed.

(** C2.  A driver who holds a ride that is assigned, en route, arrived or in
    progress is refused every further ride with the active-ride message,
    and the call leaves the whole world, the target ride included, as it
    was.  Called one at a time, [accept_ride] therefore never binds a
    driver to two active rides: if no driver holds two before a call, none
    does after it. *)
Theorem busy_driver_is_refused_another_ride (w : World) :
  (forall telegram_id ride_id d,
     is_driver w telegram_id d -> holds_active_ride w d ->
     accept_ride telegram_id ride_id w
       = (Ok (false, p_str active_ride_message), w)) /\
  (forall telegram_id ride_id,
     single_active_ride w ->
     single_active_ride (after (accept_ride telegram_id ride_id) w)).
Proof.
  split.
  - intros tid rid d Hd Hb. by apply (accept_ride_busy w tid rid d).
  - intros tid rid Hone.
    destruct (accept_ride_world tid rid w) as [->|(d & r & Hfree & _ & _ & ->)];
      [done|]. by apply accepted_world_single_active.
Qed.

Lemma single_active_ride_no_drivers w :
  map_Forall (fun _ r => Ride.driver r = None) (rides w) ->
  single_active_ride w.
Proof.
  intros Hall d k1 k2 r1 r2 Hr1 _ Hd1. specialize (Hall _ _ Hr1).
  simpl in Hall. congruence.
Qed.

(** Driver 1 of the example, busy with ride 1, asks for ride 2. *)
Lemma busy_driver_is_refused_another_ride_witness :
  is_driver example_busy_world "201" 1 /\
  holds_active_ride example_busy_world 1 /\
  accept_ride "201" 2 example_busy_world
    = (Ok (false, p_str active_ride_message), example_busy_world) /\
  single_active_ride example_two_rides_world /\
  single_active_ride example_busy_world.
Proof.
  assert (Hd : is_driver example_busy_world "201" 1).
  { eexists _, _, _. split; vm_compute; reflexivity. }
  assert (Hb : holds_active_ride example_busy_world 1).
  { eexists 1%nat, _. split; [vm_compute; reflexivity|]. split; reflexivity. }
  assert (H0 : single_active_ride example_two_rides_world).
  { apply single_active_ride_no_drivers. apply map_Forall_to_list.
    vm_compute. repeat constructor. }
  destruct (busy_driver_is_refused_another_ride example_busy_world) as [Hrefuse _].
  destruct (busy_driver_is_refused_another_ride example_two_rides_world) as [_ Hkeep].
  repeat split; auto. apply (Hkeep "201" 1%nat H0).
Defined.

(** ** Accepts one after the other, and accepts that overlap *)

Lemma is_driver_accepted_world ride_id d r w telegram_id d' :
  is_driver w telegram_id d' ->
  is_driver (accepted_world ride_id d r w) telegram_id d'.
Proof.
  unfold is_driver, accepted_world. simpl.
  destruct (saved_world_tables (ride_id, accepted_by d (now w) r) w)
    as (-> & _ & -> & _). done.
Qed.

Lemma holds_active_ride_accepted_world ride_id d r w d' :
  d' <> d -> ~ holds_active_ride w d' ->
  ~ holds_active_ride (accepted_world ride_id d r w) d'.
Proof.
  intros Hne Hfree (k & r0 & Hr0 & Hd0 & Hs0).
  rewrite accepted_world_rides in Hr0.
  destruct (decide (k = ride_id)) as [->|Hk].
  - rewrite lookup_insert_eq in Hr0. injection Hr0 as <-.
    rewrite accepted_by_driver in Hd0. congruence.
  - rewrite lookup_insert_ne in Hr0 by done. apply Hfree. by exists k, r0.
Qed.

(** Once the ride is taken, every free driver who asks is told that it is
    not available, and nothing changes. *)
Lemma accept_ride_seq_too_late ride_id w telegram_ids : forall ds,
  Forall2 (is_driver w) telegram_ids ds ->
  Forall (fun d => ~ holds_active_ride w d) ds ->
  (forall r, rides w !! ride_id = Some r -> Ride.status r <> "requested") ->
  accept_ride_seq telegram_ids ride_id w
    = (Ok (repeat (false, p_str "Ride not available") (length telegram_ids)), w).
Proof.
  induction telegram_ids as [|tid tids IH]; intros ds Hds Hfree Hr.
  - reflexivity.
  - inversion Hds as [|? d ? ds' Hd Hds']; subst.
    inversion Hfree as [|? ? Hf Hfree']; subst. simpl.
    rewrite (bind_ok _ _ _ _ _ (accept_ride_too_late _ _ _ _ Hd Hf Hr)).
    by rewrite (bind_ok _ _ _ _ _ (IH _ Hds' Hfree' Hr)).
Qed.

(** C1 (as amended).  Accept attempts for a requested ride by distinct
    drivers, none of whom holds an active ride, made one after the other:
    the first succeeds, binds its driver, moves the ride from [requested] to
    [assigned], stamps [accepted_at] if it was not set and writes one
    history row; every later attempt fails with ["Ride not available"] and
    changes nothing, so the driver is set once. *)
Theorem first_of_successive_accepts_wins
    (w : World) (ride_id : nat) (r : Ride.t)
    (telegram_id : string) (d : nat) (telegram_ids : list string) (ds : list nat) :
  rides w !! ride_id = Some r ->
  Ride.status r = "requested" ->
  Forall2 (is_driver w) (telegram_id :: telegram_ids) (d :: ds) ->
  NoDup (d :: ds) ->
  Forall (fun d => ~ holds_active_ride w d) (d :: ds) ->
  exists r' w',
    accept_ride_seq (telegram_id :: telegram_ids) ride_id w
      = (Ok ((true, p_ride (ride_id, r'))
             :: repeat (false, p_str "Ride not available") (length telegram_ids)),
         w') /\
    rides w' !! ride_id = Some r' /\
    Ride.driver r' = Some d /\
    Ride.status r' = "assigned" /\
    Ride.accepted_at r' =
      match Ride.accepted_at r with
      | Some x => Some x
      | None => Some (now w)
      end /\
    ride_statuses w' =
      ride_statuses w ++ [RideStatus.mk ride_id "assigned" "Driver assigned" (now w)].
Proof.
  intros Hr Hst Hds Hnd Hfree.
  inversion Hds as [|? ? ? ? Hd Hds']; subst.
  inversion Hfree as [|? ? Hf Hfree']; subst.
  apply NoDup_cons in Hnd as [Hnotin Hnd].
  exists (accepted_by d (now w) r), (accepted_world ride_id d r w).
  split.
  - simpl. rewrite (bind_ok _ _ _ _ _ (accept_ride_wins _ _ _ _ _ Hd Hf Hr Hst)).
    erewrite bind_ok; [reflexivity|].
    apply (accept_ride_seq_too_late _ _ _ ds).
    + eapply Forall2_impl; [exact Hds'|]. intros tid d'.
      apply is_driver_accepted_world.
    + apply Forall_forall. intros d' Hin.
      apply holds_active_ride_accepted_world.
      * intros ->. done.
      * by eapply Forall_forall in Hfree'.
    + intros r0. rewrite accepted_world_rides, lookup_insert_eq.
      intros [= <-]. by rewrite accepted_by_status.
  - rewrite accepted_world_rides, lookup_insert_eq, accepted_by_driver,
      accepted_by_status.
    unfold accepted_by. rewrite stamp_accepted_at. simpl.
    repeat split; by destruct (Ride.accepted_at r).
Qed.

(** The three drivers of the example ask for its ride in turn. *)
Lemma first_of_successive_accepts_wins_witness :
  rides example_world !! 1%nat = Some (example_ride None "requested") /\
  Forall2 (is_driver example_world) ["201"; "202"; "203"] [1; 2; 3]%nat /\
  exists r' w',
    accept_ride_seq ["201"; "202"; "203"] 1 example_world
      = (Ok [(true, p_ride (1%nat, r'));
             (false, p_str "Ride not available");
             (false, p_str "Ride not available")], w') /\
    Ride.driver r' = Some 1%nat.
Proof.
  assert (Hr : rides example_world !! 1%nat = Some (example_ride None "requested"))
    by reflexivity.
  assert (Hds : Forall2 (is_driver example_world) ["201"; "202"; "203"] [1; 2; 3]%nat).
  { repeat constructor; eexists _, _, _; split; vm_compute; reflexivity. }
  assert (Hfree : Forall (fun d => ~ holds_active_ride example_world d) [1; 2; 3]%nat).
  { repeat constructor; intros (k & r0 & Hk & Hd & _);
      assert (Hall : map_Forall (fun _ x => Ride.driver x = None) (rides example_world))
        by (apply map_Forall_to_list; vm_compute; repeat constructor);
      specialize (Hall _ _ Hk); simpl in Hall; congruence. }
  assert (Hnd : NoDup [1; 2; 3]%nat).
  { apply (bool_decide_unpack _). by vm_compute. }
  destruct (first_of_successive_accepts_wins example_world 1 _ "201" 1%nat
              ["202"; "203"] [2; 3]%nat Hr eq_refl Hds Hnd Hfree)
    as (r' & w' & Hrun & _ & Hdrv & _).
  split; [exact Hr|]. split; [exact Hds|]. by exists r', w'.
Defined.

(** [accept_ride] is its reads followed by its writes. *)
Lemma accept_ride_reads_then_writes telegram_id ride_id w :
  accept_ride telegram_id ride_id w =
  (let* x := accept_ride_reads telegram_id ride_id in
   match x with
   | inl r => ret r
   | inr ride => accept_ride_writes ride
   end) w.
Proof.
  pose proof update_status_eq as Hus.
  cbv beta iota delta [accept_ride accept_ride_reads accept_ride_writes
    try_except bind User_objects_get driver_profile get_world
    Ride_objects_get_status ret].
  destruct (objects_get _ _ (users w)) as [user|e]; [|by destruct e].
  destruct (objects_get _ _ (drivers w)) as [driver|e]; [|by destruct e].
  case_bool_decide as Hact; cbn [negb]; [|done].
  destruct (rides w !! ride_id) as [r|] eqn:Hr; [|done].
  destruct (String.eqb_spec (Ride.status r) "requested") as [Hst|]; [|done].
  cbn [fst snd]. by rewrite Hus.
Qed.

(** C1, the claim as it stands fails: two drivers of the example accept its
    ride at the same time.  Both calls read the ride while it is requested,
    both write, and both return success; the ride ends up with the second
    driver although the first was told he has it, and the history shows two
    assignments.  The write of [accept_ride] is a plain save of the row, not
    a compare-and-set. *)
Lemma overlapping_accepts_both_succeed :
  let '(calls, w') :=
    run_schedule [0; 1; 0; 1]%nat
      [call_started "201" 1; call_started "202" 1] example_world in
  map succeeded calls = [true; true] /\
  (exists r1 r2,
     calls = [call_returned (true, p_ride (1%nat, r1));
              call_returned (true, p_ride (1%nat, r2))] /\
     Ride.driver r1 = Some 1%nat /\ Ride.driver r2 = Some 2%nat) /\
  Ride.driver <$> rides w' !! 1%nat = Some (Some 2%nat) /\
  map RideStatus.status (ride_statuses w') = ["assigned"; "assigned"].
Proof.
  vm_compute. split; [reflexivity|]. split; [|split; reflexivity].
  eexists _, _. split; [reflexivity|]. split; reflexivity.
Qed.

(** ** Offers: escalation and boost *)

Section Dispatch.

Variable distance_km : nat -> nat -> Z.
Variable send_ok : string -> bool.

Lemma get_nearby_rides_for_new_ride_eq ride w :
  get_nearby_rides_for_new_ride distance_km ride w
    = (Ok (candidates distance_km ride.1 w), w).
Proof. reflexivity. Qed.

(** The world after one offer [text] went out to [tg]. *)
Lemma send_driver_notification_ok tg ride dist w :
  send_ok tg = true ->
  send_driver_notification true send_ok (Some tg) ride dist w =
  (Ok true,
   set_celery
     (celery w ++ [(now w + 60,
                    auto_reject_ride_task ride.1 (Some tg) (Some (S (length (bot w)))))])
     (set_bot
        (bot w ++ [send_message tg
                     (new_ride_request ride.1 (Z.quot (Ride.display_cost ride.2) 100))
                     (S (length (bot w)))]) w)).
Proof.
  intros Hok.
  unfold send_driver_notification, try_except, bind, bot_send_message,
    apply_async, modify, ret. simpl. by rewrite Hok.
Qed.

Lemma send_boosted_ride_notification_ok tg ride dist w :
  send_ok tg = true ->
  send_boosted_ride_notification true send_ok (Some tg) ride dist w =
  (Ok true,
   set_celery
     (celery w ++ [(now w + 60,
                    auto_reject_ride_task ride.1 (Some tg) (Some (S (length (bot w)))))])
     (set_bot
        (bot w ++ [send_message tg
                     (boosted_ride_request ride.1
                        (Z.quot (Ride.display_cost ride.2) 100)
                        (Ride.fare_boosts ride.2))
                     (S (length (bot w)))]) w)).
Proof.
  intros Hok.
  unfold send_boosted_ride_notification, try_except, bind, bot_send_message,
    apply_async, modify, ret. simpl. by rewrite Hok.
Qed.

Lemma driver_user_telegram_id_eq w d u :
  users w !! Driver.user d = Some u ->
  driver_user_telegram_id d w = (Ok (User.telegram_id u), w).
Proof. intros H. unfold driver_user_telegram_id. by rewrite H. Qed.

(** The search for the next driver passes over the candidates with the
    excluded telegram id and stops at the first other one. *)
Lemma find_next_driver_skips w exclude skipped l :
  exclude <> "" ->
  Forall (fun c => has_telegram_id w c exclude) skipped ->
  find_next_driver (Some exclude) (skipped ++ l) w
    = find_next_driver (Some exclude) l w.
Proof.
  intros Hne. induction 1 as [|c skipped (u & Hu & Hs) _ IH]; [done|].
  rewrite <- app_comm_cons. cbn [find_next_driver].
  rewrite (str_truthy_some _ Hne).
  rewrite (bind_ok _ _ _ (true) w); [exact IH|].
  rewrite (bind_ok _ _ _ _ _ (driver_user_telegram_id_eq _ _ _ Hu)).
  unfold ret. simpl. by rewrite Hs, String.eqb_refl.
Qed.

Lemma find_next_driver_stops w exclude next rest s :
  exclude <> "" -> s <> exclude -> has_telegram_id w next s ->
  find_next_driver (Some exclude) (next :: rest) w = (Ok (Some next), w).
Proof.
  intros Hne Hs (u & Hu & Htg). cbn [find_next_driver].
  rewrite (str_truthy_some _ Hne).
  rewrite (bind_ok _ _ _ (false) w); [done|].
  rewrite (bind_ok _ _ _ _ _ (driver_user_telegram_id_eq _ _ _ Hu)).
  unfold ret. simpl. rewrite Htg.
  by destruct (String.eqb_spec s exclude).
Qed.

Lemma find_next_driver_none w exclude l :
  exclude <> "" ->
  Forall (fun c => has_telegram_id w c exclude) l ->
  find_next_driver (Some exclude) l w = (Ok None, w).
Proof.
  intros Hne Hall.
  rewrite <- (app_nil_r l). by rewrite find_next_driver_skips.
Qed.

(** The system cancels a requested ride: status, time and reason, a
    history row, and the passenger's notification on the queue. *)
Lemma cancel_ride_no_drivers_requested w ride_id r :
  rides w !! ride_id = Some r -> Ride.status r = "requested" ->
  exists w',
    cancel_ride_no_drivers ride_id w = (Ok true, w') /\
    bot w' = bot w /\
    rides w' !! ride_id
      = Some (stamp "cancelled_by_system" "No drivers available" (now w)
                (Ride.set_status "cancelled_by_system" r)) /\
    ride_statuses w' = ride_statuses w ++
      [RideStatus.mk ride_id "cancelled_by_system" "No drivers available" (now w)] /\
    last (celery w') = Some (now w, notify_passenger_ride_cancelled_task ride_id).
Proof.
  intros Hr Hst. unfold cancel_ride_no_drivers.
  eexists. split.
  - erewrite try_except_ok; [reflexivity|].
    rewrite (bind_ok _ _ _ _ _ (Ride_objects_get_status_eq _ _ _ _ Hr Hst)).
    rewrite (bind_ok _ _ _ _ _ (update_status_eq _ _ _ _)).
    unfold bind, delay, apply_async, modify, ret. simpl. reflexivity.
  - simpl. rewrite saved_world_rides, saved_world_ride_statuses. simpl.
    rewrite lookup_insert_eq.
    destruct (saved_world_tables
                (ride_id, stamp "cancelled_by_system" "No drivers available" (now w)
                            (Ride.set_status "cancelled_by_system" r)) w)
      as (_ & _ & _ & _ & _ & Hnow & Hbot).
    rewrite Hnow, Hbot, last_snoc, Z.add_0_r. done.
Qed.

(** C3 (as amended).  When the offer of a driver (telegram id [exclude])
    expires and the ride is still requested, [reassign_ride_to_next_driver]
    lists the candidates again (every online verified driver, closest
    first), passes over the driver whose offer expired and no one else,
    and sends one fresh offer, with its 60-second expiry task, to the first
    remaining candidate only.  When no candidate remains it cancels the
    ride for the system with the reason ["No drivers available"], writes
    the history row and schedules the passenger's notification; no offer
    goes out. *)
Theorem escalation_offers_the_next_candidate_only
    (w : World) (ride_id : nat) (r : Ride.t) (exclude : string) :
  rides w !! ride_id = Some r ->
  Ride.status r = "requested" ->
  exclude <> "" ->
  (forall skipped next rest tg,
     candidates distance_km ride_id w = skipped ++ next :: rest ->
     Forall (fun c => has_telegram_id w c exclude) skipped ->
     tg <> exclude ->
     reachable send_ok w next tg ->
     exists w',
       reassign_ride_to_next_driver distance_km true send_ok ride_id (Some exclude) w
         = (Ok true, w') /\
       same_database w w' /\
       bot w' = bot w ++
         [send_message tg
            (new_ride_request ride_id (Z.quot (Ride.display_cost r) 100))
            (S (length (bot w)))] /\
       celery w' = celery w ++
         [(now w + 60,
           auto_reject_ride_task ride_id (Some tg) (Some (S (length (bot w)))))]) /\
  (Forall (fun c => has_telegram_id w c exclude) (candidates distance_km ride_id w) ->
   exists w' r',
     reassign_ride_to_next_driver distance_km true send_ok ride_id (Some exclude) w
       = (Ok false, w') /\
     bot w' = bot w /\
     rides w' !! ride_id = Some r' /\
     Ride.status r' = "cancelled_by_system" /\
     (Ride.cancelled_at r = None ->
      Ride.cancelled_at r' = Some (now w) /\
      Ride.cancellation_reason r' = "No drivers available") /\
     ride_statuses w' = ride_statuses w ++
       [RideStatus.mk ride_id "cancelled_by_system" "No drivers available" (now w)] /\
     last (celery w') = Some (now w, notify_passenger_ride_cancelled_task ride_id)).
Proof.
  intros Hr Hst Hne. split.
  - intros skipped next rest tg Hc Hskip Htg ((u & Hu & Hutg) & Hok).
    assert (Hfind : find_next_driver (Some exclude)
                      (candidates distance_km ride_id w) w = (Ok (Some next), w)).
    { rewrite Hc, find_next_driver_skips by done.
      apply (find_next_driver_stops _ _ _ _ tg); [done|done|].
      exists u. split; [done|]. by rewrite Hutg. }
    eexists. split.
    + unfold reassign_ride_to_next_driver.
      erewrite try_except_ok; [reflexivity|].
      rewrite (bind_ok _ _ _ _ _ (Ride_objects_get_status_eq _ _ _ _ Hr Hst)).
      rewrite (bind_ok _ _ _ _ _ (get_nearby_rides_for_new_ride_eq _ _)).
      cbn [fst snd]. rewrite Hc.
      rewrite bool_decide_eq_false_2 by (by destruct skipped).
      rewrite <- Hc. rewrite (bind_ok _ _ _ _ _ Hfind).
      rewrite (bind_ok _ _ _ _ _ (driver_user_telegram_id_eq _ _ _ Hu)).
      rewrite Hutg.
      rewrite (bind_ok _ _ _ _ _ (send_driver_notification_ok _ _ _ _ Hok)).
      reflexivity.
    + simpl. repeat split.
  - intros Hall.
    destruct (cancel_ride_no_drivers_requested w ride_id r Hr Hst)
      as (w' & Hcancel & Hbot & Hride & Hhist & Hlast).
    exists w', (stamp "cancelled_by_system" "No drivers available" (now w)
                  (Ride.set_status "cancelled_by_system" r)).
    split.
    + unfold reassign_ride_to_next_driver.
      erewrite try_except_ok; [reflexivity|].
      rewrite (bind_ok _ _ _ _ _ (Ride_objects_get_status_eq _ _ _ _ Hr Hst)).
      rewrite (bind_ok _ _ _ _ _ (get_nearby_rides_for_new_ride_eq _ _)).
      cbn [fst snd]. case_bool_decide as Hnil.
      * by rewrite (bind_ok _ _ _ _ _ Hcancel).
      * rewrite (bind_ok _ _ _ _ _ (find_next_driver_none _ _ _ Hne Hall)).
        by rewrite (bind_ok _ _ _ _ _ Hcancel).
    + split; [done|]. split; [done|]. rewrite stamp_status. split; [done|].
      pose proof (stamp_cancelled "cancelled_by_system" "No drivers available"
                    (now w) (Ride.set_status "cancelled_by_system" r)) as Hc.
      simpl in Hc. split; [|done].
      intros Hnone. rewrite Hnone in Hc. by injection Hc as -> ->.
Qed.

Lemma reachable_same_users w w' c tg :
  users w' = users w -> reachable send_ok w c tg -> reachable send_ok w' c tg.
Proof. unfold reachable. by intros ->. Qed.

Lemma same_database_trans w1 w2 w3 :
  same_database w1 w2 -> same_database w2 w3 -> same_database w1 w3.
Proof.
  unfold same_database. intros (?&?&?&?&?&?&?&?) (?&?&?&?&?&?&?&?).
  repeat split; congruence.
Qed.

(** The loop of the boosted broadcast: one boosted offer per candidate, in
    the order of the candidates, each with its own expiry task; the log and
    the queue only grow. *)
Lemma notify_each_boosted ride cands : forall tgs w,
  Forall2 (reachable send_ok w) cands tgs ->
  exists w' news,
    notify_each (send_boosted_ride_notification true send_ok) ride cands w
      = (Ok (Z.of_nat (length cands)), w') /\
    same_database w w' /\
    bot w' = bot w ++ news /\
    map offer_of news =
      map (fun tg => Some (tg, boosted_ride_request ride.1
                                 (Z.quot (Ride.display_cost ride.2) 100)
                                 (Ride.fare_boosts ride.2))) tgs /\
    celery w' = celery w ++ omap (timer_of ride.1 (now w + 60)) news.
Proof.
  induction cands as [|c cands IH]; intros tgs w Hall.
  - inversion Hall; subst. exists w, []. simpl. rewrite !app_nil_r.
    repeat split.
  - inversion Hall as [|? tg ? tgs' Hc Hrest]; subst.
    destruct Hc as [(u & Hu & Hutg) Hok].
    set (w1 := set_celery
                 (celery w ++ [(now w + 60,
                    auto_reject_ride_task ride.1 (Some tg) (Some (S (length (bot w)))))])
                 (set_bot
                    (bot w ++ [send_message tg
                       (boosted_ride_request ride.1
                          (Z.quot (Ride.display_cost ride.2) 100)
                          (Ride.fare_boosts ride.2))
                       (S (length (bot w)))]) w)).
    destruct (IH tgs' w1) as (w' & news & Hrun & Hdb & Hbot & Hoff & Hcel).
    { eapply Forall2_impl; [exact Hrest|]. intros c' tg'.
      by apply reachable_same_users. }
    exists w', (send_message tg
                  (boosted_ride_request ride.1
                     (Z.quot (Ride.display_cost ride.2) 100)
                     (Ride.fare_boosts ride.2))
                  (S (length (bot w))) :: news).
    split.
    { cbn [notify_each].
      rewrite (bind_ok _ _ _ _ _ (driver_user_telegram_id_eq _ _ _ Hu)).
      rewrite Hutg.
      rewrite (bind_ok _ _ _ _ _ (send_boosted_ride_notification_ok _ _ _ _ Hok)).
      fold w1. rewrite (bind_ok _ _ _ _ _ Hrun). unfold ret.
      do 2 f_equal. cbn [length]. lia. }
    split.
    { apply (same_database_trans w w1 w'); [|done]. subst w1. repeat split. }
    split.
    { rewrite Hbot. subst w1. simpl. by rewrite <- app_assoc. }
    split.
    { simpl. by rewrite Hoff. }
    rewrite Hcel. subst w1. simpl. by rewrite <- app_assoc.
Qed.

(** C4 (as amended).  For a ride in requested status,
    [notify_drivers_about_boosted_ride] -- the task a successful boost
    schedules -- sends a fresh offer at the ride's stored, boosted display
    cost to every current candidate (the candidates reachable), each with a
    new 60-second expiry task.  It retires nothing: the bot's log is
    extended by these messages only, no message is deleted, and every task
    that was on the queue, the expiry tasks of the earlier offers included,
    is still there. *)
Theorem boost_broadcasts_to_all_and_retires_nothing
    (w : World) (ride_id : nat) (r : Ride.t) (tgs : list string) :
  rides w !! ride_id = Some r ->
  Ride.status r = "requested" ->
  Forall2 (reachable send_ok w) (candidates distance_km ride_id w) tgs ->
  exists w' news,
    notify_drivers_about_boosted_ride distance_km true send_ok ride_id w
      = (Ok (negb (bool_decide (tgs = []))), w') /\
    same_database w w' /\
    bot w' = bot w ++ news /\
    map offer_of news =
      map (fun tg => Some (tg, boosted_ride_request ride_id
                                 (Z.quot (Ride.display_cost r) 100)
                                 (Ride.fare_boosts r))) tgs /\
    celery w' = celery w ++ omap (timer_of ride_id (now w + 60)) news.
Proof.
  intros Hr Hst Hall.
  destruct (notify_each_boosted (ride_id, r) _ _ _ Hall)
    as (w' & news & Hrun & Hdb & Hbot & Hoff & Hcel).
  pose proof (Forall2_length _ _ _ Hall) as Hlen.
  unfold notify_drivers_about_boosted_ride.
  rewrite (try_except_ok _ _ w
             (negb (bool_decide (tgs = [])))
             (if bool_decide (tgs = []) then w else w')).
  - case_bool_decide as Hnil.
    + subst tgs. exists w, []. simpl.
      destruct (candidates distance_km ride_id w); [|done].
      rewrite !app_nil_r. repeat split.
    + by exists w', news.
  - rewrite (bind_ok _ _ _ _ _ (Ride_objects_get_status_eq _ _ _ _ Hr Hst)).
    rewrite (bind_ok _ _ _ _ _ (get_nearby_rides_for_new_ride_eq _ _)).
    cbn [fst snd].
    destruct (candidates distance_km ride_id w) as [|c cands] eqn:Hc.
    + destruct tgs; [|done]. by rewrite !bool_decide_eq_true_2.
    + destruct tgs as [|tg tgs]; [done|].
      rewrite !bool_decide_eq_false_2 by done.
      rewrite (bind_ok _ _ _ _ _ Hrun). unfold ret. simpl negb.
      by do 2 f_equal.
Qed.

End Dispatch.

(** The offer of driver 1 of the example expires: the fresh offer goes to
    driver 2; with driver 1 alone, the ride is cancelled. *)
Lemma escalation_offers_the_next_candidate_only_witness :
  rides example_one_offer_world !! 1%nat = Some (example_ride None "requested") /\
  candidates example_distance 1 example_one_offer_world
    = [example_candidate 1] ++ example_candidate 2 :: [example_candidate 3] /\
  (exists w',
     reassign_ride_to_next_driver example_distance true always 1 (Some "201")
       example_one_offer_world = (Ok true, w') /\
     bot w' = bot example_one_offer_world
              ++ [send_message "202" (new_ride_request 1 400) 2]) /\
  (exists w' r',
     reassign_ride_to_next_driver example_distance true always 1 (Some "201")
       example_lonely_world = (Ok false, w') /\
     rides w' !! 1%nat = Some r' /\
     Ride.status r' = "cancelled_by_system").
Proof.
  assert (Hr : rides example_one_offer_world !! 1%nat
               = Some (example_ride None "requested")) by reflexivity.
  assert (Hc : candidates example_distance 1 example_one_offer_world
               = [example_candidate 1] ++ example_candidate 2 :: [example_candidate 3])
    by (vm_compute; reflexivity).
  split; [exact Hr|]. split; [exact Hc|]. split.
  - destruct (escalation_offers_the_next_candidate_only example_distance always
                example_one_offer_world 1 _ "201" Hr eq_refl ltac:(discriminate))
      as [Hnext _].
    destruct (Hnext [example_candidate 1] (example_candidate 2)
                [example_candidate 3] "202" Hc)
      as (w' & Hrun & _ & Hbot & _).
    + repeat constructor. eexists. split; [vm_compute; reflexivity|reflexivity].
    + discriminate.
    + split; [|reflexivity]. eexists. split; [vm_compute; reflexivity|reflexivity].
    + exists w'. split; [exact Hrun|]. rewrite Hbot. reflexivity.
  - assert (Hr' : rides example_lonely_world !! 1%nat
                  = Some (example_ride None "requested")) by reflexivity.
    destruct (escalation_offers_the_next_candidate_only example_distance always
                example_lonely_world 1 _ "201" Hr' eq_refl ltac:(discriminate))
      as [_ Hnone].
    destruct Hnone as (w' & r' & Hrun & _ & Hride & Hst & _).
    + assert (Hc' : candidates example_distance 1 example_lonely_world
                    = [example_candidate 1]) by (vm_compute; reflexivity).
      rewrite Hc'. repeat constructor.
      eexists. split; [vm_compute; reflexivity|reflexivity].
    + by exists w', r'.
Defined.

(** C3, the claim as it stands fails.  After the first broadcast of the
    example all three drivers hold a live offer; when the offer of driver
    201 expires, driver 202 -- whose offer is still live -- is sent a second
    one.  And when only driver 201 had been offered, so that 202 and 203
    both remain, the expiry sends a fresh offer to 202 alone. *)
Lemma escalation_reoffers_a_pending_driver_and_one_only :
  live_offers 1 example_offered_world = [Some "201"; Some "202"; Some "203"] /\
  drop 3 (bot (after (auto_reject_ride example_distance true always always2
                        1 (Some "201") (Some 1%nat)) example_offered_world))
    = [delete_message "201" 1; send_message "201" ride_timeout 5;
       send_message "202" (new_ride_request 1 400) 6] /\
  live_offers 1 example_one_offer_world = [Some "201"] /\
  map (fun c : (nat * Driver.t) * Z => c.1.1)
      (candidates example_distance 1 example_one_offer_world) = [1; 2; 3]%nat /\
  drop 1 (bot (after (auto_reject_ride example_distance true always always2
                        1 (Some "201") (Some 1%nat)) example_one_offer_world))
    = [delete_message "201" 1; send_message "201" ride_timeout 3;
       send_message "202" (new_ride_request 1 400) 4].
Proof. vm_compute. repeat split. Qed.

(** The boosted example: the boost has scheduled the broadcast, and the
    three candidates are offered the ride at 500. *)
Lemma boost_broadcasts_to_all_and_retires_nothing_witness :
  rides example_boosted_world !! 1%nat
    = Some (Ride.set_boost 1 (Some 50000) (example_ride None "requested")) /\
  last (celery example_boosted_world)
    = Some (1000, notify_drivers_about_boosted_ride_task 1) /\
  exists w' news,
    notify_drivers_about_boosted_ride example_distance true always 1
      example_boosted_world = (Ok true, w') /\
    bot w' = bot example_boosted_world ++ news /\
    map offer_of news =
      [Some ("201", boosted_ride_request 1 500 1);
       Some ("202", boosted_ride_request 1 500 1);
       Some ("203", boosted_ride_request 1 500 1)].
Proof.
  assert (Hr : rides example_boosted_world !! 1%nat
               = Some (Ride.set_boost 1 (Some 50000) (example_ride None "requested")))
    by reflexivity.
  split; [exact Hr|]. split; [reflexivity|].
  destruct (boost_broadcasts_to_all_and_retires_nothing example_distance always
              example_boosted_world 1 _ ["201"; "202"; "203"] Hr eq_refl)
    as (w' & news & Hrun & _ & Hbot & Hoff & _).
  - assert (Hc : candidates example_distance 1 example_boosted_world
                 = [example_candidate 1; example_candidate 2; example_candidate 3])
      by (vm_compute; reflexivity).
    rewrite Hc.
    repeat constructor; eexists; split; vm_compute; reflexivity.
  - by exists w', news.
Defined.

(** C4, the claim as it stands fails.  The example ride is boosted after its
    first broadcast and the boosted broadcast runs: no message is deleted
    -- the three offers at 400 stay in the chats next to the offers at 500
    -- and the three expiry tasks of the old offers are still on the queue,
    so that every driver now holds two live offers. *)
Lemma boost_leaves_the_old_offers_and_timers :
  let w' :=
    after (notify_drivers_about_boosted_ride example_distance true always 1)
      example_boosted_world in
  map offer_of (bot w')
    = [Some ("201", new_ride_request 1 400); Some ("202", new_ride_request 1 400);
       Some ("203", new_ride_request 1 400);
       Some ("201", boosted_ride_request 1 500 1);
       Some ("202", boosted_ride_request 1 500 1);
       Some ("203", boosted_ride_request 1 500 1)] /\
  take 3 (celery w') = celery example_offered_world /\
  live_offers 1 example_offered_world = [Some "201"; Some "202"; Some "203"] /\
  live_offers 1 w'
    = [Some "201"; Some "202"; Some "203"; Some "201"; Some "202"; Some "203"].
Proof. vm_compute. repeat split. Qed.


(** * Further properties of the code *)

(** ** Strings: [in], [split], the callback data and the phone numbers *)

Lemma string_prefix_spec p s :
  String.prefix p s = true <-> exists post, s = p +:+ post.
Proof.
  revert s. induction p as [|c p IH]; intros s; simpl.
  - split; [intros _; by exists s | intros _; by destruct s].
  - destruct s as [|c' s];
      [split; [discriminate | intros [post Hp]; discriminate]|].
    simpl. destruct (Ascii.ascii_dec c c') as [->|Hne].
    + rewrite IH. split; intros [post Hp]; exists post.
      * simpl. by rewrite Hp.
      * simpl in Hp. by injection Hp.
    + split; [done|]. intros [post Hp]. simpl in Hp. injection Hp as Hc _.
      by destruct Hne.
Qed.

(** [str_in] is Python's [in] on strings: the needle occurs somewhere in the
    hay. *)
Lemma str_in_spec needle hay :
  str_in needle hay = true <->
  exists pre post, hay = pre +:+ needle +:+ post.
Proof.
  induction hay as [|c hay IH]; cbn [str_in].
  - rewrite orb_false_r, string_prefix_spec. split.
    + intros [post Hp]. by exists EmptyString, post.
    + intros (pre & post & Hp). destruct pre; [by exists post|discriminate].
  - rewrite orb_true_iff, string_prefix_spec, IH. split.
    + intros [[post Hp]|(pre & post & Hp)].
      * by exists EmptyString, post.
      * exists (String c pre), post. simpl. by rewrite Hp.
    + intros (pre & post & Hp). destruct pre as [|c' pre]; simpl in Hp.
      * left. by exists post.
      * right. injection Hp as _ Hp. by exists pre, post.
Qed.

(** X1.  [Ride.update_status] treats as a cancellation exactly the statuses
    that contain the text [cancelled] anywhere: on a ride that has no
    [cancelled_at], the call stamps [cancelled_at] (and takes the notes as
    the reason) if and only if the new status has the form
    [pre ++ "cancelled" ++ post]. *)
Theorem update_status_cancels_on_the_substring
    (self : nat * Ride.t) (new_status notes : string) (w : World) :
  Ride.cancelled_at self.2 = None ->
  exists self' w',
    update_status self new_status notes w = (Ok self', w') /\
    ((exists pre post, new_status = pre +:+ "cancelled" +:+ post) ->
     Ride.cancelled_at self'.2 = Some (now w) /\
     Ride.cancellation_reason self'.2 = notes) /\
    (~ (exists pre post, new_status = pre +:+ "cancelled" +:+ post) ->
     Ride.cancelled_at self'.2 = None /\
     Ride.cancellation_reason self'.2 = Ride.cancellation_reason self.2).
Proof.
  intros Hnone. eexists _, _. split; [apply update_status_eq|]. simpl.
  pose proof (stamp_cancelled new_status notes (now w)
                (Ride.set_status new_status self.2)) as Hc.
  simpl in Hc. rewrite Hnone in Hc.
  destruct (str_in "cancelled" new_status) eqn:Hin.
  - injection Hc as -> ->. split; [done|].
    intros Hno. exfalso. apply Hno. by apply str_in_spec.
  - injection Hc as -> ->. split; [|done].
    intros Hyes. apply str_in_spec in Hyes. congruence.
Qed.

Lemma update_status_cancels_on_the_substring_witness :
  exists self' w',
    update_status (1%nat, example_ride None "requested")
      "not_cancelled_at_all" "typo" example_world = (Ok self', w') /\
    Ride.cancelled_at self'.2 = Some 1000 /\
    Ride.cancellation_reason self'.2 = "typo".
Proof.
  destruct (update_status_cancels_on_the_substring
              (1%nat, example_ride None "requested")
              "not_cancelled_at_all" "typo" example_world eq_refl)
    as (self' & w' & Hrun & Hyes & _).
  exists self', w'. split; [exact Hrun|].
  apply Hyes. by exists "not_", "_at_all".
Defined.

Lemma string_app_assoc (a b c : string) : (a +:+ b) +:+ c = a +:+ (b +:+ c).
Proof.
  induction a as [|x a IH]; [reflexivity|].
  change (String x ((a +:+ b) +:+ c) = String x (a +:+ (b +:+ c))).
  by rewrite IH.
Qed.

Lemma string_app_empty_r (a : string) : a +:+ "" = a.
Proof.
  induction a as [|x a IH]; [reflexivity|].
  change (String x (a +:+ "") = String x a). by rewrite IH.
Qed.

(** A text without the separator is one piece. *)
Lemma split_from_no_underscore m piece s :
  no_underscore s = true ->
  split_from "_" m piece s = [piece +:+ s].
Proof.
  revert m piece. induction s as [|c s IH]; intros m piece Hs.
  - destruct m as [[|n]|]; simpl; by rewrite ?string_app_empty_r.
  - simpl in Hs. apply andb_true_iff in Hs as [Hc Hs].
    apply negb_true_iff in Hc.
    destruct m as [[|n]|]; [done| |]; cbn [split_from]; rewrite Hc, IH by done;
      by rewrite string_app_assoc.
Qed.

(** The piece before the first separator is split off, as long as splits
    are left. *)
Lemma split_from_underscore m piece s rest :
  no_underscore s = true -> m <> Some O ->
  split_from "_" m piece (s +:+ String "_" rest)
    = (piece +:+ s) :: split_from "_" (pred <$> m) "" rest.
Proof.
  revert piece. induction s as [|c s IH]; intros piece Hs Hm.
  - rewrite string_app_empty_r.
    change ("" +:+ String "_" rest) with (String "_" rest).
    destruct m as [[|n]|]; [done| |]; reflexivity.
  - simpl in Hs. apply andb_true_iff in Hs as [Hc Hs].
    apply negb_true_iff in Hc.
    change (String c s +:+ String "_" rest)
      with (String c (s +:+ String "_" rest)).
    assert (Hp : piece +:+ String c s = (piece +:+ String c "") +:+ s)
      by by rewrite string_app_assoc.
    destruct m as [[|n]|]; [done| |]; cbn [split_from];
      rewrite Hc, IH by done; by rewrite Hp.
Qed.

Lemma split_from_exhausted piece s :
  split_from "_" (Some O) piece s = [piece +:+ s].
Proof. by destruct s. Qed.

Lemma before_underscore_no_underscore s :
  no_underscore (before_underscore s) = true.
Proof.
  induction s as [|c s IH]; [done|]. simpl.
  case_bool_decide as Hc; [done|]. simpl.
  by rewrite bool_decide_eq_false_2, IH.
Qed.

Lemma before_underscore_id s :
  no_underscore s = true -> before_underscore s = s.
Proof.
  induction s as [|c s IH]; [done|]. simpl. intros Hs.
  apply andb_true_iff in Hs as [Hc Hs]. apply negb_true_iff in Hc.
  by rewrite Hc, IH.
Qed.

(** A string is its part before the first underscore, alone or followed by
    an underscore and a rest. *)
Lemma before_underscore_split s :
  s = before_underscore s \/
  exists rest, s = before_underscore s +:+ String "_" rest.
Proof.
  induction s as [|c s IH]; [by left|]. simpl.
  case_bool_decide as Hc.
  - right. exists s. by rewrite Hc.
  - destruct IH as [IH|[rest IH]].
    + left. by rewrite <- IH.
    + right. exists rest.
      change (String c s = String c (before_underscore s +:+ String "_" rest)).
      by rewrite <- IH.
Qed.

(** X2.  The callback data of an offer's buttons survive the parsing of
    [handle_ride_response]: for an action without underscore (as [accept]
    and [reject] are), [split('_', 2)] of [action_ride_<id>] gives back the
    action and the whole ride id, whatever characters the id holds,
    underscores included.  The cancel button is parsed with an unbounded
    [split('_')[2]]: it gives back the id up to its first underscore, hence
    the whole id exactly when the id has none (as a UUID). *)
Theorem callback_data_round_trip (action ride_id : string) :
  no_underscore action = true ->
  parse_callback (callback_data action ride_id) = Some (action, ride_id) /\
  parse_cancel_ride (callback_data action ride_id)
    = Some (before_underscore ride_id) /\
  (no_underscore ride_id = true ->
   parse_cancel_ride (callback_data action ride_id) = Some ride_id).
Proof.
  intros Ha.
  assert (Hparse : parse_callback (callback_data action ride_id)
                   = Some (action, ride_id)).
  { unfold parse_callback, callback_data, split.
    change (action +:+ "_ride_" +:+ ride_id)
      with (action +:+ String "_" ("ride" +:+ String "_" ride_id)).
    rewrite split_from_underscore by done. simpl fmap.
    rewrite (split_from_underscore (Some 1%nat) "" "ride") by done.
    simpl fmap. by rewrite split_from_exhausted. }
  assert (Hcancel : parse_cancel_ride (callback_data action ride_id)
                    = Some (before_underscore ride_id)).
  { unfold parse_cancel_ride, callback_data, split.
    change (action +:+ "_ride_" +:+ ride_id)
      with (action +:+ String "_" ("ride" +:+ String "_" ride_id)).
    rewrite split_from_underscore by done. simpl fmap.
    rewrite (split_from_underscore None "" "ride") by done. simpl fmap.
    destruct (before_underscore_split ride_id) as [Hid|[rest Hid]].
    - rewrite Hid at 1.
      rewrite split_from_no_underscore by apply before_underscore_no_underscore.
      done.
    - rewrite Hid at 1.
      rewrite split_from_underscore
        by (done || apply before_underscore_no_underscore).
      done. }
  split; [exact Hparse|]. split; [exact Hcancel|].
  intros Hid. by rewrite Hcancel, before_underscore_id.
Qed.

(** The accept button of a ride whose id holds an underscore. *)
Lemma callback_data_round_trip_witness :
  no_underscore "accept" = true /\
  parse_callback (callback_data "accept" "e6878856_5c5a") = Some ("accept", "e6878856_5c5a") /\
  parse_cancel_ride (callback_data "cancel" "e6878856_5c5a") = Some "e6878856" /\
  parse_cancel_ride (callback_data "cancel" "e6878856-5c5a") = Some "e6878856-5c5a".
Proof.
  split; [reflexivity|].
  destruct (callback_data_round_trip "accept" "e6878856_5c5a" eq_refl) as (H1 & _ & _).
  destruct (callback_data_round_trip "cancel" "e6878856_5c5a" eq_refl) as (_ & H2 & _).
  destruct (callback_data_round_trip "cancel" "e6878856-5c5a" eq_refl) as (_ & _ & H3).
  split; [exact H1|]. split; [exact H2|]. apply H3. reflexivity.
Defined.

(** What [filter(str.isdigit, s)] keeps are digits, and digits are kept. *)
Lemma filter_string_all_digits s : all_digits (filter_string isdigit s) = true.
Proof.
  induction s as [|c s IH]; [done|]. simpl.
  destruct (isdigit c) eqn:Hc; [|done]. simpl. by rewrite Hc.
Qed.

Lemma filter_string_id s : all_digits s = true -> filter_string isdigit s = s.
Proof.
  induction s as [|c s IH]; [done|]. simpl. intros Hs.
  apply andb_true_iff in Hs as [Hc Hs]. by rewrite Hc, IH.
Qed.

(** X3.  The cleaning of a phone number (the contact handler cleans the
    number and hands it to [get_user_by_phone], which cleans it again)
    gives a plus sign followed by digits that do not start with 8, and
    cleaning a cleaned number changes nothing. *)
Theorem clean_phone_shape_and_idempotent (phone_number : string) :
  (exists digits,
     clean_phone phone_number = String "+" digits /\
     all_digits digits = true /\
     startswith_char "8" digits = false) /\
  clean_phone (clean_phone phone_number) = clean_phone phone_number.
Proof.
  assert (Hshape : exists digits,
             clean_phone phone_number = String "+" digits /\
             all_digits digits = true /\
             startswith_char "8" digits = false).
  { unfold clean_phone.
    pose proof (filter_string_all_digits phone_number) as Hd.
    destruct (filter_string isdigit phone_number) as [|c d] eqn:Hf.
    - by exists "".
    - simpl in Hd. apply andb_true_iff in Hd as [Hc Hd].
      cbn [startswith_char string_tail].
      destruct (bool_decide (c = "8"%char)) eqn:H8.
      + apply bool_decide_eq_true_1 in H8 as ->.
        exists (String "7" d).
        split; [reflexivity|]. split; [exact Hd|reflexivity].
      + rewrite andb_false_r. cbn [startswith_char].
        assert (Hplus : bool_decide (c = "+"%char) = false).
        { apply bool_decide_eq_false_2. intros ->. discriminate. }
        rewrite Hplus. exists (String c d).
        split; [reflexivity|]. cbn [all_digits startswith_char].
        by rewrite Hc, Hd, H8. }
  split; [exact Hshape|].
  destruct Hshape as (digits & -> & Hd & H8).
  unfold clean_phone. cbn [filter_string].
  change (isdigit "+") with false. cbv iota.
  rewrite (filter_string_id _ Hd), H8, andb_false_r.
  destruct digits as [|c d]; [done|].
  cbn [startswith_char].
  simpl in Hd. apply andb_true_iff in Hd as [Hc _].
  rewrite bool_decide_eq_false_2; [done|]. intros ->. discriminate.
Qed.

(** ** The candidates of a ride *)

Lemma insert_by_distance_perm {A} (x : A * Z) l :
  Permutation (insert_by_distance x l) (x :: l).
Proof.
  induction l as [|y l IH]; [done|]. simpl.
  destruct (x.2 <=? y.2); [done|].
  rewrite IH. apply perm_swap.
Qed.

Lemma sort_by_distance_perm {A} (l : list (A * Z)) :
  Permutation (sort_by_distance l) l.
Proof.
  induction l as [|x l IH]; [done|].
  unfold sort_by_distance in *. simpl.
  by rewrite insert_by_distance_perm, IH.
Qed.

Lemma insert_by_distance_sorted {A} (x : A * Z) l :
  closest_first l -> closest_first (insert_by_distance x l).
Proof.
  unfold closest_first. induction 1 as [|y l Hl IH Hhd]; simpl.
  - by repeat constructor.
  - destruct (Z.leb_spec x.2 y.2) as [Hle|Hgt].
    + by repeat constructor.
    + constructor; [exact IH|].
      destruct Hhd as [|z l Hz]; simpl.
      * constructor. lia.
      * destruct (x.2 <=? z.2); constructor; [lia|done].
Qed.

Lemma sort_by_distance_sorted {A} (l : list (A * Z)) :
  closest_first (sort_by_distance l).
Proof.
  induction l as [|x l IH]; [constructor|].
  by apply insert_by_distance_sorted.
Qed.

(** The rows a [filter] returns: those of the table that satisfy the
    condition, each once. *)
Lemma elem_of_objects_filter {A} (P : nat -> A -> bool) (table : gmap nat A) k x :
  (k, x) ∈ objects_filter P table <-> table !! k = Some x /\ P k x = true.
Proof.
  unfold objects_filter.
  rewrite list_elem_of_In, filter_In, <- list_elem_of_In, elem_of_map_to_list.
  done.
Qed.

Lemma NoDup_objects_filter {A} (P : nat -> A -> bool) (table : gmap nat A) :
  NoDup (objects_filter P table).
Proof.
  unfold objects_filter.
  apply NoDup_ListNoDup, List.NoDup_filter, NoDup_ListNoDup, NoDup_map_to_list.
Qed.

(** X4.  [get_nearby_rides_for_new_ride] reads only: it lists every driver
    whose row says online and verified exactly once, each with the distance
    computed for him, closest first.  No driver is left out for his distance
    or for a ride he is busy with, and no other driver is listed. *)
Theorem nearby_drivers_are_the_online_verified_closest_first
    (distance_km : nat -> nat -> Z) (ride : nat * Ride.t) (w : World) :
  exists l,
    get_nearby_rides_for_new_ride distance_km ride w = (Ok l, w) /\
    closest_first l /\
    NoDup l /\
    forall d row dist,
      (d, row, dist) ∈ l <->
      drivers w !! d = Some row /\ online_verified row = true /\
      dist = distance_km d ride.1.
Proof.
  eexists. split; [reflexivity|].
  split; [apply sort_by_distance_sorted|].
  split.
  - rewrite sort_by_distance_perm.
    assert (Hinj : Inj eq eq (fun d : nat * Driver.t => (d, distance_km d.1 ride.1)))
      by (by intros x y [= ->]).
    apply (NoDup_fmap_2 _), NoDup_objects_filter.
  - intros d row dist. rewrite sort_by_distance_perm.
    rewrite list_elem_of_fmap. split.
    + intros ([d' row'] & [= <- <- ->] & Hin).
      by apply elem_of_objects_filter in Hin as [Hin Hp].
    + intros (Hd & Hp & ->). exists (d, row). split; [done|].
      by apply elem_of_objects_filter.
Qed.

(** ** The broadcast of a new ride *)

Section Broadcast.

Variable distance_km : nat -> nat -> Z.
Variable send_ok : string -> bool.

(** An offer that Telegram refuses, or that has no chat to go to, is
    reported as not sent and leaves no trace. *)
Lemma send_driver_notification_refused tg ride dist w :
  (forall c, tg = Some c -> send_ok c = false) ->
  send_driver_notification true send_ok tg ride dist w = (Ok false, w).
Proof.
  intros Hno.
  unfold send_driver_notification, try_except, bind, bot_send_message. simpl.
  destruct tg as [c|]; [|done]. by rewrite (Hno c eq_refl).
Qed.

Lemma deliverable_same_users w w' c :
  users w' = users w -> deliverable send_ok w' c = deliverable send_ok w c.
Proof. unfold deliverable. by intros ->. Qed.

Lemma omap_deliverable_same_users w w' (cands : list ((nat * Driver.t) * Z)) :
  users w' = users w ->
  omap (deliverable send_ok w') cands = omap (deliverable send_ok w) cands.
Proof.
  intros Hu. induction cands as [|c cands IH]; [done|].
  cbn [omap list_omap]. fold (omap (deliverable send_ok w') cands).
  fold (omap (deliverable send_ok w) cands).
  by rewrite IH, (deliverable_same_users w w' c Hu).
Qed.

(** The loop of the first broadcast: one offer, with its expiry task, per
    candidate that can be reached, in the order of the candidates; a
    candidate that cannot be reached is passed over. *)
Lemma notify_each_new_ride ride cands : forall w,
  Forall (fun c : (nat * Driver.t) * Z => is_Some (users w !! Driver.user c.1.2))
         cands ->
  exists w' news,
    notify_each (send_driver_notification true send_ok) ride cands w
      = (Ok (Z.of_nat (length news)), w') /\
    same_database w w' /\
    bot w' = bot w ++ news /\
    map offer_of news =
      map (fun tg => Some (tg, new_ride_request ride.1
                                 (Z.quot (Ride.display_cost ride.2) 100)))
          (omap (deliverable send_ok w) cands) /\
    celery w' = celery w ++ omap (timer_of ride.1 (now w + 60)) news.
Proof.
  induction cands as [|c cands IH]; intros w Hall.
  - exists w, []. simpl. rewrite !app_nil_r. repeat split.
  - inversion Hall as [|? ? [u Hu] Hrest]; subst.
    cbn [notify_each].
    rewrite (bind_ok _ _ _ _ _ (driver_user_telegram_id_eq _ _ _ Hu)).
    assert (Hd : deliverable send_ok w c
                 = match User.telegram_id u with
                   | Some tg => if send_ok tg then Some tg else None
                   | None => None
                   end)
      by (unfold deliverable; by rewrite Hu).
    destruct (deliverable send_ok w c) as [tg|] eqn:Hdel.
    + assert (Htg : User.telegram_id u = Some tg /\ send_ok tg = true).
      { destruct (User.telegram_id u) as [tg'|]; [|done].
        destruct (send_ok tg') eqn:Hok; [|done]. by injection Hd as ->. }
      destruct Htg as [Htg Hok]. rewrite Htg.
      rewrite (bind_ok _ _ _ _ _ (send_driver_notification_ok _ _ _ _ _ Hok)).
      set (w1 := set_celery _ _).
      destruct (IH w1) as (w' & news & Hrun & Hdb & Hbot & Hoff & Hcel);
        [exact Hrest|].
      exists w', (send_message tg
                    (new_ride_request ride.1 (Z.quot (Ride.display_cost ride.2) 100))
                    (S (length (bot w))) :: news).
      split.
      { rewrite (bind_ok _ _ _ _ _ Hrun). unfold ret.
        do 2 f_equal. cbn [length]. lia. }
      split.
      { apply (same_database_trans w w1 w'); [|done]. subst w1. repeat split. }
      split.
      { rewrite Hbot. subst w1. simpl. by rewrite <- app_assoc. }
      split.
      { cbn [omap list_omap map offer_of]. rewrite Hdel. cbn [map].
        rewrite Hoff. by rewrite (omap_deliverable_same_users w w1). }
      rewrite Hcel. subst w1. simpl. by rewrite <- app_assoc.
    + rewrite (bind_ok _ _ _ false w).
      2:{ apply send_driver_notification_refused. intros tg Htg.
          rewrite Htg in Hd. by destruct (send_ok tg). }
      destruct (IH w) as (w' & news & Hrun & Hrest'); [exact Hrest|].
      exists w', news. split.
      { by rewrite (bind_ok _ _ _ _ _ Hrun). }
      cbn [omap list_omap]. by rewrite Hdel.
Qed.

(** X5.  The first broadcast of a requested ride,
    [notify_drivers_about_new_ride], goes through all the candidates: every
    candidate whose user has a telegram id that Telegram delivers to gets
    one offer at the ride's display cost with a 60-second expiry task, in
    the order of the candidates; a candidate that cannot be reached is
    passed over without stopping the loop; nothing else is written.  The
    task reports whether at least one offer went out. *)
Theorem new_ride_broadcast_passes_over_unreachable_drivers
    (w : World) (ride_id : nat) (r : Ride.t) :
  rides w !! ride_id = Some r ->
  Ride.status r = "requested" ->
  Forall (fun c : (nat * Driver.t) * Z => is_Some (users w !! Driver.user c.1.2))
         (candidates distance_km ride_id w) ->
  exists w' news,
    notify_drivers_about_new_ride distance_km true send_ok ride_id w
      = (Ok (negb (bool_decide (news = []))), w') /\
    same_database w w' /\
    bot w' = bot w ++ news /\
    map offer_of news =
      map (fun tg => Some (tg, new_ride_request ride_id
                                 (Z.quot (Ride.display_cost r) 100)))
          (omap (deliverable send_ok w) (candidates distance_km ride_id w)) /\
    celery w' = celery w ++ omap (timer_of ride_id (now w + 60)) news.
Proof.
  intros Hr Hst Hall.
  destruct (notify_each_new_ride (ride_id, r) _ w Hall)
    as (w' & news & Hrun & Hdb & Hbot & Hoff & Hcel).
  unfold notify_drivers_about_new_ride.
  destruct (candidates distance_km ride_id w) as [|c cands] eqn:Hc.
  - exists w, []. split.
    + erewrite try_except_ok; [reflexivity|].
      rewrite (bind_ok _ _ _ _ _ (Ride_objects_get_status_eq _ _ _ _ Hr Hst)).
      rewrite (bind_ok _ _ _ _ _ (get_nearby_rides_for_new_ride_eq _ _ _)).
      cbn [fst snd]. by rewrite Hc.
    + rewrite !app_nil_r. repeat split.
  - exists w', news. split; [|done].
    erewrite try_except_ok; [reflexivity|].
    rewrite (bind_ok _ _ _ _ _ (Ride_objects_get_status_eq _ _ _ _ Hr Hst)).
    rewrite (bind_ok _ _ _ _ _ (get_nearby_rides_for_new_ride_eq _ _ _)).
    cbn [fst snd]. rewrite Hc.
    rewrite bool_decide_eq_false_2 by done.
    rewrite (bind_ok _ _ _ _ _ Hrun). unfold ret. do 2 f_equal.
    by destruct news.
Qed.

End Broadcast.

(** The example with driver 2 (telegram id 202) out of reach: the offers go
    to 201 and 203. *)
Lemma new_ride_broadcast_passes_over_unreachable_drivers_witness :
  rides example_world !! 1%nat = Some (example_ride None "requested") /\
  exists w' news,
    notify_drivers_about_new_ride example_distance true example_blocked 1
      example_world = (Ok true, w') /\
    bot w' = news /\
    map offer_of news =
      [Some ("201", new_ride_request 1 400); Some ("203", new_ride_request 1 400)].
Proof.
  assert (Hr : rides example_world !! 1%nat = Some (example_ride None "requested"))
    by reflexivity.
  split; [exact Hr|].
  destruct (new_ride_broadcast_passes_over_unreachable_drivers example_distance
              example_blocked example_world 1 _ Hr eq_refl)
    as (w' & news & Hrun & _ & Hbot & Hoff & _).
  - assert (Hc : candidates example_distance 1 example_world
                 = [example_candidate 1; example_candidate 2; example_candidate 3])
      by (vm_compute; reflexivity).
    rewrite Hc. repeat constructor; eexists; vm_compute; reflexivity.
  - exists w', news.
    assert (Hnews : map offer_of news =
              [Some ("201", new_ride_request 1 400);
               Some ("203", new_ride_request 1 400)]).
    { rewrite Hoff. vm_compute. reflexivity. }
    split; [|split; [exact Hbot|exact Hnews]].
    rewrite Hrun. destruct news; [discriminate Hnews|reflexivity].
Defined.

(** ** Tasks that come too late, or without a bot token *)

(** [Ride.objects.get(id=ride_id, status='requested')] on a ride that is
    missing or in another status. *)
Lemma Ride_objects_get_status_gone w ride_id :
  (forall r, rides w !! ride_id = Some r -> Ride.status r <> "requested") ->
  Ride_objects_get_status ride_id "requested" w = (Raise Ride_DoesNotExist, w).
Proof.
  intros Hgone. unfold Ride_objects_get_status.
  destruct (rides w !! ride_id) as [r|] eqn:Hr; [|done].
  destruct (String.eqb_spec (Ride.status r) "requested") as [Hst|]; [|done].
  by destruct (Hgone r eq_refl).
Qed.

(** X6.  Once a ride is no longer requested (accepted, cancelled, or
    deleted), the tasks of the dispatch that are still on the queue do
    nothing when they run: the expiry of an offer reports success, the
    escalation, the system's cancellation and the two broadcasts report
    failure, and none of them writes a row, sends or deletes a message, or
    schedules a task. *)
Theorem late_dispatch_tasks_do_nothing
    (distance_km : nat -> nat -> Z) (TG_BOT_TOKEN_DRIVER : bool)
    (send_ok : string -> bool) (delete_ok : string -> nat -> bool)
    (ride_id : nat) (w : World) :
  (forall r, rides w !! ride_id = Some r -> Ride.status r <> "requested") ->
  (forall driver_telegram_id message_id,
     auto_reject_ride distance_km TG_BOT_TOKEN_DRIVER send_ok delete_ok
       ride_id driver_telegram_id message_id w = (Ok true, w)) /\
  (forall exclude_driver_telegram_id,
     reassign_ride_to_next_driver distance_km TG_BOT_TOKEN_DRIVER send_ok
       ride_id exclude_driver_telegram_id w = (Ok false, w)) /\
  cancel_ride_no_drivers ride_id w = (Ok false, w) /\
  notify_drivers_about_new_ride distance_km TG_BOT_TOKEN_DRIVER send_ok ride_id w
    = (Ok false, w) /\
  notify_drivers_about_boosted_ride distance_km TG_BOT_TOKEN_DRIVER send_ok ride_id w
    = (Ok false, w).
Proof.
  intros Hgone.
  pose proof (Ride_objects_get_status_gone w ride_id Hgone) as Hget.
  split; [|split; [|split; [|split]]].
  - intros tg msg. unfold auto_reject_ride.
    by rewrite (try_except_raise _ _ _ _ _ (bind_raise _ _ _ _ _ Hget)).
  - intros exclude. unfold reassign_ride_to_next_driver.
    by rewrite (try_except_raise _ _ _ _ _ (bind_raise _ _ _ _ _ Hget)).
  - unfold cancel_ride_no_drivers.
    by rewrite (try_except_raise _ _ _ _ _ (bind_raise _ _ _ _ _ Hget)).
  - unfold notify_drivers_about_new_ride.
    by rewrite (try_except_raise _ _ _ _ _ (bind_raise _ _ _ _ _ Hget)).
  - unfold notify_drivers_about_boosted_ride.
    by rewrite (try_except_raise _ _ _ _ _ (bind_raise _ _ _ _ _ Hget)).
Qed.

(** The example ride, once accepted by driver 1: the expiry of the offer of
    driver 2 and the boosted broadcast find nothing to do. *)
Lemma late_dispatch_tasks_do_nothing_witness :
  let w := after (accept_ride "201" 1) example_world in
  auto_reject_ride example_distance true always always2 1 (Some "202") (Some 2%nat) w
    = (Ok true, w) /\
  notify_drivers_about_boosted_ride example_distance true always 1 w = (Ok false, w).
Proof.
  intros w.
  destruct (late_dispatch_tasks_do_nothing example_distance true always always2 1 w)
    as (Hexp & _ & _ & _ & Hboost).
  - intros r. vm_compute. intros [= <-]. discriminate.
  - split; [apply Hexp|exact Hboost].
Defined.

(** A notification that is not sent leaves the loop of a broadcast without
    effect. *)
Lemma notify_each_silent send ride cands w :
  (forall tg d w, send tg ride d w = (Ok false, w)) ->
  exists res,
    notify_each send ride cands w = (res, w) /\ forall n, res = Ok n -> n = 0.
Proof.
  intros Hsend. induction cands as [|c cands (res & IH & Hres)].
  - exists (Ok 0). split; [done|]. by intros n [= <-].
  - cbn [notify_each]. unfold bind at 1, driver_user_telegram_id at 1.
    destruct (users w !! Driver.user c.1.2) as [u|].
    + unfold bind at 1. rewrite Hsend. unfold bind at 1. rewrite IH.
      destruct res as [n|e].
      * exists (Ok n). split; [done|]. intros n' [= <-]. by apply Hres.
      * exists (Raise e). by split.
    + exists (Raise User_DoesNotExist). by split.
Qed.

(** X7.  Without [TG_BOT_TOKEN_DRIVER] in the environment the two
    broadcasts, of a new and of a boosted ride, report failure whatever the
    ride and the drivers are, and leave the world as it was: no offer, no
    expiry task. *)
Theorem broadcasts_without_bot_token_send_nothing
    (distance_km : nat -> nat -> Z) (send_ok : string -> bool)
    (ride_id : nat) (w : World) :
  notify_drivers_about_new_ride distance_km false send_ok ride_id w = (Ok false, w) /\
  notify_drivers_about_boosted_ride distance_km false send_ok ride_id w
    = (Ok false, w).
Proof.
  split.
  - unfold notify_drivers_about_new_ride, try_except.
    unfold bind at 1.
    destruct (Ride_objects_get_status ride_id "requested" w) as [[ride|e] w0] eqn:Hget.
    2:{ unfold Ride_objects_get_status in Hget.
        destruct (rides w !! ride_id) as [r|]; [|by injection Hget as _ <-].
        destruct (String.eqb _ _); by injection Hget as _ <-. }
    assert (w0 = w) as ->.
    { unfold Ride_objects_get_status in Hget.
      destruct (rides w !! ride_id) as [r|]; [|done].
      destruct (String.eqb _ _); by injection Hget. }
    rewrite (bind_ok _ _ _ _ _ (get_nearby_rides_for_new_ride_eq _ _ _)).
    case_bool_decide; [done|].
    unfold bind.
    destruct (notify_each_silent (send_driver_notification false send_ok) ride
                (candidates distance_km ride.1 w) w) as (res & -> & Hres); [done|].
    destruct res as [n|e]; [|done]. by rewrite (Hres n eq_refl).
  - unfold notify_drivers_about_boosted_ride, try_except.
    unfold bind at 1.
    destruct (Ride_objects_get_status ride_id "requested" w) as [[ride|e] w0] eqn:Hget.
    2:{ unfold Ride_objects_get_status in Hget.
        destruct (rides w !! ride_id) as [r|]; [|by injection Hget as _ <-].
        destruct (String.eqb _ _); by injection Hget as _ <-. }
    assert (w0 = w) as ->.
    { unfold Ride_objects_get_status in Hget.
      destruct (rides w !! ride_id) as [r|]; [|done].
      destruct (String.eqb _ _); by injection Hget. }
    rewrite (bind_ok _ _ _ _ _ (get_nearby_rides_for_new_ride_eq _ _ _)).
    case_bool_decide; [done|].
    unfold bind.
    destruct (notify_each_silent (send_boosted_ride_notification false send_ok) ride
                (candidates distance_km ride.1 w) w) as (res & -> & Hres); [done|].
    destruct res as [n|e]; [|done]. by rewrite (Hres n eq_refl).
Qed.

(** ** The expiry of an offer *)

Section Expiry.

Variable distance_km : nat -> nat -> Z.
Variable send_ok : string -> bool.
Variable delete_ok : string -> nat -> bool.

(** An offer is not sent without the token, without a chat, or when
    Telegram refuses it. *)
Lemma send_driver_notification_not_sent token tg ride dist w :
  token = false \/ (forall c, tg = Some c -> send_ok c = false) ->
  send_driver_notification token send_ok tg ride dist w = (Ok false, w).
Proof.
  intros [->|Hno]; [done|].
  destruct token; [|done].
  unfold send_driver_notification, try_except, bind, bot_send_message. simpl.
  destruct tg as [c|]; [|done]. by rewrite (Hno c eq_refl).
Qed.

(** The escalation always returns. *)
Lemma reassign_ride_to_next_driver_returns token ride_id exclude w :
  exists b,
    reassign_ride_to_next_driver distance_km token send_ok ride_id exclude w
      = (Ok b, after (reassign_ride_to_next_driver distance_km token send_ok
                        ride_id exclude) w).
Proof.
  unfold after, reassign_ride_to_next_driver, try_except, ret.
  match goal with |- context [match ?m with _ => _ end] => destruct m as [[b|e] w'] end;
    by eexists.
Qed.

(** X8.  [reassign_ride_to_next_driver] gives the ride up as soon as the one
    driver it picked cannot be offered it.  When the first candidate that is
    not the driver whose offer expired has no chat that Telegram delivers
    to (or the bot token is not set), the ride is cancelled for the system
    with the reason ["No drivers available"] and the passenger's
    notification scheduled; no offer goes out, whatever candidates come
    after him in the list. *)
Theorem escalation_gives_up_after_one_unreachable_driver
    (token : bool) (w : World) (ride_id : nat) (r : Ride.t) (exclude : string)
    (skipped rest : list ((nat * Driver.t) * Z)) (next : (nat * Driver.t) * Z)
    (u : User.t) :
  rides w !! ride_id = Some r ->
  Ride.status r = "requested" ->
  exclude <> "" ->
  candidates distance_km ride_id w = skipped ++ next :: rest ->
  Forall (fun c => has_telegram_id w c exclude) skipped ->
  users w !! Driver.user next.1.2 = Some u ->
  str_opt (User.telegram_id u) <> exclude ->
  token = false \/ (forall tg, User.telegram_id u = Some tg -> send_ok tg = false) ->
  exists w',
    reassign_ride_to_next_driver distance_km token send_ok ride_id (Some exclude) w
      = (Ok false, w') /\
    bot w' = bot w /\
    rides w' !! ride_id = Some (swept (now w) r) /\
    ride_statuses w' = ride_statuses w ++
      [RideStatus.mk ride_id "cancelled_by_system" "No drivers available" (now w)] /\
    last (celery w') = Some (now w, notify_passenger_ride_cancelled_task ride_id).
Proof.
  intros Hr Hst Hne Hc Hskip Hu Htg Hno.
  destruct (cancel_ride_no_drivers_requested w ride_id r Hr Hst)
    as (w' & Hcancel & Hrest).
  exists w'. split; [|exact Hrest].
  assert (Hfind : find_next_driver (Some exclude)
                    (candidates distance_km ride_id w) w = (Ok (Some next), w)).
  { rewrite Hc, find_next_driver_skips by done.
    apply (find_next_driver_stops _ _ _ _ (str_opt (User.telegram_id u)));
      [done|done|]. by exists u. }
  unfold reassign_ride_to_next_driver.
  erewrite try_except_ok; [reflexivity|].
  rewrite (bind_ok _ _ _ _ _ (Ride_objects_get_status_eq _ _ _ _ Hr Hst)).
  rewrite (bind_ok _ _ _ _ _ (get_nearby_rides_for_new_ride_eq _ _ _)).
  cbn [fst snd]. rewrite Hc.
  rewrite bool_decide_eq_false_2 by (by destruct skipped).
  rewrite <- Hc. rewrite (bind_ok _ _ _ _ _ Hfind).
  rewrite (bind_ok _ _ _ _ _ (driver_user_telegram_id_eq _ _ _ Hu)).
  rewrite (bind_ok _ _ _ false w).
  - by rewrite (bind_ok _ _ _ _ _ Hcancel).
  - apply send_driver_notification_not_sent.
    destruct Hno as [->|Hno]; [by left|right]. intros c Hc'. by apply Hno.
Qed.

(** X9.  The expiry of an offer, [auto_reject_ride], on a ride that is still
    requested: the offer is deleted from the driver's chat when Telegram
    allows it (a failure is ignored), then the driver is told that the
    offer timed out, and only then the ride is escalated; the task reports
    success whatever the escalation does.  When the timeout notice cannot
    be delivered, the task stops there and reports failure: the ride is
    neither offered to another driver nor cancelled. *)
Theorem expiry_notifies_the_driver_before_it_escalates
    (w : World) (ride_id : nat) (r : Ride.t) (tg : string)
    (message_id : option nat) :
  rides w !! ride_id = Some r ->
  Ride.status r = "requested" ->
  let deleted :=
    match message_id with
    | Some (S m) => if delete_ok tg (S m) then [delete_message tg (S m)] else []
    | _ => []
    end in
  (send_ok tg = true ->
   auto_reject_ride distance_km true send_ok delete_ok ride_id (Some tg) message_id w
     = (Ok true,
        after (reassign_ride_to_next_driver distance_km true send_ok ride_id (Some tg))
          (set_bot (bot w ++ deleted
                      ++ [send_message tg ride_timeout (S (length (bot w ++ deleted)))])
             w))) /\
  (send_ok tg = false ->
   exists w',
     auto_reject_ride distance_km true send_ok delete_ok ride_id (Some tg) message_id w
       = (Ok false, w') /\
     bot w' = bot w ++ deleted /\
     rides w' = rides w /\ ride_statuses w' = ride_statuses w /\
     celery w' = celery w).
Proof.
  intros Hr Hst deleted.
  set (w1 := set_bot (bot w ++ deleted) w).
  assert (Hdel :
    (match message_id with
     | Some (S m) =>
         try_except (bot_delete_message delete_ok (Some tg) (S m)) (fun _ => ret tt)
     | _ => ret tt
     end) w = (Ok tt, w1)).
  { subst w1 deleted. destruct message_id as [[|m]|].
    - unfold ret. rewrite app_nil_r. by destruct w.
    - unfold try_except, bot_delete_message, ret.
      destruct (delete_ok tg (S m)); [done|]. rewrite app_nil_r. by destruct w.
    - unfold ret. rewrite app_nil_r. by destruct w. }
  split.
  - intros Hok.
    set (w2 := set_bot (bot w ++ deleted ++ [_]) w).
    destruct (reassign_ride_to_next_driver_returns true ride_id (Some tg) w2)
      as [b Hre].
    unfold auto_reject_ride.
    erewrite try_except_ok; [reflexivity|].
    rewrite (bind_ok _ _ _ _ _ (Ride_objects_get_status_eq _ _ _ _ Hr Hst)).
    rewrite (bind_ok _ _ _ tt w1).
    2:{ rewrite <- Hdel. by destruct message_id as [[|m]|]. }
    rewrite (bind_ok _ _ _ tt w2).
    2:{ unfold bind, bot_send_message, ret. rewrite Hok. subst w1 w2. simpl.
        by rewrite app_assoc. }
    rewrite (bind_ok _ _ _ tt
               (after (reassign_ride_to_next_driver distance_km true send_ok
                         ride_id (Some tg)) w2)).
    + reflexivity.
    + unfold try_except. by rewrite (bind_ok _ _ _ _ _ Hre).
  - intros Hno. exists w1. split; [|by subst w1].
    unfold auto_reject_ride.
    rewrite (try_except_raise _ _ _ TelegramError w1); [reflexivity|].
    rewrite (bind_ok _ _ _ _ _ (Ride_objects_get_status_eq _ _ _ _ Hr Hst)).
    rewrite (bind_ok _ _ _ tt w1).
    2:{ rewrite <- Hdel. by destruct message_id as [[|m]|]. }
    apply bind_raise. apply bind_raise.
    unfold bot_send_message. by rewrite Hno.
Qed.

End Expiry.

(** The offer of driver 1 of the example expires while driver 2 has blocked
    the bot: the ride is cancelled although driver 3 could be reached. *)
Lemma escalation_gives_up_after_one_unreachable_driver_witness :
  rides example_one_offer_world !! 1%nat = Some (example_ride None "requested") /\
  candidates example_distance 1 example_one_offer_world
    = [example_candidate 1] ++ example_candidate 2 :: [example_candidate 3] /\
  deliverable example_blocked example_one_offer_world (example_candidate 3)
    = Some "203" /\
  exists w',
    reassign_ride_to_next_driver example_distance true example_blocked 1 (Some "201")
      example_one_offer_world = (Ok false, w') /\
    bot w' = bot example_one_offer_world /\
    rides w' !! 1%nat = Some (swept 1000 (example_ride None "requested")).
Proof.
  assert (Hr : rides example_one_offer_world !! 1%nat
               = Some (example_ride None "requested")) by reflexivity.
  assert (Hc : candidates example_distance 1 example_one_offer_world
               = [example_candidate 1] ++ example_candidate 2 :: [example_candidate 3])
    by (vm_compute; reflexivity).
  split; [exact Hr|]. split; [exact Hc|]. split; [reflexivity|].
  destruct (escalation_gives_up_after_one_unreachable_driver example_distance
              example_blocked true example_one_offer_world 1 _ "201"
              [example_candidate 1] [example_candidate 3] (example_candidate 2)
              (User.mk (Some "202")) Hr eq_refl)
    as (w' & Hrun & Hbot & Hride & _).
  - discriminate.
  - exact Hc.
  - repeat constructor. eexists. split; [vm_compute; reflexivity|reflexivity].
  - vm_compute. reflexivity.
  - discriminate.
  - right. intros tg [= <-]. reflexivity.
  - exists w'. split; [exact Hrun|]. split; [exact Hbot|exact Hride].
Defined.

(** The offer of driver 1 of the example expires: with Telegram at work the
    task reports success; with the driver's chat out of reach it reports
    failure and the ride stays requested. *)
Lemma expiry_notifies_the_driver_before_it_escalates_witness :
  rides example_one_offer_world !! 1%nat = Some (example_ride None "requested") /\
  (auto_reject_ride example_distance true always always2 1 (Some "201") (Some 1%nat)
     example_one_offer_world).1 = Ok true /\
  exists w',
    auto_reject_ride example_distance true never always2 1 (Some "201") (Some 1%nat)
      example_one_offer_world = (Ok false, w') /\
    bot w' = bot example_one_offer_world ++ [delete_message "201" 1] /\
    rides w' = rides example_one_offer_world.
Proof.
  assert (Hr : rides example_one_offer_world !! 1%nat
               = Some (example_ride None "requested")) by reflexivity.
  split; [exact Hr|]. split.
  - destruct (expiry_notifies_the_driver_before_it_escalates example_distance
                always always2 example_one_offer_world 1 _ "201" (Some 1%nat)
                Hr eq_refl) as [Hyes _].
    by rewrite (Hyes eq_refl).
  - destruct (expiry_notifies_the_driver_before_it_escalates example_distance
                never always2 example_one_offer_world 1 _ "201" (Some 1%nat)
                Hr eq_refl) as [_ Hno].
    destruct (Hno eq_refl) as (w' & Hrun & Hbot & Hrides & _).
    exists w'. split; [exact Hrun|]. split; [exact Hbot|exact Hrides].
Defined.

(** ** The periodic sweep *)

Lemma insert_by_created_at_perm x l :
  Permutation (insert_by_created_at x l) (x :: l).
Proof.
  induction l as [|y l IH]; [done|]. simpl.
  destruct (Ride.created_at y.2 <=? Ride.created_at x.2); [done|].
  rewrite IH. apply perm_swap.
Qed.

Lemma order_by_created_at_desc_perm l :
  Permutation (order_by_created_at_desc l) l.
Proof.
  induction l as [|x l IH]; [done|].
  unfold order_by_created_at_desc in *. simpl.
  by rewrite insert_by_created_at_perm, IH.
Qed.

Lemma insert_by_created_at_sorted x l :
  newest_first l -> newest_first (insert_by_created_at x l).
Proof.
  unfold newest_first. induction 1 as [|y l Hl IH Hhd]; simpl.
  - by repeat constructor.
  - destruct (Z.leb_spec (Ride.created_at y.2) (Ride.created_at x.2)) as [Hle|Hgt].
    + by repeat constructor.
    + constructor; [exact IH|].
      destruct Hhd as [|z l Hz]; simpl.
      * constructor. lia.
      * destruct (Ride.created_at z.2 <=? Ride.created_at x.2);
          constructor; [lia|done].
Qed.

Lemma order_by_created_at_desc_sorted l :
  newest_first (order_by_created_at_desc l).
Proof.
  induction l as [|x l IH]; [constructor|].
  by apply insert_by_created_at_sorted.
Qed.

(** The keys of the rows a [filter] returns are distinct. *)
Lemma NoDup_objects_filter_keys {A} (P : nat -> A -> bool) (table : gmap nat A) :
  NoDup (objects_filter P table).*1.
Proof.
  unfold objects_filter.
  assert (Hsub : sublist (List.filter (fun kv : nat * A => P kv.1 kv.2)
                            (map_to_list table)) (map_to_list table)).
  { induction (map_to_list table) as [|x l IH]; [constructor|].
    simpl. destruct (P x.1 x.2); by constructor. }
  apply (sublist_NoDup _ (map_to_list table).*1);
    [apply NoDup_fst_map_to_list|by apply fmap_sublist].
Qed.

(** The loop of the sweep: every ride of the list is written as cancelled
    for the system, with its history row and the passenger's notification,
    in the order of the list. *)
Lemma cancel_stale_spec l : forall w,
  exists w',
    cancel_stale l w = (Ok (Z.of_nat (length l)), w') /\
    rides w' = foldl (fun m kv => <[kv.1 := swept (now w) kv.2]> m) (rides w) l /\
    ride_statuses w' = ride_statuses w ++
      map (fun kv : nat * Ride.t =>
             RideStatus.mk kv.1 "cancelled_by_system" "No drivers available" (now w)) l /\
    celery w' = celery w ++
      map (fun kv : nat * Ride.t =>
             (now w, notify_passenger_ride_cancelled_task kv.1)) l /\
    users w' = users w /\ passengers w' = passengers w /\ drivers w' = drivers w /\
    ratings w' = ratings w /\ app_settings w' = app_settings w /\
    now w' = now w /\ bot w' = bot w.
Proof.
  induction l as [|ride l IH]; intros w.
  - exists w. simpl. rewrite !app_nil_r. repeat split.
  - cbn [cancel_stale].
    rewrite (bind_ok _ _ _ _ _ (update_status_eq _ _ _ _)).
    cbv zeta. unfold delay, apply_async.
    set (w1 := set_ride_statuses _ _).
    unfold bind at 1, modify.
    set (w2 := set_celery _ w1).
    assert (Hw2 :
      rides w2 = <[ride.1 := swept (now w) ride.2]> (rides w) /\
      ride_statuses w2 = ride_statuses w ++
        [RideStatus.mk ride.1 "cancelled_by_system" "No drivers available" (now w)] /\
      celery w2 = celery w ++ [(now w, notify_passenger_ride_cancelled_task ride.1)] /\
      users w2 = users w /\ passengers w2 = passengers w /\ drivers w2 = drivers w /\
      ratings w2 = ratings w /\ app_settings w2 = app_settings w /\
      now w2 = now w /\ bot w2 = bot w).
    { subst w2 w1. unfold saved_world. cbn [fst snd].
      rewrite stamp_status. simpl. rewrite Z.add_0_r. repeat split. }
    destruct Hw2 as (Hr & Hh & Hc & Hu & Hp & Hd & Hra & Ha & Hn & Hb).
    destruct (IH w2) as (w' & Hrun & Hr' & Hh' & Hc' & Hu' & Hp' & Hd' & Hra'
                         & Ha' & Hn' & Hb').
    exists w'. split.
    { rewrite (bind_ok _ _ _ _ _ Hrun). unfold ret. do 2 f_equal.
      cbn [length]. lia. }
    rewrite Hr', Hh', Hc', Hu', Hp', Hd', Hra', Ha', Hn', Hb'.
    rewrite Hr, Hh, Hc, Hn. simpl. rewrite <- !app_assoc. repeat split; done.
Qed.

Lemma lookup_foldl_insert_notin {A B} (f : B -> A) (l : list (nat * B))
    (m : gmap nat A) k :
  k ∉ l.*1 ->
  foldl (fun m kv => <[kv.1 := f kv.2]> m) m l !! k = m !! k.
Proof.
  revert m. induction l as [|[k' x] l IH]; intros m Hk; [done|].
  simpl in *. apply not_elem_of_cons in Hk as [Hne Hk].
  rewrite IH by done. by rewrite lookup_insert_ne.
Qed.

Lemma lookup_foldl_insert_in {A B} (f : B -> A) (l : list (nat * B))
    (m : gmap nat A) k x :
  NoDup l.*1 -> (k, x) ∈ l ->
  foldl (fun m kv => <[kv.1 := f kv.2]> m) m l !! k = Some (f x).
Proof.
  revert m. induction l as [|[k' x'] l IH]; intros m Hnd Hin.
  - by apply elem_of_nil in Hin.
  - simpl in *. apply NoDup_cons in Hnd as [Hk' Hnd].
    apply elem_of_cons in Hin as [[= <- <-]|Hin].
    + rewrite lookup_foldl_insert_notin by done. by rewrite lookup_insert_eq.
    + by apply IH.
Qed.

(** X10.  The periodic sweep [check_ride_timeouts] cancels exactly the rides
    that are requested and older than ten minutes: it returns their number;
    each of them ends as [cancelled_by_system] with the reason
    ["No drivers available"], one history row and one notification of its
    passenger, newest ride first; every other ride, and every other table,
    is left as it was, and no message goes to a driver.  A second sweep at
    the same time finds nothing: it returns 0 and changes nothing. *)
Theorem sweep_cancels_exactly_the_stale_rides (w : World) :
  exists w' stale_rides,
    Permutation stale_rides (objects_filter (fun _ r => stale w r) (rides w)) /\
    newest_first stale_rides /\
    check_ride_timeouts w = (Ok (Z.of_nat (length stale_rides)), w') /\
    rides w' = (fun r => if stale w r then swept (now w) r else r) <$> rides w /\
    ride_statuses w' = ride_statuses w ++
      map (fun kv : nat * Ride.t =>
             RideStatus.mk kv.1 "cancelled_by_system" "No drivers available" (now w))
          stale_rides /\
    celery w' = celery w ++
      map (fun kv : nat * Ride.t =>
             (now w, notify_passenger_ride_cancelled_task kv.1)) stale_rides /\
    (users w' = users w /\ passengers w' = passengers w /\ drivers w' = drivers w /\
     ratings w' = ratings w /\ app_settings w' = app_settings w /\
     now w' = now w /\ bot w' = bot w) /\
    check_ride_timeouts w' = (Ok 0, w').
Proof.
  set (found := objects_filter (fun _ r => stale w r) (rides w)).
  set (l := order_by_created_at_desc found).
  assert (Hperm : Permutation l found) by apply order_by_created_at_desc_perm.
  assert (Hin : forall k r, (k, r) ∈ l <-> rides w !! k = Some r /\ stale w r = true).
  { intros k r. rewrite Hperm.
    apply (elem_of_objects_filter (fun _ r => stale w r)). }
  assert (Hnd : NoDup l.*1).
  { rewrite Hperm. apply NoDup_objects_filter_keys. }
  destruct (cancel_stale_spec l w)
    as (w' & Hrun & Hr & Hh & Hc & Hu & Hp & Hd & Hra & Ha & Hn & Hb).
  assert (Hrides : rides w'
            = (fun r => if stale w r then swept (now w) r else r) <$> rides w).
  { rewrite Hr. apply map_eq. intros k. rewrite lookup_fmap.
    destruct (rides w !! k) as [r|] eqn:Hk; simpl.
    - destruct (stale w r) eqn:Hs.
      + apply lookup_foldl_insert_in; [done|]. by apply Hin.
      + rewrite lookup_foldl_insert_notin; [done|].
        intros Hk'. apply list_elem_of_fmap in Hk' as ([k' r'] & -> & Hk').
        apply Hin in Hk' as [Hk' Hs']. simpl in Hk. congruence.
    - rewrite lookup_foldl_insert_notin; [done|].
      intros Hk'. apply list_elem_of_fmap in Hk' as ([k' r'] & -> & Hk').
      apply Hin in Hk' as [Hk' _]. simpl in Hk. congruence. }
  exists w', l. split; [exact Hperm|].
  split; [apply order_by_created_at_desc_sorted|].
  split; [unfold check_ride_timeouts; by erewrite try_except_ok|].
  split; [exact Hrides|]. split; [exact Hh|]. split; [exact Hc|].
  split; [done|].
  unfold check_ride_timeouts.
  erewrite try_except_ok; [reflexivity|].
  unfold bind, get_world.
  assert (Hnone : objects_filter
                    (fun _ r => String.eqb (Ride.status r) "requested"
                                && (Ride.created_at r <? now w' - 600))
                    (rides w') = []).
  { apply objects_filter_nil. intros k v. rewrite Hrides, lookup_fmap, Hn.
    destruct (rides w !! k) as [r|]; [|done]. simpl. intros [= <-].
    destruct (stale w r) eqn:Hs; [|exact Hs].
    unfold swept. by rewrite stamp_status. }
  by rewrite Hnone.
Qed.

(** ** Going online and offline *)

Lemma elem_of_candidates distance_km ride_id w d row dist :
  ((d, row), dist) ∈ candidates distance_km ride_id w <->
  drivers w !! d = Some row /\ online_verified row = true /\
  dist = distance_km d ride_id.
Proof.
  unfold candidates. rewrite sort_by_distance_perm, list_elem_of_fmap. split.
  - intros ([d' row'] & [= <- <- ->] & Hin).
    by apply elem_of_objects_filter in Hin as [Hin Hp].
  - intros (Hd & Hp & ->). exists (d, row). split; [done|].
    by apply elem_of_objects_filter.
Qed.

Lemma is_driver_row w telegram_id d :
  is_driver w telegram_id d ->
  exists user row,
    User_objects_get telegram_id w = (Ok user, w) /\
    driver_profile user.1 w = (Ok (d, row), w) /\
    drivers w !! d = Some row.
Proof.
  intros (u & urow & drow & Hu & Hd).
  exists (u, urow), drow.
  unfold User_objects_get, driver_profile. simpl. rewrite Hu, Hd.
  by apply objects_get_ok in Hd as [Hd _].
Qed.

(** X11.  A driver's switch reaches the dispatch through his row only.
    [update_driver_status], which the menu calls, writes the flag whether
    the driver is verified or not; [set_driver_online_status] refuses an
    unverified driver and writes nothing.  Either way the driver is among
    the candidates of a ride afterwards exactly when he is online and
    verified, and the other drivers' places in the list are untouched. *)
Theorem driver_is_offered_rides_when_online_and_verified
    (distance_km : nat -> nat -> Z) (w : World) (telegram_id : string) (d : nat)
    (is_online : bool) :
  is_driver w telegram_id d ->
  exists row,
    drivers w !! d = Some row /\
    let row' := Driver_set_is_online is_online row in
    let w' := set_drivers (<[d := row']> (drivers w)) w in
    update_driver_status telegram_id is_online w = (Ok (Some (d, row')), w') /\
    set_driver_online_status telegram_id is_online w =
      (if Driver.is_verified row then (Ok (true, "Status updated"), w')
       else (Ok (false, "Driver not verified"), w)) /\
    (forall ride_id x dist,
       ((d, x), dist) ∈ candidates distance_km ride_id w' <->
       x = row' /\ is_online = true /\ Driver.is_verified row = true /\
       dist = distance_km d ride_id) /\
    (forall ride_id d' x dist, d' <> d ->
       ((d', x), dist) ∈ candidates distance_km ride_id w' <->
       ((d', x), dist) ∈ candidates distance_km ride_id w).
Proof.
  intros Hd. destruct (is_driver_row w telegram_id d Hd)
    as (user & row & Hu & Hp & Hrow).
  exists row. split; [exact Hrow|]. cbv zeta.
  split; [|split; [|split]].
  - unfold update_driver_status.
    erewrite try_except_ok; [reflexivity|].
    rewrite (bind_ok _ _ _ _ _ Hu), (bind_ok _ _ _ _ _ Hp). reflexivity.
  - unfold set_driver_online_status.
    destruct (Driver.is_verified row) eqn:Hv.
    + erewrite try_except_ok; [reflexivity|].
      rewrite (bind_ok _ _ _ _ _ Hu), (bind_ok _ _ _ _ _ Hp).
      cbn [fst snd]. rewrite Hv. reflexivity.
    + erewrite try_except_ok; [reflexivity|].
      rewrite (bind_ok _ _ _ _ _ Hu), (bind_ok _ _ _ _ _ Hp).
      cbn [fst snd]. by rewrite Hv.
  - intros ride_id x dist. rewrite elem_of_candidates. simpl.
    rewrite lookup_insert_eq. unfold online_verified. split.
    + intros ([= <-] & Hov & ->). simpl in Hov.
      apply andb_true_iff in Hov as [Ho Hv]. done.
    + intros (-> & -> & Hv & ->). simpl. by rewrite Hv.
  - intros ride_id d' x dist Hne. rewrite !elem_of_candidates. simpl.
    by rewrite lookup_insert_ne.
Qed.

(** Driver 1 of the example goes offline: he leaves the candidates of the
    example ride, the other two stay. *)
Lemma driver_is_offered_rides_when_online_and_verified_witness :
  is_driver example_world "201" 1 /\
  exists w',
    update_driver_status "201" false example_world
      = (Ok (Some (1%nat, Driver_set_is_online false (example_driver 2))), w') /\
    set_driver_online_status "201" false example_world
      = (Ok (true, "Status updated"), w') /\
    (forall x dist, ((1%nat, x), dist) ∉ candidates example_distance 1 w').
Proof.
  assert (Hd : is_driver example_world "201" 1).
  { exists 2%nat, (User.mk (Some "201")), (example_driver 2).
    split; vm_compute; reflexivity. }
  split; [exact Hd|].
  destruct (driver_is_offered_rides_when_online_and_verified example_distance
              example_world "201" 1 false Hd)
    as (row & Hrow & Hup & Hset & Hin & _).
  assert (Hrow' : drivers example_world !! 1%nat = Some (example_driver 2))
    by reflexivity.
  rewrite Hrow' in Hrow. injection Hrow as <-.
  eexists. split; [exact Hup|]. split; [exact Hset|].
  intros x dist Hx. apply Hin in Hx as (_ & Hx & _). discriminate.
Defined.

(** ** The parties of a ride *)

(** [objects.get] finds the row that satisfies the query when no other row
    does. *)
Lemma objects_get_found {A} e (P : nat -> A -> bool) (table : gmap nat A) k x :
  table !! k = Some x -> P k x = true ->
  (length (objects_filter P table) <= 1)%nat ->
  objects_get e P table = Ok (k, x).
Proof.
  intros Hk HP Hlen.
  assert (Hin : (k, x) ∈ objects_filter P table) by by apply elem_of_objects_filter.
  unfold objects_get.
  destruct (objects_filter P table) as [|kv [|kv' l]]; simpl in Hlen.
  - by apply elem_of_nil in Hin.
  - apply list_elem_of_singleton in Hin. by subst.
  - lia.
Qed.

Lemma hasattr_passenger_profile_found u w k p :
  passengers w !! k = Some p -> Passenger.user p = u ->
  (length (objects_filter (fun _ p => bool_decide (Passenger.user p = u))
             (passengers w)) <= 1)%nat ->
  passenger_profile u w = (Ok (k, p), w) /\
  hasattr_passenger_profile u w = (Ok true, w).
Proof.
  intros Hp Hu Hone.
  assert (Hprof : passenger_profile u w = (Ok (k, p), w)).
  { unfold passenger_profile.
    by rewrite (objects_get_found _ _ _ k p Hp (bool_decide_eq_true_2 _ Hu) Hone). }
  split; [exact Hprof|].
  unfold hasattr_passenger_profile.
  erewrite try_except_ok; [reflexivity|]. by rewrite (bind_ok _ _ _ _ _ Hprof).
Qed.

Lemma hasattr_driver_profile_found u w k d :
  drivers w !! k = Some d -> Driver.user d = u ->
  (length (objects_filter (fun _ d => bool_decide (Driver.user d = u))
             (drivers w)) <= 1)%nat ->
  driver_profile u w = (Ok (k, d), w) /\
  hasattr_driver_profile u w = (Ok true, w).
Proof.
  intros Hd Hu Hone.
  assert (Hprof : driver_profile u w = (Ok (k, d), w)).
  { unfold driver_profile.
    by rewrite (objects_get_found _ _ _ k d Hd (bool_decide_eq_true_2 _ Hu) Hone). }
  split; [exact Hprof|].
  unfold hasattr_driver_profile.
  erewrite try_except_ok; [reflexivity|]. by rewrite (bind_ok _ _ _ _ _ Hprof).
Qed.

Lemma is_ride_passenger_bound u r w :
  constraints_hold w r u -> bound_passenger w r u ->
  is_ride_passenger u r w = (Ok true, w).
Proof.
  intros (Hone & _) (p & Hp & Hu).
  destruct (hasattr_passenger_profile_found u w _ p Hp Hu Hone) as [_ Hhas].
  unfold is_ride_passenger. rewrite (bind_ok _ _ _ _ _ Hhas).
  unfold bind, ride_passenger, ret. rewrite Hp.
  by rewrite bool_decide_eq_true_2.
Qed.

Lemma is_ride_driver_bound u r w :
  constraints_hold w r u -> bound_driver w r u ->
  is_ride_driver u r w = (Ok true, w).
Proof.
  intros (_ & Hone & _) (d & row & Hd & Hrow & Hu).
  destruct (hasattr_driver_profile_found u w d row Hrow Hu Hone) as [_ Hhas].
  unfold is_ride_driver. rewrite (bind_ok _ _ _ _ _ Hhas).
  unfold bind, ride_driver, ret. rewrite Hd, Hrow.
  by rewrite bool_decide_eq_true_2.
Qed.

(** The permission test of [update_ride_status] answers [True] for a party
    of the ride. *)
Lemma permission_test_party u r w :
  constraints_hold w r u ->
  bound_passenger w r u \/ bound_driver w r u ->
  (let* p := is_ride_passenger u r in
   if (p : bool) then ret true else is_ride_driver u r) w = (Ok true, w).
Proof.
  intros Hc Hb.
  destruct (is_ride_passenger_spec u r w) as (rp & Hp & Hp1 & Hp2).
  destruct rp as [[|]|e].
  - by rewrite (bind_ok _ _ _ _ _ Hp).
  - rewrite (bind_ok _ _ _ _ _ Hp). destruct Hb as [Hb|Hb].
    + rewrite (is_ride_passenger_bound u r w Hc Hb) in Hp. discriminate.
    + by apply is_ride_driver_bound.
  - destruct Hb as [Hb|Hb].
    + rewrite (is_ride_passenger_bound u r w Hc Hb) in Hp. discriminate.
    + assert (Hnb : ~ bound_passenger w r u).
      { intros Hb'. rewrite (is_ride_passenger_bound u r w Hc Hb') in Hp.
        discriminate. }
      specialize (Hp2 Hc Hnb). discriminate.
Qed.

Lemma stamp_passenger s n t r : Ride.passenger (stamp s n t r) = Ride.passenger r.
Proof.
  unfold stamp.
  repeat match goal with |- context [if ?b then _ else _] => destruct b end;
    reflexivity.
Qed.

Lemma alter_as_insert {A} (f : A -> A) (m : gmap nat A) k x :
  m !! k = Some x -> <[k := f x]> m = alter f k m.
Proof.
  intros Hk. apply map_eq. intros i. destruct (decide (i = k)) as [->|Hne].
  - by rewrite lookup_insert_eq, lookup_alter_eq, Hk.
  - by rewrite lookup_insert_ne, lookup_alter_ne.
Qed.

(** The counters of a completed ride: one more ride for the passenger and,
    if there is one, for the driver. *)
Lemma count_completed_spec r w :
  is_Some (passengers w !! Ride.passenger r) ->
  match Ride.driver r with
  | Some d => is_Some (drivers w !! d)
  | None => True
  end ->
  exists w',
    count_completed r w = (Ok tt, w') /\
    rides w' = rides w /\
    passengers w' =
      alter (fun p => Passenger.set_total_rides (Passenger.total_rides p + 1) p)
            (Ride.passenger r) (passengers w) /\
    drivers w' =
      match Ride.driver r with
      | Some d =>
          alter (fun d => Driver.set_total_rides (Driver.total_rides d + 1) d)
                d (drivers w)
      | None => drivers w
      end.
Proof.
  intros [prow Hp] Hfk.
  unfold count_completed, bind, ride_driver, ride_passenger, Driver_save,
    Passenger_save, modify, ret.
  destruct (Ride.driver r) as [d|].
  - destruct Hfk as [drow Hd]. rewrite Hd. simpl. rewrite Hp.
    eexists. split; [reflexivity|]. simpl. split; [done|]. split.
    + by apply (alter_as_insert
                  (fun p => Passenger.set_total_rides (Passenger.total_rides p + 1) p)).
    + by apply (alter_as_insert
                  (fun d => Driver.set_total_rides (Driver.total_rides d + 1) d)).
  - rewrite Hp. eexists. split; [reflexivity|]. simpl. split; [done|].
    split; [|done].
    by apply (alter_as_insert
                (fun p => Passenger.set_total_rides (Passenger.total_rides p + 1) p)).
Qed.

(** X12.  [update_ride_status] to [completed], asked by a party of the ride,
    adds one to [total_rides] of the ride's passenger and, when the ride has
    a driver, of its driver -- on every such call, whatever the status the
    ride is in: completing a ride that is completed already counts it once
    more.  Nothing else of the two tables changes. *)
Theorem every_completion_counts_the_ride
    (w : World) (ride_id : nat) (r : Ride.t) (telegram_id notes : string)
    (u : nat) :
  rides w !! ride_id = Some r ->
  telegram_id <> "" ->
  is_user w telegram_id u ->
  constraints_hold w r u ->
  bound_passenger w r u \/ bound_driver w r u ->
  exists ride' w',
    update_ride_status ride_id "completed" notes (Some telegram_id) w
      = (Ok (true, p_ride ride'), w') /\
    rides w' !! ride_id = Some ride'.2 /\
    Ride.status ride'.2 = "completed" /\
    passengers w' =
      alter (fun p => Passenger.set_total_rides (Passenger.total_rides p + 1) p)
            (Ride.passenger r) (passengers w) /\
    drivers w' =
      match Ride.driver r with
      | Some d =>
          alter (fun d => Driver.set_total_rides (Driver.total_rides d + 1) d)
                d (drivers w)
      | None => drivers w
      end.
Proof.
  intros Hr Ht Hu Hc Hb.
  destruct (User_objects_get_is_user _ _ _ Hu) as [row Hget].
  pose proof (permission_test_party u r w Hc Hb) as Hperm.
  pose proof (update_status_eq (ride_id, r) "completed" notes w) as Hus.
  cbv zeta in Hus. cbn [fst snd] in Hus.
  set (r' := stamp "completed" notes (now w) (Ride.set_status "completed" r)) in *.
  set (w1 := set_ride_statuses _ (saved_world (ride_id, r') w)) in *.
  assert (Hdrv : Ride.driver r' = Ride.driver r)
    by exact (stamp_driver "completed" notes (now w) (Ride.set_status "completed" r)).
  assert (Hpas : Ride.passenger r' = Ride.passenger r)
    by exact (stamp_passenger "completed" notes (now w)
                (Ride.set_status "completed" r)).
  destruct (saved_world_tables (ride_id, r') w) as (_ & Hp1 & Hd1 & _).
  assert (Hp1' : passengers w1 = passengers w) by exact Hp1.
  assert (Hd1' : drivers w1 = drivers w) by exact Hd1.
  destruct Hc as (_ & _ & Hpfk & Hfk).
  destruct (count_completed_spec r' w1) as (w' & Hcc & Hr' & Hp' & Hd').
  { by rewrite Hpas, Hp1'. }
  { rewrite Hdrv. destruct (Ride.driver r); [|done]. by rewrite Hd1'. }
  rewrite Hpas, Hp1' in Hp'. rewrite Hdrv, Hd1' in Hd'.
  exists (ride_id, r'), w'. split; [|split; [|split; [|split]]].
  - unfold update_ride_status. rewrite (str_truthy_some _ Ht). simpl default.
    erewrite try_except_ok; [reflexivity|].
    rewrite (bind_ok _ _ _ _ _ (Ride_objects_get_eq _ _ _ Hr)).
    rewrite (bind_ok _ _ _ true w).
    2:{ by rewrite (bind_ok _ _ _ _ _ Hget). }
    cbn [negb]. rewrite (bind_ok _ _ _ _ _ Hus).
    simpl String.eqb. by rewrite (bind_ok _ _ _ _ _ Hcc).
  - rewrite Hr'. subst w1. simpl. rewrite saved_world_rides.
    by rewrite lookup_insert_eq.
  - subst r'. simpl. by rewrite stamp_status.
  - exact Hp'.
  - exact Hd'.
Qed.

(** The completed example ride is completed once more by its driver: the
    counters of driver 1 and of passenger 1 go from 1 to 2. *)
Lemma every_completion_counts_the_ride_witness :
  Ride.status <$> rides example_completed_world !! 1%nat = Some "completed" /\
  Driver.total_rides <$> drivers example_completed_world !! 1%nat = Some 1 /\
  Passenger.total_rides <$> passengers example_completed_world !! 1%nat = Some 1 /\
  exists ride' w',
    update_ride_status 1 "completed" "" (Some "201") example_completed_world
      = (Ok (true, p_ride ride'), w') /\
    Driver.total_rides <$> drivers w' !! 1%nat = Some 2 /\
    Passenger.total_rides <$> passengers w' !! 1%nat = Some 2.
Proof.
  split; [reflexivity|]. split; [reflexivity|]. split; [reflexivity|].
  destruct (rides example_completed_world !! 1%nat) as [r|] eqn:Hr;
    [|vm_compute in Hr; discriminate].
  assert (Hdrv : Ride.driver r = Some 1%nat)
    by (vm_compute in Hr; by injection Hr as <-).
  assert (Hpas : Ride.passenger r = 1%nat)
    by (vm_compute in Hr; by injection Hr as <-).
  assert (Hu : is_user example_completed_world "201" 2)
    by (eexists; vm_compute; reflexivity).
  assert (Hc : constraints_hold example_completed_world r 2).
  { unfold constraints_hold. rewrite Hdrv, Hpas.
    repeat split; try (vm_compute; lia); eexists; reflexivity. }
  assert (Hb : bound_driver example_completed_world r 2).
  { exists 1%nat. eexists. rewrite Hdrv. split; [reflexivity|].
    split; reflexivity. }
  destruct (every_completion_counts_the_ride example_completed_world 1 r "201" ""
              2 Hr ltac:(discriminate) Hu Hc (or_intror Hb))
    as (ride' & w' & Hrun & _ & _ & Hp' & Hd').
  exists ride', w'. split; [exact Hrun|].
  rewrite Hd', Hp', Hdrv, Hpas. split; reflexivity.
Defined.

(** X13.  [cancel_ride] by a party of the ride asks for no particular status
    of the ride.  It records who cancelled -- the passenger's side wins for
    a user who is on both sides --, stamps the cancellation if the ride had
    none, appends the history row and schedules nothing.  The driver stays
    bound to the ride, but the ride no longer counts as an active one: a
    driver who holds an active ride afterwards held another one before. *)
Theorem cancel_ride_records_who_cancelled
    (w : World) (ride_id : nat) (r : Ride.t) (telegram_id reason : string)
    (u : nat) (status : string) :
  rides w !! ride_id = Some r ->
  is_user w telegram_id u ->
  constraints_hold w r u ->
  (bound_passenger w r u /\ status = "cancelled_by_passenger") \/
  (~ bound_passenger w r u /\ bound_driver w r u /\ status = "cancelled_by_driver") ->
  exists r' w',
    cancel_ride ride_id telegram_id reason w = (Ok (true, p_ride (ride_id, r')), w') /\
    rides w' = <[ride_id := r']> (rides w) /\
    Ride.status r' = status /\
    Ride.driver r' = Ride.driver r /\
    (Ride.cancelled_at r = None ->
     Ride.cancelled_at r' = Some (now w) /\ Ride.cancellation_reason r' = reason) /\
    ride_statuses w' = ride_statuses w ++ [RideStatus.mk ride_id status reason (now w)] /\
    celery w' = celery w /\ bot w' = bot w /\
    drivers w' = drivers w /\ passengers w' = passengers w /\
    (forall d, holds_active_ride w' d ->
       exists k r0, k <> ride_id /\ rides w !! k = Some r0 /\
                    Ride.driver r0 = Some d /\
                    status_in active_statuses (Ride.status r0) = true).
Proof.
  intros Hr Hu Hc Hwho.
  destruct (User_objects_get_is_user _ _ _ Hu) as [row Hget].
  set (r' := stamp status reason (now w) (Ride.set_status status r)).
  set (w' := set_ride_statuses
               (ride_statuses w ++ [RideStatus.mk ride_id status reason (now w)])
               (set_rides (<[ride_id := r']> (rides w)) w)).
  assert (Hin : str_in "cancelled" status = true)
    by (by destruct Hwho as [[_ ->]|(_ & _ & ->)]).
  assert (Hus : update_status (ride_id, r) status reason w = (Ok (ride_id, r'), w')).
  { rewrite update_status_eq. cbv zeta. cbn [fst snd]. fold r'.
    unfold saved_world. cbn [fst snd]. subst r'. rewrite stamp_status.
    by destruct Hwho as [[_ ->]|(_ & _ & ->)]. }
  assert (Hst : Ride.status r' = status) by (subst r'; by rewrite stamp_status).
  exists r', w'. split; [|split; [done|split; [done|split; [|split; [|split; [done|]]]]]].
  - unfold cancel_ride. erewrite try_except_ok; [reflexivity|].
    rewrite (bind_ok _ _ _ _ _ Hget).
    rewrite (bind_ok _ _ _ _ _ (Ride_objects_get_eq _ _ _ Hr)). cbn [fst snd].
    destruct Hwho as [[Hp ->]|(Hnp & Hd & ->)].
    + rewrite (bind_ok _ _ _ _ _ (is_ride_passenger_bound u r w Hc Hp)).
      by rewrite (bind_ok _ _ _ _ _ Hus).
    + destruct (is_ride_passenger_spec u r w) as (rp & Hrp & _ & Hfalse).
      rewrite (Hfalse Hc Hnp) in Hrp.
      rewrite (bind_ok _ _ _ _ _ Hrp).
      rewrite (bind_ok _ _ _ _ _ (is_ride_driver_bound u r w Hc Hd)).
      by rewrite (bind_ok _ _ _ _ _ Hus).
  - exact (stamp_driver status reason (now w) (Ride.set_status status r)).
  - intros Hnone.
    pose proof (stamp_cancelled status reason (now w) (Ride.set_status status r))
      as Hsc.
    simpl in Hsc. rewrite Hnone, Hin in Hsc. injection Hsc as H1 H2.
    split; [exact H1|exact H2].
  - repeat split.
    intros d (k & r0 & Hk & Hd0 & Hact).
    destruct (decide (k = ride_id)) as [->|Hne].
    + subst w'. simpl in Hk. rewrite lookup_insert_eq in Hk. injection Hk as <-.
      rewrite Hst in Hact.
      by destruct Hwho as [[_ ->]|(_ & _ & ->)].
    + subst w'. simpl in Hk. rewrite lookup_insert_ne in Hk by done.
      by exists k, r0.
Qed.

(** Driver 1 of the example cancels the ride he accepted: he can take the
    second ride afterwards. *)
Lemma cancel_ride_records_who_cancelled_witness :
  holds_active_ride example_busy_world 1 /\
  exists r' w',
    cancel_ride 1 "201" "Cancelled by driver" example_busy_world
      = (Ok (true, p_ride (1%nat, r')), w') /\
    Ride.status r' = "cancelled_by_driver" /\
    Ride.driver r' = Some 1%nat /\
    ~ holds_active_ride w' 1.
Proof.
  split.
  { exists 1%nat. eexists. split; [vm_compute; reflexivity|]. by split. }
  destruct (rides example_busy_world !! 1%nat) as [r|] eqn:Hr;
    [|vm_compute in Hr; discriminate].
  assert (Hdrv : Ride.driver r = Some 1%nat)
    by (vm_compute in Hr; by injection Hr as <-).
  assert (Hpas : Ride.passenger r = 1%nat)
    by (vm_compute in Hr; by injection Hr as <-).
  assert (Hu : is_user example_busy_world "201" 2)
    by (eexists; vm_compute; reflexivity).
  assert (Hc : constraints_hold example_busy_world r 2).
  { unfold constraints_hold. rewrite Hdrv, Hpas.
    repeat split; try (vm_compute; lia); eexists; reflexivity. }
  assert (Hb : bound_driver example_busy_world r 2).
  { exists 1%nat. eexists. rewrite Hdrv. split; [reflexivity|].
    split; reflexivity. }
  assert (Hnp : ~ bound_passenger example_busy_world r 2).
  { intros (p & Hp & Hpu). rewrite Hpas in Hp. vm_compute in Hp.
    injection Hp as <-. discriminate. }
  destruct (cancel_ride_records_who_cancelled example_busy_world 1 r "201"
              "Cancelled by driver" 2 "cancelled_by_driver" Hr Hu Hc
              (or_intror (conj Hnp (conj Hb eq_refl))))
    as (r' & w' & Hrun & _ & Hst & Hd & _).
  exists r', w'. split; [exact Hrun|]. split; [exact Hst|].
  split; [by rewrite Hd|].
  assert (Hw' : w' = after (cancel_ride 1 "201" "Cancelled by driver")
                       example_busy_world)
    by (unfold after; by rewrite Hrun).
  rewrite Hw'. apply active_rides_nil. vm_compute. reflexivity.
Defined.

(** ** The boost the passenger bot calls *)

Lemma get_max_fare_boosts_configured w m :
  app_settings w !! "max_fare_boosts" = Some m ->
  AppSettings.get_max_fare_boosts w = (Ok (Z.quot m 100), w).
Proof.
  intros Hm. unfold AppSettings.get_max_fare_boosts, AppSettings.get_or_create, bind.
  by rewrite Hm.
Qed.

(** [boost_fare] with both settings stored reads them and writes the ride
    only. *)
Lemma boost_fare_configured self w a m :
  app_settings w !! "fare_boost_amount" = Some a ->
  app_settings w !! "max_fare_boosts" = Some m ->
  boost_fare self w =
    if Ride.fare_boosts self.2 >=? Z.quot m 100
    then (Ok (false, maximum_message (Z.quot m 100), self), w)
    else if negb (String.eqb (Ride.status self.2) "requested")
    then (Ok (false, "Can only boost fare for pending rides", self), w)
    else (Ok (true, boosted_message a (Ride.display_cost self.2 + a), boosted a self),
          saved_world (boosted a self) w).
Proof.
  intros Ha Hm. unfold boost_fare.
  rewrite (bind_ok _ _ _ _ _ (get_max_fare_boosts_configured _ _ Hm)).
  rewrite (bind_ok _ _ _ _ _ (get_fare_boost_amount_configured _ a Ha)).
  destruct (_ >=? _); [reflexivity|].
  destruct (negb _); [reflexivity|].
  unfold decimal_add. unfold bind at 1. unfold ret at 1.
  rewrite (bind_ok _ _ _ _ _ (Ride_save_eq _ _)). reflexivity.
Qed.

(** A successful [increase_ride_cost]: the boosted ride is stored and the
    boosted broadcast scheduled. *)
Lemma increase_ride_cost_boosts w ride_id r telegram_id u a m :
  rides w !! ride_id = Some r ->
  is_user w telegram_id u ->
  constraints_hold w r u ->
  bound_passenger w r u ->
  app_settings w !! "fare_boost_amount" = Some a ->
  app_settings w !! "max_fare_boosts" = Some m ->
  Ride.status r = "requested" ->
  Ride.fare_boosts r < Z.quot m 100 ->
  increase_ride_cost ride_id telegram_id w
    = (Ok (true, p_ride (boosted a (ride_id, r))),
       set_celery
         (celery w ++ [(now w, notify_drivers_about_boosted_ride_task ride_id)])
         (set_rides (<[ride_id := (boosted a (ride_id, r)).2]> (rides w)) w)).
Proof.
  intros Hr Hu Hc Hb Ha Hm Hst Hlt.
  destruct (User_objects_get_is_user _ _ _ Hu) as [row Hget].
  pose proof Hb as (p & Hp & Hpu). pose proof Hc as (Hone & _).
  destruct (hasattr_passenger_profile_found u w _ p Hp Hpu Hone) as [_ Hhas].
  unfold increase_ride_cost. erewrite try_except_ok; [reflexivity|].
  rewrite (bind_ok _ _ _ _ _ Hget).
  rewrite (bind_ok _ _ _ _ _ (Ride_objects_get_eq _ _ _ Hr)). cbn [fst snd].
  rewrite (bind_ok _ _ _ _ _ Hhas). cbn [negb].
  rewrite (bind_ok _ _ _ false w).
  2:{ unfold bind, ride_passenger, ret. rewrite Hp. simpl.
      by rewrite bool_decide_eq_true_2. }
  rewrite Hst, String.eqb_refl. cbn [negb].
  pose proof (boost_fare_configured (ride_id, r) w a m Ha Hm) as Hboost.
  cbn [fst snd] in Hboost. rewrite Hst in Hboost.
  destruct (Z.geb_spec (Ride.fare_boosts r) (Z.quot m 100)); [lia|].
  simpl in Hboost. rewrite (bind_ok _ _ _ _ _ Hboost).
  unfold bind, delay, apply_async, modify, ret, saved_world. simpl.
  rewrite Hst. simpl. by rewrite Z.add_0_r.
Qed.

(** X14.  [increase_ride_cost], with the two boost settings stored, tests in
    this order and says which test failed: the caller must be the user of
    the ride's passenger (["Permission denied"]), the ride must be requested
    (["Ride already assigned or in progress"]), and its boosts below the
    maximum (the limit message); a refusal leaves the whole world as it
    was.  Otherwise the ride is stored with one more boost and the amount
    added to its cost, and one boosted broadcast is scheduled; nothing else
    is written. *)
Theorem increase_ride_cost_tells_why_it_refuses
    (w : World) (ride_id : nat) (r : Ride.t) (telegram_id : string) (u : nat)
    (a m : Z) :
  rides w !! ride_id = Some r ->
  is_user w telegram_id u ->
  constraints_hold w r u ->
  app_settings w !! "fare_boost_amount" = Some a ->
  app_settings w !! "max_fare_boosts" = Some m ->
  (~ bound_passenger w r u ->
   increase_ride_cost ride_id telegram_id w
     = (Ok (false, p_str "Permission denied"), w)) /\
  (bound_passenger w r u -> Ride.status r <> "requested" ->
   increase_ride_cost ride_id telegram_id w
     = (Ok (false, p_str "Ride already assigned or in progress"), w)) /\
  (bound_passenger w r u -> Ride.status r = "requested" ->
   Z.quot m 100 <= Ride.fare_boosts r ->
   increase_ride_cost ride_id telegram_id w
     = (Ok (false, p_str (maximum_message (Z.quot m 100))), w)) /\
  (bound_passenger w r u -> Ride.status r = "requested" ->
   Ride.fare_boosts r < Z.quot m 100 ->
   increase_ride_cost ride_id telegram_id w
     = (Ok (true, p_ride (boosted a (ride_id, r))),
        set_celery
          (celery w ++ [(now w, notify_drivers_about_boosted_ride_task ride_id)])
          (set_rides (<[ride_id := (boosted a (ride_id, r)).2]> (rides w)) w))).
Proof.
  intros Hr Hu Hc Ha Hm.
  destruct (User_objects_get_is_user _ _ _ Hu) as [row Hget].
  split; [|split; [|split]].
  - intros Hnb.
    destruct (hasattr_passenger_profile_spec u w) as (res & Hhas & Hres).
    pose proof Hc as (Hone & _ & [p Hp] & _).
    destruct (Hres Hone) as [has ->].
    unfold increase_ride_cost. erewrite try_except_ok; [reflexivity|].
    rewrite (bind_ok _ _ _ _ _ Hget).
    rewrite (bind_ok _ _ _ _ _ (Ride_objects_get_eq _ _ _ Hr)). cbn [fst snd].
    rewrite (bind_ok _ _ _ _ _ Hhas).
    rewrite (bind_ok _ _ _ true w); [done|].
    destruct has; [|done]. cbn [negb].
    unfold bind, ride_passenger, ret. rewrite Hp. simpl.
    rewrite bool_decide_eq_false_2; [done|].
    intros Hpu. apply Hnb. by exists p.
  - intros Hb Hst.
    pose proof Hb as (p & Hp & Hpu). pose proof Hc as (Hone & _).
    destruct (hasattr_passenger_profile_found u w _ p Hp Hpu Hone) as [_ Hhas].
    unfold increase_ride_cost. erewrite try_except_ok; [reflexivity|].
    rewrite (bind_ok _ _ _ _ _ Hget).
    rewrite (bind_ok _ _ _ _ _ (Ride_objects_get_eq _ _ _ Hr)). cbn [fst snd].
    rewrite (bind_ok _ _ _ _ _ Hhas). cbn [negb].
    rewrite (bind_ok _ _ _ false w).
    2:{ unfold bind, ride_passenger, ret. rewrite Hp. simpl.
        by rewrite bool_decide_eq_true_2. }
    by destruct (String.eqb_spec (Ride.status r) "requested").
  - intros Hb Hst Hmax.
    pose proof Hb as (p & Hp & Hpu). pose proof Hc as (Hone & _).
    destruct (hasattr_passenger_profile_found u w _ p Hp Hpu Hone) as [_ Hhas].
    unfold increase_ride_cost. erewrite try_except_ok; [reflexivity|].
    rewrite (bind_ok _ _ _ _ _ Hget).
    rewrite (bind_ok _ _ _ _ _ (Ride_objects_get_eq _ _ _ Hr)). cbn [fst snd].
    rewrite (bind_ok _ _ _ _ _ Hhas). cbn [negb].
    rewrite (bind_ok _ _ _ false w).
    2:{ unfold bind, ride_passenger, ret. rewrite Hp. simpl.
        by rewrite bool_decide_eq_true_2. }
    rewrite Hst, String.eqb_refl. cbn [negb].
    pose proof (boost_fare_configured (ride_id, r) w a m Ha Hm) as Hboost.
    cbn [fst snd] in Hboost.
    destruct (Z.geb_spec (Ride.fare_boosts r) (Z.quot m 100)); [|lia].
    by rewrite (bind_ok _ _ _ _ _ Hboost).
  - intros Hb Hst Hlt. by apply (increase_ride_cost_boosts w ride_id r telegram_id u a m).
Qed.

(** The example ride is boosted by its passenger. *)
Lemma increase_ride_cost_tells_why_it_refuses_witness :
  rides example_world !! 1%nat = Some (example_ride None "requested") /\
  is_user example_world "100" 1 /\
  bound_passenger example_world (example_ride None "requested") 1 /\
  exists w',
    increase_ride_cost 1 "100" example_world
      = (Ok (true, p_ride (1%nat, Ride.set_boost 1 (Some 50000)
                                    (example_ride None "requested"))), w') /\
    celery w' = [(1000, notify_drivers_about_boosted_ride_task 1)].
Proof.
  assert (Hr : rides example_world !! 1%nat = Some (example_ride None "requested"))
    by reflexivity.
  assert (Hu : is_user example_world "100" 1) by (eexists; vm_compute; reflexivity).
  assert (Hb : bound_passenger example_world (example_ride None "requested") 1).
  { eexists. split; reflexivity. }
  assert (Hc : constraints_hold example_world (example_ride None "requested") 1).
  { repeat split; try (vm_compute; lia). eexists. reflexivity. }
  split; [exact Hr|]. split; [exact Hu|]. split; [exact Hb|].
  destruct (increase_ride_cost_tells_why_it_refuses example_world 1 _ "100" 1
              10000 300 Hr Hu Hc eq_refl eq_refl) as (_ & _ & _ & Hyes).
  eexists. split; [apply (Hyes Hb eq_refl); reflexivity|reflexivity].
Defined.

(** Reading the maximum stores it when it was not stored. *)
Lemma get_max_fare_boosts_creates w :
  exists s1 m1,
    AppSettings.get_max_fare_boosts w = (Ok (Z.quot m1 100), set_app_settings s1 w) /\
    s1 !! "max_fare_boosts" = Some m1 /\
    Z.quot m1 100 = max_fare_boosts_of w /\
    s1 !! "fare_boost_amount" = app_settings w !! "fare_boost_amount".
Proof.
  unfold AppSettings.get_max_fare_boosts, AppSettings.get_or_create, bind,
    max_fare_boosts_of, ret.
  destruct (app_settings w !! "max_fare_boosts") as [v|] eqn:Hv; simpl.
  - exists (app_settings w), v. by destruct w.
  - exists (<["max_fare_boosts" := 300]> (app_settings w)), 300.
    split; [reflexivity|]. rewrite lookup_insert_eq. split; [done|].
    split; [reflexivity|]. by rewrite lookup_insert_ne.
Qed.

(** X15.  On an installation where the boost amount was never stored, the
    first boost of a requested ride by its passenger fails without a
    reason: reading the amount stores its default, 100.00, but the value
    handed out is the [float] of the source text, and adding it to the
    [Decimal] cost raises.  The ride and the task queue are untouched.  The
    same call made again finds the stored amount and succeeds, boosting the
    ride by 100.00. *)
Theorem first_boost_without_stored_amount_fails_once
    (w : World) (ride_id : nat) (r : Ride.t) (telegram_id : string) (u : nat) :
  rides w !! ride_id = Some r ->
  is_user w telegram_id u ->
  constraints_hold w r u ->
  bound_passenger w r u ->
  Ride.status r = "requested" ->
  app_settings w !! "fare_boost_amount" = None ->
  Ride.fare_boosts r < max_fare_boosts_of w ->
  exists w1,
    increase_ride_cost ride_id telegram_id w = (Ok (false, p_none), w1) /\
    rides w1 = rides w /\ celery w1 = celery w /\
    app_settings w1 !! "fare_boost_amount" = Some 10000 /\
    increase_ride_cost ride_id telegram_id w1
      = (Ok (true, p_ride (boosted 10000 (ride_id, r))),
         set_celery
           (celery w ++ [(now w, notify_drivers_about_boosted_ride_task ride_id)])
           (set_rides (<[ride_id := (boosted 10000 (ride_id, r)).2]> (rides w)) w1)).
Proof.
  intros Hr Hu Hc Hb Hst Ha Hlt.
  destruct (get_max_fare_boosts_creates w) as (s1 & m1 & Hmax & Hm1 & Hq & Hs1).
  set (w1 := set_app_settings (<["fare_boost_amount" := 10000]> s1) w).
  destruct (User_objects_get_is_user _ _ _ Hu) as [row Hget].
  pose proof Hb as (p & Hp & Hpu). pose proof Hc as (Hone & _).
  destruct (hasattr_passenger_profile_found u w _ p Hp Hpu Hone) as [_ Hhas].
  assert (Hboost : boost_fare (ride_id, r) w = (Raise TypeError, w1)).
  { unfold boost_fare. rewrite (bind_ok _ _ _ _ _ Hmax).
    unfold AppSettings.get_fare_boost_amount, AppSettings.get_or_create.
    unfold bind at 1. simpl app_settings. rewrite Hs1, Ha.
    cbn [fst snd]. rewrite Hq.
    destruct (Z.geb_spec (Ride.fare_boosts r) (max_fare_boosts_of w)); [lia|].
    rewrite Hst. simpl. unfold bind, decimal_add, raise. reflexivity. }
  exists w1. split; [|split; [done|split; [done|split]]].
  - unfold increase_ride_cost.
    rewrite (try_except_raise _ _ _ TypeError w1); [reflexivity|].
    rewrite (bind_ok _ _ _ _ _ Hget).
    rewrite (bind_ok _ _ _ _ _ (Ride_objects_get_eq _ _ _ Hr)). cbn [fst snd].
    rewrite (bind_ok _ _ _ _ _ Hhas). cbn [negb].
    rewrite (bind_ok _ _ _ false w).
    2:{ unfold bind, ride_passenger, ret. rewrite Hp. simpl.
        by rewrite bool_decide_eq_true_2. }
    rewrite Hst, String.eqb_refl. cbn [negb].
    by rewrite (bind_raise _ _ _ _ _ Hboost).
  - subst w1. simpl. by rewrite lookup_insert_eq.
  - apply (increase_ride_cost_boosts w1 ride_id r telegram_id u 10000 m1);
      try done.
    + subst w1. simpl. by rewrite lookup_insert_eq.
    + subst w1. simpl. by rewrite lookup_insert_ne.
    + lia.
Qed.

(** The example on a fresh installation. *)
Lemma first_boost_without_stored_amount_fails_once_witness :
  app_settings example_fresh_world = ∅ /\
  exists w1,
    increase_ride_cost 1 "100" example_fresh_world = (Ok (false, p_none), w1) /\
    Ride.display_cost <$> rides w1 !! 1%nat = Some 40000 /\
    exists w2,
      increase_ride_cost 1 "100" w1
        = (Ok (true, p_ride (1%nat, Ride.set_boost 1 (Some 50000)
                                      (example_ride None "requested"))), w2).
Proof.
  split; [reflexivity|].
  assert (Hr : rides example_fresh_world !! 1%nat
               = Some (example_ride None "requested")) by reflexivity.
  assert (Hu : is_user example_fresh_world "100" 1)
    by (eexists; vm_compute; reflexivity).
  assert (Hb : bound_passenger example_fresh_world (example_ride None "requested") 1).
  { eexists. split; reflexivity. }
  assert (Hc : constraints_hold example_fresh_world (example_ride None "requested") 1).
  { repeat split; try (vm_compute; lia). eexists. reflexivity. }
  destruct (first_boost_without_stored_amount_fails_once example_fresh_world 1 _
              "100" 1 Hr Hu Hc Hb eq_refl eq_refl)
    as (w1 & Hrun1 & Hrides & _ & _ & Hrun2).
  - vm_compute. reflexivity.
  - exists w1. split; [exact Hrun1|]. split; [by rewrite Hrides|].
    eexists. exact Hrun2.
Defined.

(** ** The ride histories *)

(** The first [n] of a list that is newest first: they are newest first,
    and what is left out is not newer than any of them. *)
Lemma take_newest_first n (all : list (nat * Ride.t)) :
  newest_first all ->
  newest_first (take n all) /\
  (forall x, x ∈ take n all -> x ∈ all) /\
  (forall x y, x ∈ take n all -> y ∈ all -> y ∉ take n all ->
     Ride.created_at y.2 <= Ride.created_at x.2) /\
  (length (take n all) <= n)%nat /\
  ((length (take n all) < n)%nat -> take n all = all).
Proof.
  intros Hs.
  assert (Hss : StronglySorted
                  (fun x y : nat * Ride.t => Ride.created_at y.2 <= Ride.created_at x.2)
                  (take n all ++ drop n all)).
  { rewrite take_drop. apply Sorted_StronglySorted; [|exact Hs].
    intros x y z Hxy Hyz. lia. }
  split; [|split; [|split; [|split]]].
  - apply StronglySorted_app_1_l in Hss. by apply StronglySorted_Sorted.
  - intros x Hx. rewrite <- (take_drop n all). apply elem_of_app. by left.
  - intros x y Hx Hy Hny. rewrite <- (take_drop n all) in Hy.
    apply elem_of_app in Hy as [Hy|Hy]; [done|].
    by apply (StronglySorted_app_1_elem_of _ _ _ _ _ Hss).
  - rewrite length_take. lia.
  - rewrite length_take. intros Hlt. apply take_ge. lia.
Qed.

Lemma is_passenger_run w telegram_id p :
  is_passenger w telegram_id p ->
  exists user prow,
    User_objects_get telegram_id w = (Ok user, w) /\
    passenger_profile user.1 w = (Ok (p, prow), w).
Proof.
  intros (u & urow & prow & Hu & Hp).
  exists (u, urow), prow.
  unfold User_objects_get, passenger_profile. simpl. by rewrite Hu, Hp.
Qed.

(** X16.  [get_passenger_rides] reads only.  For a telegram id that no user
    has it returns the empty list.  For a passenger it lists rides of this
    passenger, of the status asked for if one is given (an empty status
    asks for none), newest first; with a limit of [n > 0] at most [n] of
    them, and a ride left out is not newer than a listed one; with no
    limit, or a limit of 0, all of them. *)
Theorem passenger_history_is_newest_first
    (w : World) (telegram_id : string) (status : option string)
    (limit : option nat) :
  (no_user w telegram_id ->
   get_passenger_rides telegram_id status limit w = (Ok [], w)) /\
  (forall p,
     is_passenger w telegram_id p ->
     exists l,
       get_passenger_rides telegram_id status limit w = (Ok l, w) /\
       newest_first l /\
       (forall k r, (k, r) ∈ l ->
          rides w !! k = Some r /\ Ride.passenger r = p /\ wanted status r = true) /\
       (forall k r k' r',
          (k, r) ∈ l -> (k', r') ∉ l ->
          rides w !! k' = Some r' -> Ride.passenger r' = p ->
          wanted status r' = true ->
          Ride.created_at r' <= Ride.created_at r) /\
       match limit with
       | Some (S n) =>
           (length l <= S n)%nat /\
           ((length l < S n)%nat ->
            forall k r, rides w !! k = Some r -> Ride.passenger r = p ->
                        wanted status r = true -> (k, r) ∈ l)
       | _ =>
           forall k r, rides w !! k = Some r -> Ride.passenger r = p ->
                       wanted status r = true -> (k, r) ∈ l
       end).
Proof.
  split.
  - intros Hno. unfold get_passenger_rides.
    by rewrite (try_except_raise _ _ _ _ _
                  (bind_raise _ _ _ _ _ (User_objects_get_no_user _ _ Hno))).
  - intros p Hp.
    destruct (is_passenger_run w telegram_id p Hp) as (user & prow & Hu & Hprof).
    set (found :=
           let rides :=
             objects_filter (fun _ r => bool_decide (Ride.passenger r = p)) (rides w) in
           if str_truthy status
           then List.filter (fun kv : nat * Ride.t =>
                               String.eqb (Ride.status kv.2) (default "" status)) rides
           else rides).
    set (all := order_by_created_at_desc found).
    assert (Hall : forall k r,
              (k, r) ∈ all <->
              rides w !! k = Some r /\ Ride.passenger r = p /\ wanted status r = true).
    { intros k r. unfold all. rewrite order_by_created_at_desc_perm.
      unfold found, wanted. cbv zeta. destruct (str_truthy status).
      - rewrite list_elem_of_In, filter_In, <- list_elem_of_In.
        rewrite elem_of_objects_filter, bool_decide_eq_true. simpl. tauto.
      - rewrite elem_of_objects_filter, bool_decide_eq_true. tauto. }
    assert (Hsorted : newest_first all) by apply order_by_created_at_desc_sorted.
    set (l := match limit with
              | Some (S n) => slice_to (S n) all
              | _ => all
              end).
    assert (Hrun : get_passenger_rides telegram_id status limit w = (Ok l, w)).
    { unfold get_passenger_rides. erewrite try_except_ok; [reflexivity|].
      rewrite (bind_ok _ _ _ _ _ Hu), (bind_ok _ _ _ _ _ Hprof). reflexivity. }
    exists l. split; [exact Hrun|].
    destruct limit as [[|n]|]; subst l.
    + split; [done|]. split; [intros k r; apply Hall|].
      split; [|intros k r ???; by apply Hall].
      intros k r k' r' _ Hout Hk' Hp' Hw'. destruct Hout. by apply Hall.
    + unfold slice_to.
      destruct (take_newest_first (S n) all Hsorted)
        as (Hs & Hsub & Hold & Hlen & Hfull).
      split; [done|]. split; [intros k r Hin; by apply Hall, Hsub|].
      split.
      * intros k r k' r' Hin Hout Hk' Hp' Hw'.
        apply (Hold (k, r) (k', r') Hin); [by apply Hall|done].
      * split; [done|]. intros Hlt k r Hk Hpr Hw. rewrite (Hfull Hlt).
        by apply Hall.
    + split; [done|]. split; [intros k r; apply Hall|].
      split; [|intros k r ???; by apply Hall].
      intros k r k' r' _ Hout Hk' Hp' Hw'. destruct Hout. by apply Hall.
Qed.

(** The passenger of the example with three rides: a limit of 0 lists them
    all, and a stranger gets the empty list. *)
Lemma passenger_history_is_newest_first_witness :
  no_user example_sweep_world "999" /\
  is_passenger example_sweep_world "100" 1 /\
  get_passenger_rides "999" None (Some 10%nat) example_sweep_world
    = (Ok [], example_sweep_world) /\
  exists l,
    get_passenger_rides "100" None (Some 0%nat) example_sweep_world
      = (Ok l, example_sweep_world) /\
    newest_first l /\
    forall k r, rides example_sweep_world !! k = Some r -> Ride.passenger r = 1%nat ->
                (k, r) ∈ l.
Proof.
  assert (Hno : no_user example_sweep_world "999") by (vm_compute; reflexivity).
  assert (Hp : is_passenger example_sweep_world "100" 1).
  { exists 1%nat, (User.mk (Some "100")), (Passenger.mk 1 0).
    split; vm_compute; reflexivity. }
  split; [exact Hno|]. split; [exact Hp|]. split.
  - destruct (passenger_history_is_newest_first example_sweep_world "999" None
                (Some 10%nat)) as [Hnone _].
    exact (Hnone Hno).
  - destruct (passenger_history_is_newest_first example_sweep_world "100" None
                (Some 0%nat)) as [_ Hsome].
    destruct (Hsome 1%nat Hp) as (l & Hrun & Hsorted & _ & _ & Hall).
    exists l. split; [exact Hrun|]. split; [exact Hsorted|].
    intros k r Hk Hpr. by apply Hall.
Defined.

(** X17.  [get_driver_rides] reads only.  For a telegram id that no user has
    it returns the empty list.  For a driver it lists rides bound to this
    driver, newest first, at most [limit] of them -- none with a limit of
    0 --, and a ride left out is not newer than a listed one. *)
Theorem driver_history_is_newest_first
    (w : World) (telegram_id : string) (limit : option nat) :
  (no_user w telegram_id ->
   get_driver_rides telegram_id limit w = (Ok [], w)) /\
  (forall d,
     is_driver w telegram_id d ->
     exists l,
       get_driver_rides telegram_id limit w = (Ok l, w) /\
       newest_first l /\
       (forall k r, (k, r) ∈ l -> rides w !! k = Some r /\ Ride.driver r = Some d) /\
       (forall k r k' r',
          (k, r) ∈ l -> (k', r') ∉ l ->
          rides w !! k' = Some r' -> Ride.driver r' = Some d ->
          Ride.created_at r' <= Ride.created_at r) /\
       match limit with
       | Some n =>
           (length l <= n)%nat /\
           ((length l < n)%nat ->
            forall k r, rides w !! k = Some r -> Ride.driver r = Some d -> (k, r) ∈ l)
       | None =>
           forall k r, rides w !! k = Some r -> Ride.driver r = Some d -> (k, r) ∈ l
       end).
Proof.
  split.
  - intros Hno. unfold get_driver_rides.
    by rewrite (try_except_raise _ _ _ _ _
                  (bind_raise _ _ _ _ _ (User_objects_get_no_user _ _ Hno))).
  - intros d Hd.
    destruct (is_driver_row w telegram_id d Hd) as (user & row & Hu & Hprof & _).
    set (all := order_by_created_at_desc
                  (objects_filter (fun _ r => bool_decide (Ride.driver r = Some d))
                     (rides w))).
    assert (Hall : forall k r,
              (k, r) ∈ all <-> rides w !! k = Some r /\ Ride.driver r = Some d).
    { intros k r. unfold all. rewrite order_by_created_at_desc_perm.
      by rewrite elem_of_objects_filter, bool_decide_eq_true. }
    assert (Hsorted : newest_first all) by apply order_by_created_at_desc_sorted.
    set (l := match limit with
              | Some n => slice_to n all
              | None => all
              end).
    assert (Hrun : get_driver_rides telegram_id limit w = (Ok l, w)).
    { unfold get_driver_rides. erewrite try_except_ok; [reflexivity|].
      rewrite (bind_ok _ _ _ _ _ Hu), (bind_ok _ _ _ _ _ Hprof). reflexivity. }
    exists l. split; [exact Hrun|].
    destruct limit as [n|]; subst l.
    + unfold slice_to.
      destruct (take_newest_first n all Hsorted)
        as (Hs & Hsub & Hold & Hlen & Hfull).
      split; [done|]. split; [intros k r Hin; by apply Hall, Hsub|].
      split.
      * intros k r k' r' Hin Hout Hk' Hd'.
        apply (Hold (k, r) (k', r') Hin); [by apply Hall|done].
      * split; [done|]. intros Hlt k r Hk Hdr. rewrite (Hfull Hlt).
        by apply Hall.
    + split; [done|]. split; [intros k r; apply Hall|].
      split; [|intros k r ??; by apply Hall].
      intros k r k' r' _ Hout Hk' Hd'. destruct Hout. by apply Hall.
Qed.

(** Driver 1 of the example, who has one ride: a limit of 0 lists nothing,
    a limit of 10 lists the ride. *)
Lemma driver_history_is_newest_first_witness :
  is_driver example_sweep_world "201" 1 /\
  get_driver_rides "201" (Some 0%nat) example_sweep_world
    = (Ok [], example_sweep_world) /\
  exists l r,
    get_driver_rides "201" (Some 10%nat) example_sweep_world
      = (Ok l, example_sweep_world) /\
    rides example_sweep_world !! 3%nat = Some r /\ (3%nat, r) ∈ l.
Proof.
  assert (Hd : is_driver example_sweep_world "201" 1).
  { exists 2%nat, (User.mk (Some "201")), (example_driver 2).
    split; vm_compute; reflexivity. }
  split; [exact Hd|]. split.
  - destruct (driver_history_is_newest_first example_sweep_world "201" (Some 0%nat))
      as [_ Hsome].
    destruct (Hsome 1%nat Hd) as (l & Hrun & _ & _ & _ & Hlen & _).
    rewrite Hrun. destruct l; [reflexivity|simpl in Hlen; lia].
  - destruct (driver_history_is_newest_first example_sweep_world "201" (Some 10%nat))
      as [_ Hsome].
    destruct (Hsome 1%nat Hd) as (l & Hrun & _ & Hin & _ & Hlen & Hfull).
    destruct (rides example_sweep_world !! 3%nat) as [r|] eqn:Hr;
      [|vm_compute in Hr; discriminate].
    exists l, r. split; [exact Hrun|]. split; [reflexivity|].
    apply Hfull; [|exact Hr|vm_compute in Hr; by injection Hr as <-].
    assert (Hl : (get_driver_rides "201" (Some 10%nat) example_sweep_world).1 = Ok l)
      by (by rewrite Hrun).
    vm_compute in Hl. injection Hl as <-. simpl. lia.
Defined.

(** ** Rating a ride *)




